(** * rated-feeder: the Bank of England OIS rate feeder, embedded and verified

    The development follows the three source files of the repository:

    - [python_modules/boe_ois_fetcher.py]: class [BOEOISFetcher] with
      [fetch_ois_data], [_parse_ois_sheet] (column scan, row collection,
      sort, [calculate_change]) and [format_summary];
    - [python_modules/email_sender.py]: class [EmailSender] with [__init__],
      [send_email] and [create_ois_html_email];
    - [ois_daily_agent.py]: [main].

    The Python runtime the code relies on is modelled first (module [Py]):
    text as UTF-8 byte strings, [float] as IEEE-754 binary64 through the
    standard library's [SpecFloat], [int] as [Z], naive [datetime] values,
    the dynamically typed cell values a worksheet yields, exceptions as an
    error monad, and the process environment (clock, environment variables,
    network, SMTP) as an explicit world read by a state monad. *)

From Stdlib Require Import ZArith List String Ascii Bool Lia.
From Stdlib Require Import Permutation Sorted QArith Qabs.
From Stdlib Require Import DecimalString Decimal.
From Stdlib Require Import Floats.SpecFloat.
Import ListNotations.

Close Scope Q_scope.
Open Scope string_scope.

(* ===================================================================== *)
(** * The Python runtime *)
(* ===================================================================== *)

Module Py.

(** ** Exceptions and the error monad *)

Inductive exc_class :=
| ValueError | TypeError | IndexError | OverflowError | KeyError
| RequestException | SMTPAuthenticationError | SMTPException | OtherException.

Record exn := Exn { exn_class : exc_class; exn_msg : string }.

Inductive result (A : Type) :=
| Ok (a : A)
| Raise (e : exn).
Arguments Ok {A} a.
Arguments Raise {A} e.

Definition rbind {A B} (r : result A) (k : A -> result B) : result B :=
  match r with
  | Ok a => k a
  | Raise e => Raise e
  end.

Declare Scope result_scope.
Delimit Scope result_scope with result.
Notation "x <- c ;; k" := (rbind c (fun x => k))
  (at level 61, c at next level, right associativity) : result_scope.

Definition is_ok {A} (r : result A) : bool :=
  match r with Ok _ => true | Raise _ => false end.

(** ** Text *)

Definition dquote : string := String "034"%char EmptyString.
Definition newline : string := String "010"%char EmptyString.

(** [len(s)] counts code points: every byte of the UTF-8 encoding except
    the continuation bytes 10xxxxxx. *)
Fixpoint py_len (s : string) : nat :=
  match s with
  | EmptyString => 0
  | String c t =>
      let b := nat_of_ascii c in
      if (Nat.leb 128 b && Nat.ltb b 192)%bool then py_len t else S (py_len t)
  end.

Fixpoint repeat_str (s : string) (n : nat) : string :=
  match n with
  | O => ""
  | S n' => s ++ repeat_str s n'
  end.

(** [s.rjust(w, fill)], the [>w] alignment of a format specification. *)
Definition rjust (w : nat) (fill : string) (s : string) : string :=
  repeat_str fill (w - py_len s) ++ s.

Definition str_of_N (n : N) : string := NilZero.string_of_uint (N.to_uint n).

Definition str_of_Z (z : Z) : string :=
  match z with
  | Zneg p => "-" ++ str_of_N (Npos p)
  | _ => str_of_N (Z.to_N z)
  end.

(** A non-negative number zero-padded to [w] digits ([%02d] and the like). *)
Definition zpad (w : nat) (z : Z) : string := rjust w "0" (str_of_Z z).

Fixpoint str_contains_at (p s : string) : bool :=
  match p, s with
  | EmptyString, _ => true
  | String a p', String b s' => (Ascii.eqb a b && str_contains_at p' s')%bool
  | String _ _, EmptyString => false
  end.

(** [p in s] *)
Fixpoint str_contains (p s : string) : bool :=
  (str_contains_at p s ||
   match s with
   | EmptyString => false
   | String _ s' => str_contains p s'
   end)%bool.

(** ** Floats: IEEE-754 binary64 *)

Definition prec : Z := 53.
Definition emax : Z := 1024.

Definition float := spec_float.

(** [float(z)] for an [int]: correctly rounded; the result is infinite when
    the integer is out of range, which [float_of_int] turns into the
    [OverflowError] of CPython. *)
Definition f_of_Z (z : Z) : float := binary_normalize prec emax z 0 false.

Definition f_sub : float -> float -> float := SFsub prec emax.
Definition f_mul : float -> float -> float := SFmul prec emax.
Definition f_div : float -> float -> float := SFdiv prec emax.

(** The float a decimal literal [n / 10^k] denotes ([4.500] is
    [f_of_decimal 4500 3]): a correctly rounded quotient of two exactly
    representable integers, for [|n| < 2^53] and [k <= 22]. *)
Definition f_of_decimal (n : Z) (k : nat) : float :=
  f_div (f_of_Z n) (f_of_Z (10 ^ Z.of_nat k)).

Definition f_is_inf (f : float) : bool :=
  match f with S754_infinity _ => true | _ => false end.

Definition f_sign (f : float) : bool :=
  match f with
  | S754_zero s | S754_infinity s | S754_finite s _ _ => s
  | S754_nan => false
  end.

Definition f_is_zero (f : float) : bool :=
  match f with S754_zero _ => true | _ => false end.

(** The exact rational value of a finite float. *)
Definition f_to_Q (f : float) : Q :=
  match f with
  | S754_finite s m e =>
      let v := match e with
               | Zneg p => Qmake (Zpos m) (2 ^ p)
               | _ => inject_Z (Zpos m * 2 ^ e)
               end in
      if s then Qopp v else v
  | _ => 0%Q
  end.

Definition float_of_int (z : Z) : result float :=
  let f := f_of_Z z in
  if f_is_inf f then Raise (Exn OverflowError "int too large to convert to float")
  else Ok f.

(** Rounding of [n / d] to the nearest integer, ties to even ([0 <= n],
    [0 < d]). *)
Definition div_half_even (n d : Z) : Z :=
  let q := (n / d)%Z in
  let r := (n mod d)%Z in
  match (2 * r ?= d)%Z with
  | Lt => q
  | Gt => (q + 1)%Z
  | Eq => if Z.even q then q else (q + 1)%Z
  end.

(** [|m * 2^e| * 10^k] rounded to an integer, ties to even: the digits the
    correctly rounded [%.kf] conversion prints. *)
Definition scaled_digits (k : nat) (m : positive) (e : Z) : Z :=
  let n := (Zpos m * 10 ^ Z.of_nat k)%Z in
  match e with
  | Zneg p => div_half_even n (2 ^ Zpos p)
  | _ => (n * 2 ^ e)%Z
  end.

Definition fixed_digits (k : nat) (n : Z) : string :=
  let p := (10 ^ Z.of_nat k)%Z in
  match k with
  | O => str_of_Z n
  | _ => str_of_Z (n / p) ++ "." ++ zpad k (n mod p)
  end.

(** The unsigned body of [format(f, '.kf')]. *)
Definition f_fixed_abs (k : nat) (f : float) : string :=
  match f with
  | S754_nan => "nan"
  | S754_infinity _ => "inf"
  | S754_zero _ => fixed_digits k 0
  | S754_finite _ m e => fixed_digits k (scaled_digits k m e)
  end.

(** [format(f, '[+][>w].kf')]: sign, digits, then right alignment. *)
Definition f_format (plus : bool) (w k : nat) (f : float) : string :=
  let sign := if f_sign f then "-" else if plus then "+" else "" in
  rjust w " " (sign ++ f_fixed_abs k f).

Definition f_gt0 (f : float) : bool := SFltb (S754_zero false) f.
Definition f_lt0 (f : float) : bool := SFltb f (S754_zero false).

(** ** Naive [datetime.datetime] values *)

Inductive month :=
| Jan | Feb | Mar | Apr | May | Jun | Jul | Aug | Sep | Oct | Nov | Dec.

Definition month_number (m : month) : Z :=
  match m with
  | Jan => 1 | Feb => 2 | Mar => 3 | Apr => 4 | May => 5 | Jun => 6
  | Jul => 7 | Aug => 8 | Sep => 9 | Oct => 10 | Nov => 11 | Dec => 12
  end.

(** [%B] in the C locale. *)
Definition month_name (m : month) : string :=
  match m with
  | Jan => "January" | Feb => "February" | Mar => "March" | Apr => "April"
  | May => "May" | Jun => "June" | Jul => "July" | Aug => "August"
  | Sep => "September" | Oct => "October" | Nov => "November"
  | Dec => "December"
  end.

Record datetime := Datetime {
  dt_year : Z; dt_month : month; dt_day : Z;
  dt_hour : Z; dt_minute : Z; dt_second : Z; dt_microsecond : Z }.

(** The fields in the order [datetime] compares them. *)
Definition dt_fields (d : datetime) : list Z :=
  [dt_year d; month_number (dt_month d); dt_day d;
   dt_hour d; dt_minute d; dt_second d; dt_microsecond d].

Fixpoint lex_compare (a b : list Z) : comparison :=
  match a, b with
  | [], [] => Eq
  | [], _ :: _ => Lt
  | _ :: _, [] => Gt
  | x :: a', y :: b' =>
      match (x ?= y)%Z with
      | Eq => lex_compare a' b'
      | c => c
      end
  end.

Definition dt_compare (a b : datetime) : comparison :=
  lex_compare (dt_fields a) (dt_fields b).

Definition dt_ltb (a b : datetime) : bool :=
  match dt_compare a b with Lt => true | _ => false end.

Definition dt_leb (a b : datetime) : bool :=
  match dt_compare a b with Gt => false | _ => true end.

Definition dt_eqb (a b : datetime) : bool :=
  match dt_compare a b with Eq => true | _ => false end.

(** [strftime('%d %B %Y')]; [%Y] prints the year in decimal, four digits
    for the years 1000 to 9999 a worksheet date can carry. *)
Definition strftime_d_B_Y (d : datetime) : string :=
  zpad 2 (dt_day d) ++ " " ++ month_name (dt_month d) ++ " " ++
  str_of_Z (dt_year d).

Definition strftime_H_M_S (d : datetime) : string :=
  zpad 2 (dt_hour d) ++ ":" ++ zpad 2 (dt_minute d) ++ ":" ++
  zpad 2 (dt_second d).

(** [strftime('%d %B %Y %H:%M:%S')] *)
Definition strftime_d_B_Y_H_M_S (d : datetime) : string :=
  strftime_d_B_Y d ++ " " ++ strftime_H_M_S d.

(** [strftime('%Y-%m-%d %H:%M:%S')] *)
Definition strftime_iso (d : datetime) : string :=
  str_of_Z (dt_year d) ++ "-" ++ zpad 2 (month_number (dt_month d)) ++ "-" ++
  zpad 2 (dt_day d) ++ " " ++ strftime_H_M_S d.

(** [datetime.toordinal], as [_ymd2ord] of the standard library computes
    it. *)
Definition is_leap (y : Z) : bool :=
  ((y mod 4 =? 0) && (negb (y mod 100 =? 0) || (y mod 400 =? 0)))%Z%bool.

Definition days_before_year (y : Z) : Z :=
  let y1 := (y - 1)%Z in
  (y1 * 365 + y1 / 4 - y1 / 100 + y1 / 400)%Z.

Definition days_before_month (y : Z) (m : month) : Z :=
  let base :=
    match m with
    | Jan => 0 | Feb => 31 | Mar => 59 | Apr => 90 | May => 120 | Jun => 151
    | Jul => 181 | Aug => 212 | Sep => 243 | Oct => 273 | Nov => 304
    | Dec => 334
    end%Z in
  if ((2 <? month_number m)%Z && is_leap y)%bool then (base + 1)%Z else base.

Definition toordinal (d : datetime) : Z :=
  (days_before_year (dt_year d) + days_before_month (dt_year d) (dt_month d)
   + dt_day d)%Z.

(** Microseconds of [a - b], the content of the resulting [timedelta]. *)
Definition dt_diff_us (a b : datetime) : Z :=
  let secs (d : datetime) :=
    (toordinal d * 86400 + dt_hour d * 3600 + dt_minute d * 60
     + dt_second d)%Z in
  ((secs a - secs b) * 1000000 + (dt_microsecond a - dt_microsecond b))%Z.

(** ** Dynamically typed values *)

(** What a worksheet cell yields: blank, a number ([int] when the stored
    text has no fraction or exponent, [float] otherwise), text, or a date.
    A [bool] cell behaves in every operation below as the [int] 0 or 1 and
    is read as such. *)
Inductive cell :=
| CNone
| CInt (z : Z)
| CFloat (f : float)
| CStr (s : string)
| CDatetime (d : datetime).

(** The values the program computes with: cells, and the [timedelta]
    (in microseconds) a difference of two dates gives. *)
Inductive value :=
| VNone
| VInt (z : Z)
| VFloat (f : float)
| VStr (s : string)
| VDatetime (d : datetime)
| VTimedelta (us : Z).

Definition value_of_cell (c : cell) : value :=
  match c with
  | CNone => VNone
  | CInt z => VInt z
  | CFloat f => VFloat f
  | CStr s => VStr s
  | CDatetime d => VDatetime d
  end.

(** [v == n] for an [int] literal [n] that a float represents exactly:
    numeric equality across [int] and [float], [False] for everything
    else. *)
Definition py_eq_int (v : cell) (n : Z) : bool :=
  match v with
  | CInt z => (z =? n)%Z
  | CFloat f => SFeqb f (f_of_Z n)
  | _ => false
  end.

Definition isinstance_datetime (v : cell) : bool :=
  match v with CDatetime _ => true | _ => false end.

Definition is_none (v : value) : bool :=
  match v with VNone => true | _ => false end.

Definition type_name (v : value) : string :=
  match v with
  | VNone => "NoneType"
  | VInt _ => "int"
  | VFloat _ => "float"
  | VStr _ => "str"
  | VDatetime _ => "datetime.datetime"
  | VTimedelta _ => "datetime.timedelta"
  end.

Definition unsupported_operand (op : string) (a b : value) : exn :=
  Exn TypeError ("unsupported operand type(s) for " ++ op ++ ": '" ++
                 type_name a ++ "' and '" ++ type_name b ++ "'").

(** [a - b] on two cell values. *)
Definition py_sub (a b : cell) : result value :=
  match a, b with
  | CInt x, CInt y => Ok (VInt (x - y))
  | CInt x, CFloat g => (f <- float_of_int x ;; Ok (VFloat (f_sub f g)))%result
  | CFloat f, CInt y => (g <- float_of_int y ;; Ok (VFloat (f_sub f g)))%result
  | CFloat f, CFloat g => Ok (VFloat (f_sub f g))
  | CDatetime d, CDatetime e => Ok (VTimedelta (dt_diff_us d e))
  | _, _ => Raise (unsupported_operand "-" (value_of_cell a) (value_of_cell b))
  end.

(** [timedelta] holds at most 999999999 days in either direction. *)
Definition timedelta_max_us : Z := 999999999 * 86400 * 1000000 + 86399999999.
Definition timedelta_min_us : Z := - 999999999 * 86400 * 1000000.

(** [v * 100] *)
Definition py_mul_100 (v : value) : result value :=
  match v with
  | VInt z => Ok (VInt (z * 100))
  | VFloat f => Ok (VFloat (f_mul f (f_of_Z 100)))
  | VStr s => Ok (VStr (repeat_str s 100))
  | VTimedelta us =>
      let r := (us * 100)%Z in
      if ((timedelta_min_us <=? r) && (r <=? timedelta_max_us))%Z%bool
      then Ok (VTimedelta r)
      else Raise (Exn OverflowError
                   ("days=" ++ str_of_Z (r / 86400000000) ++
                    "; must have magnitude <= 999999999"))
  | _ => Raise (unsupported_operand "*" v (VInt 100))
  end.

(** Truth value of [v] in a condition. *)
Definition truthy (v : value) : bool :=
  match v with
  | VNone => false
  | VInt z => negb (z =? 0)%Z
  | VFloat f => negb (f_is_zero f)
  | VStr s => negb (String.eqb s "")
  | VDatetime _ => true
  | VTimedelta us => negb (us =? 0)%Z
  end.

Definition not_supported_between (op : string) (v : value) : exn :=
  Exn TypeError ("'" ++ op ++ "' not supported between instances of '" ++
                 type_name v ++ "' and 'int'").

(** [v > 0] and [v < 0] *)
Definition py_gt0 (v : value) : result bool :=
  match v with
  | VInt z => Ok (0 <? z)%Z
  | VFloat f => Ok (f_gt0 f)
  | _ => Raise (not_supported_between ">" v)
  end.

Definition py_lt0 (v : value) : result bool :=
  match v with
  | VInt z => Ok (z <? 0)%Z
  | VFloat f => Ok (f_lt0 f)
  | _ => Raise (not_supported_between "<" v)
  end.

(** [abs(v)] *)
Definition py_abs (v : value) : result value :=
  match v with
  | VInt z => Ok (VInt (Z.abs z))
  | VFloat f => Ok (VFloat (SFabs f))
  | VTimedelta us => Ok (VTimedelta (Z.abs us))
  | _ => Raise (Exn TypeError ("bad operand type for abs(): '" ++
                               type_name v ++ "'"))
  end.

(** ** Format specifications ending in [f] *)

Record fspec := FSpec {
  fs_text : string;   (* the specification as written *)
  fs_plus : bool;     (* [+]: sign shown on non-negative numbers too *)
  fs_width : nat;     (* [>w]: right aligned in at least [w] columns *)
  fs_prec : nat       (* [.k]: digits after the point *)
}.

Definition spec_plus_2f : fspec := FSpec "+.2f" true 0 2.
Definition spec_2f : fspec := FSpec ".2f" false 0 2.
Definition spec_3f : fspec := FSpec ".3f" false 0 3.
Definition spec_r6_3f : fspec := FSpec ">6.3f" false 6 3.

Definition unsupported_format (v : value) : exn :=
  Exn TypeError ("unsupported format string passed to " ++ type_name v ++
                 ".__format__").

(** [format(v, spec)]: numbers print in fixed notation (an [int] through
    its float); [None] and [timedelta] inherit [object.__format__], which
    refuses a non-empty specification; [str] rejects the code [f]; a
    [datetime] treats the specification as a [strftime] pattern, and these
    have no directive, so it comes back unchanged. *)
Definition py_format (sp : fspec) (v : value) : result string :=
  match v with
  | VFloat f => Ok (f_format (fs_plus sp) (fs_width sp) (fs_prec sp) f)
  | VInt z =>
      (f <- float_of_int z ;;
       Ok (f_format (fs_plus sp) (fs_width sp) (fs_prec sp) f))%result
  | VStr _ =>
      Raise (Exn ValueError "Unknown format code 'f' for object of type 'str'")
  | VDatetime _ => Ok (fs_text sp)
  | VNone | VTimedelta _ => Raise (unsupported_format v)
  end.

End Py.

Import Py.
Open Scope result_scope.

(* ===================================================================== *)
(** * The worksheet, as the reader hands it over *)
(* ===================================================================== *)

Module Sheet.

(** A worksheet stores its cells sparsely; [ws_rows] lists the stored rows
    from row 1 on, each as far as its last stored cell. *)
Record worksheet := Worksheet { ws_rows : list (list cell) }.

Definition max_column (ws : worksheet) : nat :=
  fold_right (fun r acc => Nat.max (List.length r) acc) 1 (ws_rows ws).

Definition max_row (ws : worksheet) : nat :=
  Nat.max 1 (List.length (ws_rows ws)).

(** Row [i] (counted from 1) as [iter_rows(values_only=True)] yields it: a
    tuple of [max_column] values, [None] where no cell is stored. *)
Definition row_values (ws : worksheet) (i : nat) : list cell :=
  let stored := nth (i - 1) (ws_rows ws) [] in
  stored ++ repeat CNone (max_column ws - List.length stored).

(** [iter_rows(min_row=lo, max_row=hi, values_only=True)] *)
Definition iter_rows (ws : worksheet) (lo hi : nat) : list (list cell) :=
  map (row_values ws) (seq lo (S hi - lo)).

End Sheet.

(* ===================================================================== *)
(** * boe_ois_fetcher.py *)
(* ===================================================================== *)

Module Fetcher.

Import Sheet.

(** [t[i]] on a tuple, for an index that is not negative. *)
Definition index {A} (t : list A) (i : nat) : result A :=
  match nth_error t i with
  | Some x => Ok x
  | None => Raise (Exn IndexError "tuple index out of range")
  end.

(** ** Column scan of [_parse_ois_sheet] *)

Record columns := Columns {
  col_2yr : option nat;
  col_5yr : option nat;
  col_10yr : option nat }.

Definition no_columns : columns := Columns None None None.

(** The body of the [for idx, value in enumerate(maturity_row)] loop. *)
Definition scan_step (c : columns) (idx : nat) (value : cell) : columns :=
  if py_eq_int value 2 then Columns (Some idx) (col_5yr c) (col_10yr c)
  else if py_eq_int value 5 then Columns (col_2yr c) (Some idx) (col_10yr c)
  else if py_eq_int value 10 then Columns (col_2yr c) (col_5yr c) (Some idx)
  else c.

Fixpoint scan_from (idx : nat) (maturity_row : list cell) (c : columns)
  : columns :=
  match maturity_row with
  | [] => c
  | value :: rest => scan_from (S idx) rest (scan_step c idx value)
  end.

Definition scan (maturity_row : list cell) : columns :=
  scan_from 0 maturity_row no_columns.

Definition columns_not_found : exn :=
  Exn ValueError "Could not find 2yr, 5yr, or 10yr columns".

Definition locate_columns (maturity_row : list cell)
  : result (nat * nat * nat) :=
  match scan maturity_row with
  | Columns (Some c2) (Some c5) (Some c10) => Ok (c2, c5, c10)
  | _ => Raise columns_not_found
  end.

(** ** Row collection *)

Record observation := Observation {
  date : datetime;
  rate_2yr : cell;
  rate_5yr : cell;
  rate_10yr : cell }.

(** One pass of [for row in sheet.iter_rows(min_row=6, ...)]: the rows
    collected so far are extended at the end. *)
Fixpoint collect (c2 c5 c10 : nat) (rows : list (list cell))
  (data_rows : list observation) : result (list observation) :=
  match rows with
  | [] => Ok data_rows
  | row :: rest =>
      date_val <- index row 0 ;;
      match date_val with
      | CDatetime d =>
          r2 <- index row c2 ;;
          r5 <- index row c5 ;;
          r10 <- index row c10 ;;
          collect c2 c5 c10 rest (data_rows ++ [Observation d r2 r5 r10])
      | _ => collect c2 c5 c10 rest data_rows
      end
  end.

(** ** [data_rows.sort(key=lambda x: x['date'], reverse=True)]

    [list.sort] is stable, also with [reverse=True]: rows of equal date keep
    their order.  The stable sort is written as an insertion sort that puts
    a row in front of the first row whose date is not later. *)
Fixpoint insert_desc (x : observation) (l : list observation)
  : list observation :=
  match l with
  | [] => [x]
  | y :: t =>
      if dt_ltb (date x) (date y) then y :: insert_desc x t
      else x :: y :: t
  end.

Definition sort_desc (l : list observation) : list observation :=
  fold_right insert_desc [] l.

(** ** Changes *)

Definition calculate_change (latest_rate prev_rate : cell) : result value :=
  if (negb (is_none (value_of_cell latest_rate)) &&
      negb (is_none (value_of_cell prev_rate)))%bool
  then d <- py_sub latest_rate prev_rate ;; py_mul_100 d
  else Ok VNone.

Record rate_entry := RateEntry {
  current : cell;
  previous : cell;
  change_bps : value }.

(** The [dict] the parser returns; [rates] keeps the insertion order of its
    keys, which is the order [items()] iterates in. *)
Record snapshot := Snapshot {
  latest_date : datetime;
  previous_date : datetime;
  rates : list (string * rate_entry) }.

Definition insufficient_data : exn :=
  Exn ValueError "Insufficient data to calculate changes".

Definition build_result (latest prev : observation) : result snapshot :=
  ch2 <- calculate_change (rate_2yr latest) (rate_2yr prev) ;;
  ch5 <- calculate_change (rate_5yr latest) (rate_5yr prev) ;;
  ch10 <- calculate_change (rate_10yr latest) (rate_10yr prev) ;;
  Ok (Snapshot (date latest) (date prev)
        [("2yr", RateEntry (rate_2yr latest) (rate_2yr prev) ch2);
         ("5yr", RateEntry (rate_5yr latest) (rate_5yr prev) ch5);
         ("10yr", RateEntry (rate_10yr latest) (rate_10yr prev) ch10)]).

(** Lines 98 to 135: sort, length check, the two most recent rows. *)
Definition select_and_build (data_rows : list observation)
  : result snapshot :=
  match sort_desc data_rows with
  | latest :: prev :: _ => build_result latest prev
  | _ => Raise insufficient_data
  end.

(** [_parse_ois_sheet] on the header row and the data rows. *)
Definition parse_rows (maturity_row : list cell) (rows : list (list cell))
  : result snapshot :=
  cols <- locate_columns maturity_row ;;
  let '(c2, c5, c10) := cols in
  data_rows <- collect c2 c5 c10 rows [] ;;
  select_and_build data_rows.

Definition _parse_ois_sheet (sheet : worksheet) : result snapshot :=
  maturity_row <- index (iter_rows sheet 4 4) 0 ;;
  parse_rows maturity_row (iter_rows sheet 6 (max_row sheet)).

(** ** [format_summary] *)

Definition arrow_up : string := "↑".
Definition arrow_down : string := "↓".
Definition arrow_flat : string := "→".

(** ["..." if change is not None else "N/A"] *)
Definition summary_change_str (change : value) : result string :=
  if negb (is_none change)
  then s <- py_format spec_plus_2f change ;; Ok (s ++ " bps")
  else Ok "N/A".

(** [a and b] yields [a] itself when [a] is false, so the chained
    conditional only compares a change that is true. *)
Definition summary_arrow (change : value) : result string :=
  up <- (if truthy change then py_gt0 change else Ok false) ;;
  if up then Ok arrow_up
  else
    down <- (if truthy change then py_lt0 change else Ok false) ;;
    if down then Ok arrow_down else Ok arrow_flat.

(** One line of the table; the fields of the f-string are formatted from
    left to right. *)
Definition summary_line (tenor : string) (values : rate_entry)
  : result string :=
  change_str <- summary_change_str (change_bps values) ;;
  arrow <- summary_arrow (change_bps values) ;;
  cur <- py_format spec_r6_3f (value_of_cell (current values)) ;;
  prv <- py_format spec_r6_3f (value_of_cell (previous values)) ;;
  Ok (rjust 4 " " tenor ++ " Rate: " ++ cur ++ "% (was " ++ prv ++ "%) " ++
      arrow ++ " " ++ change_str ++ newline).

Fixpoint summary_lines (summary : string) (items : list (string * rate_entry))
  : result string :=
  match items with
  | [] => Ok summary
  | (tenor, values) :: rest =>
      line <- summary_line tenor values ;;
      summary_lines (summary ++ line) rest
  end.

Definition rule : string := repeat_str "=" 50.

Definition summary_head (data : snapshot) : string :=
  "Bank of England OIS Rates Summary" ++ newline ++
  rule ++ newline ++ newline ++
  "Latest Data: " ++ strftime_d_B_Y (latest_date data) ++ newline ++
  "Previous Data: " ++ strftime_d_B_Y (previous_date data) ++ newline ++
  newline.

Definition summary_foot (now : datetime) : string :=
  newline ++ rule ++ newline ++
  "Data source: Bank of England" ++ newline ++
  "Fetched at: " ++ strftime_d_B_Y_H_M_S now ++ newline.

(** The text up to the point where [datetime.now()] is read. *)
Definition summary_body (data : snapshot) : result string :=
  summary_lines (summary_head data) (rates data).

End Fetcher.

(* ===================================================================== *)
(** * The process and its surroundings *)
(* ===================================================================== *)

Module World.

Import Sheet.

(** What a run reads from outside: the clock ([clock n] is what the
    [n]-th call of [datetime.now()] returns), the environment variables,
    the outcome of downloading and opening the workbook (the exception
    raised on the way, or the sheet ["4. spot curve"]), and the outcome of
    the SMTP session. *)
Record world := World {
  clock : nat -> datetime;
  getenv : string -> option string;
  upstream : result worksheet;
  smtp_session : result unit }.

Record message := Message {
  msg_subject : string;
  msg_from : string;
  msg_to : string;
  msg_body : string;
  msg_html : option string }.

(** What a run does to the outside. *)
Inductive event :=
| EvPrint (text : string)
| EvHttpGet (url : string)
| EvSmtpSend (host : string) (port : Z) (user : string) (m : message).

Record state := State {
  ticks : nat;            (* calls of [datetime.now()] so far *)
  trace : list event }.   (* oldest first *)

Definition initial : state := State 0 [].

(** How a computation ends: with a value, with an exception, or with
    [sys.exit(code)]. *)
Inductive outcome (A : Type) :=
| Return (a : A)
| Throw (e : exn)
| SystemExit (code : Z).
Arguments Return {A} a.
Arguments Throw {A} e.
Arguments SystemExit {A} code.

Definition M (A : Type) : Type := world -> state -> outcome A * state.

Definition ret {A} (a : A) : M A := fun _ st => (Return a, st).

Definition bind {A B} (m : M A) (k : A -> M B) : M B :=
  fun w st =>
    match m w st with
    | (Return a, st') => k a w st'
    | (Throw e, st') => (Throw e, st')
    | (SystemExit c, st') => (SystemExit c, st')
    end.

Definition lift {A} (r : result A) : M A :=
  fun _ st =>
    match r with
    | Ok a => (Return a, st)
    | Raise e => (Throw e, st)
    end.

(** [try: m  except Exception as e: h e]; [SystemExit] is not an
    [Exception] and passes through. *)
Definition try_except {A} (m : M A) (h : exn -> M A) : M A :=
  fun w st =>
    match m w st with
    | (Throw e, st') => h e w st'
    | r => r
    end.

Definition emit (e : event) : M unit :=
  fun _ st => (Return tt, State (ticks st) (trace st ++ [e])).

Definition print (text : string) : M unit := emit (EvPrint text).

Definition sys_exit {A} (code : Z) : M A := fun _ st => (SystemExit code, st).

Definition datetime_now : M datetime :=
  fun w st => (Return (clock w (ticks st)), State (S (ticks st)) (trace st)).

Definition ask : M world := fun w st => (Return w, st).

(** [os.getenv(name, default)] *)
Definition os_getenv (name default : string) : M string :=
  fun w st =>
    (Return (match getenv w name with Some v => v | None => default end), st).

(** The exit status of the interpreter running [m] as its main program:
    0 on return, the code of [sys.exit], 1 on an uncaught exception. *)
Definition exit_status {A} (o : outcome A) : Z :=
  match o with
  | Return _ => 0
  | SystemExit c => c
  | Throw _ => 1
  end.

Definition is_smtp_send (e : event) : bool :=
  match e with EvSmtpSend _ _ _ _ => true | _ => false end.

(** Number of notification attempts in a trace. *)
Definition notifications (t : list event) : nat :=
  List.length (filter is_smtp_send t).

End World.

Declare Scope world_scope.
Delimit Scope world_scope with world.
Notation "x <- c ;; k" := (World.bind c (fun x => k))
  (at level 61, c at next level, right associativity) : world_scope.
Notation "c ;; k" := (World.bind c (fun _ => k))
  (at level 61, right associativity) : world_scope.

Open Scope world_scope.

(* ===================================================================== *)
(** * boe_ois_fetcher.py: the methods that touch the outside *)
(* ===================================================================== *)

Module BOEOISFetcher.

Import Sheet Fetcher World.

Definition BOE_URL : string :=
  "https://www.bankofengland.co.uk/-/media/boe/files/statistics/yield-curves/latest-yield-curve-data.zip".

(** [fetch_ois_data]: the pair [(data, error)].  Everything between the
    download and the sheet lookup is the [upstream] outcome of the world;
    the three handlers are tried in the order of the source. *)
Definition fetch_ois_data : M (option snapshot * option string) :=
  try_except
    (emit (EvHttpGet BOE_URL) ;;
     w <- ask ;;
     sheet <- lift (upstream w) ;;
     data <- lift (_parse_ois_sheet sheet) ;;
     ret (Some data, None))
    (fun e =>
       match exn_class e with
       | RequestException => ret (None, Some ("Network error: " ++ exn_msg e))
       | KeyError => ret (None, Some ("Sheet not found: " ++ exn_msg e))
       | _ => ret (None, Some ("Error fetching OIS data: " ++ exn_msg e))
       end).

(** [format_summary]: the table is built first, then the clock is read for
    the last line. *)
Definition format_summary (data : snapshot) : M string :=
  summary <- lift (summary_body data) ;;
  now <- datetime_now ;;
  ret (summary ++ summary_foot now).

End BOEOISFetcher.

(* ===================================================================== *)
(** * email_sender.py *)
(* ===================================================================== *)

Module EmailSender.

Import Fetcher World.

(** ** [int(text)] in base 10, for ASCII text: blanks around, an optional
    sign, digits with single underscores between them. *)

Definition is_space (c : ascii) : bool :=
  let n := nat_of_ascii c in
  (Nat.eqb n 32 || (Nat.leb 9 n && Nat.leb n 13))%bool.

Fixpoint lstrip (s : string) : string :=
  match s with
  | String c t => if is_space c then lstrip t else s
  | EmptyString => s
  end.

Fixpoint rev_string (acc s : string) : string :=
  match s with
  | EmptyString => acc
  | String c t => rev_string (String c acc) t
  end.

Definition strip (s : string) : string :=
  rev_string "" (lstrip (rev_string "" (lstrip s))).

Definition digit_value (c : ascii) : option Z :=
  let n := nat_of_ascii c in
  if (Nat.leb 48 n && Nat.leb n 57)%bool then Some (Z.of_nat (n - 48)) else None.

Fixpoint parse_digits (acc : Z) (after_digit : bool) (s : string) : option Z :=
  match s with
  | EmptyString => if after_digit then Some acc else None
  | String c t =>
      match digit_value c with
      | Some d => parse_digits (acc * 10 + d) true t
      | None =>
          if (Ascii.eqb c "_" && after_digit)%bool
          then parse_digits acc false t
          else None
      end
  end.

Definition parse_int (s : string) : option Z :=
  match strip s with
  | String "-" t => option_map Z.opp (parse_digits 0 false t)
  | String "+" t => parse_digits 0 false t
  | t => parse_digits 0 false t
  end.

Definition py_int (s : string) : result Z :=
  match parse_int s with
  | Some z => Ok z
  | None =>
      Raise (Exn ValueError
               ("invalid literal for int() with base 10: '" ++ s ++ "'"))
  end.

(** ** The class *)

Record email_sender := Build_sender {
  smtp_host : string;
  smtp_port : Z;
  smtp_user : string;
  smtp_password : string;
  from_email : string;
  to_email : string }.

Definition nonempty (s : string) : bool := negb (String.eqb s "").

(** [EmailSender()]: every argument is [None], so every field comes from
    the environment. *)
Definition init : M email_sender :=
  host <- os_getenv "SMTP_HOST" "smtp.gmail.com" ;;
  port_text <- os_getenv "SMTP_PORT" "587" ;;
  port <- lift (py_int port_text) ;;
  user <- os_getenv "SMTP_USER" "" ;;
  password <- os_getenv "SMTP_PASSWORD" "" ;;
  from <- os_getenv "FROM_EMAIL" user ;;
  to <- os_getenv "TO_EMAIL" "" ;;
  ret (Build_sender host port user password from to).

(** [send_email]: the pair [(success, error_message)].  The SMTP session
    (connect, STARTTLS, login, send) is one event, and how it ends is the
    [smtp_session] outcome of the world. *)
Definition send_email (self : email_sender) (subject body : string)
  (html_body : option string) : M (bool * option string) :=
  if (negb (nonempty (smtp_user self)) || negb (nonempty (smtp_password self)))%bool
  then ret (false, Some "SMTP credentials not configured")
  else if negb (nonempty (to_email self))
  then ret (false, Some "Recipient email not configured")
  else
    try_except
      (_ <- datetime_now ;;
       let html_part :=
         match html_body with
         | Some h => if nonempty h then Some h else None
         | None => None
         end in
       emit (EvSmtpSend (smtp_host self) (smtp_port self) (smtp_user self)
               (Message subject (from_email self) (to_email self) body
                  html_part)) ;;
       w <- ask ;;
       lift (smtp_session w) ;;
       ret (true, None))
      (fun e =>
         match exn_class e with
         | SMTPAuthenticationError =>
             ret (false,
                  Some "SMTP authentication failed - check username/password")
         | SMTPException => ret (false, Some ("SMTP error: " ++ exn_msg e))
         | _ => ret (false, Some ("Error sending email: " ++ exn_msg e))
         end).

(** ** [create_ois_html_email] *)

Definition unlines (l : list string) : string :=
  fold_right (fun s acc => s ++ newline ++ acc) "" l.

(** Lines 115 to 189 of the template: document head, style sheet and banner. *)
Definition html_style_lines : list string :=
  [ "<!DOCTYPE html>";
    "<html>";
    "<head>";
    "    <style>";
    "        body {";
    "            font-family: Arial, sans-serif;";
    "            line-height: 1.6;";
    "            color: #333;";
    "            max-width: 600px;";
    "            margin: 0 auto;";
    "            padding: 20px;";
    "        }";
    "        .header {";
    "            background-color: #002147;";
    "            color: white;";
    "            padding: 20px;";
    "            text-align: center;";
    "            border-radius: 5px 5px 0 0;";
    "        }";
    "        .content {";
    "            background-color: #f4f4f4;";
    "            padding: 20px;";
    "        }";
    "        .rate-table {";
    "            width: 100%;";
    "            border-collapse: collapse;";
    "            margin: 20px 0;";
    "            background-color: white;";
    "        }";
    "        .rate-table th {";
    "            background-color: #002147;";
    "            color: white;";
    "            padding: 12px;";
    "            text-align: left;";
    "        }";
    "        .rate-table td {";
    "            padding: 12px;";
    "            border-bottom: 1px solid #ddd;";
    "        }";
    "        .rate-table tr:hover {";
    "            background-color: #f5f5f5;";
    "        }";
    "        .positive {";
    "            color: #28a745;";
    "            font-weight: bold;";
    "        }";
    "        .negative {";
    "            color: #dc3545;";
    "            font-weight: bold;";
    "        }";
    "        .neutral {";
    "            color: #6c757d;";
    "            font-weight: bold;";
    "        }";
    "        .footer {";
    "            text-align: center;";
    "            padding: 20px;";
    "            font-size: 12px;";
    "            color: #666;";
    "        }";
    "        .date-info {";
    "            background-color: white;";
    "            padding: 15px;";
    "            margin: 10px 0;";
    "            border-left: 4px solid #002147;";
    "        }";
    "    </style>";
    "</head>";
    "<body>";
    "    <div class=" ++ dquote ++ "header" ++ dquote ++ ">";
    "        <h1>Bank of England OIS Rates</h1>";
    "        <p>Daily Summary</p>";
    "    </div>";
    "    <div class=" ++ dquote ++ "content" ++ dquote ++ ">";
    "        <div class=" ++ dquote ++ "date-info" ++ dquote ++ ">" ].

(** Lines 192 to 203: the end of the date box and the table header. *)
Definition html_table_head_lines : list string :=
  [ "        </div>";
    "";
    "        <table class=" ++ dquote ++ "rate-table" ++ dquote ++ ">";
    "            <thead>";
    "                <tr>";
    "                    <th>Tenor</th>";
    "                    <th>Current Rate</th>";
    "                    <th>Previous Rate</th>";
    "                    <th>Change (bps)</th>";
    "                </tr>";
    "            </thead>";
    "            <tbody>" ].

(** Lines 236 to 244: the closing part. *)
Definition html_foot_lines : list string :=
  [ "            </tbody>";
    "        </table>";
    "    </div>";
    "    <div class=" ++ dquote ++ "footer" ++ dquote ++ ">";
    "        <p>Data source: Bank of England</p>";
    "        <p>This is an automated daily summary of OIS rates.</p>";
    "    </div>";
    "</body>";
    "</html>" ].

Definition html_head (data : snapshot) : string :=
  newline ++ unlines html_style_lines ++
  "            <strong>Latest Data:</strong> " ++
  strftime_d_B_Y (latest_date data) ++ "<br>" ++ newline ++
  "            <strong>Previous Data:</strong> " ++
  strftime_d_B_Y (previous_date data) ++ newline ++
  unlines html_table_head_lines.

Definition html_foot : string := newline ++ unlines html_foot_lines.

(** Lines 211 to 224: the pair [(change_class, change_str)]. *)
Definition html_change (change : value) : result (string * string) :=
  (if negb (is_none change)
   then
     pos <- py_gt0 change ;;
     ca <- (if pos then Ok ("positive", arrow_up)
            else
              neg <- py_lt0 change ;;
              if neg then Ok ("negative", arrow_down)
              else Ok ("neutral", arrow_flat)) ;;
     a <- py_abs change ;;
     digits <- py_format spec_2f a ;;
     Ok (fst ca, snd ca ++ " " ++ digits)
   else Ok ("neutral", "N/A"))%result.

(** One table row (lines 226 to 233). *)
Definition html_row (tenor : string) (values : rate_entry) : result string :=
  (cc <- html_change (change_bps values) ;;
   cur <- py_format spec_3f (value_of_cell (current values)) ;;
   prv <- py_format spec_3f (value_of_cell (previous values)) ;;
   Ok (newline ++
       unlines
         [ "                <tr>";
           "                    <td><strong>" ++ tenor ++ "</strong></td>";
           "                    <td>" ++ cur ++ "%</td>";
           "                    <td>" ++ prv ++ "%</td>";
           "                    <td class=" ++ dquote ++ fst cc ++ dquote ++
             ">" ++ snd cc ++ "</td>";
           "                </tr>" ]))%result.

Fixpoint html_rows (html : string) (items : list (string * rate_entry))
  : result string :=
  match items with
  | [] => Ok html
  | (tenor, values) :: rest =>
      (row <- html_row tenor values ;; html_rows (html ++ row) rest)%result
  end.

Definition create_ois_html_email (data : snapshot) : M string :=
  html <- lift (html_rows (html_head data) (rates data)) ;;
  ret (html ++ html_foot).

End EmailSender.

(* ===================================================================== *)
(** * ois_daily_agent.py *)
(* ===================================================================== *)

Module Agent.

Import Fetcher World.

Definition truthy_text (s : option string) : bool :=
  match s with
  | Some t => EmailSender.nonempty t
  | None => false
  end.

(** [str(x)] of an optional text inside an f-string. *)
Definition str_of_optional (s : option string) : string :=
  match s with
  | Some t => t
  | None => "None"
  end.

Definition not_configured_notice : list string :=
  [ newline ++ "⚠ Email not configured - skipping email send";
    "To enable email, set these environment variables:";
    "  SMTP_USER, SMTP_PASSWORD, TO_EMAIL";
    newline ++ "Optional (with defaults):";
    "  SMTP_HOST (default: smtp.gmail.com)";
    "  SMTP_PORT (default: 587)";
    "  FROM_EMAIL (default: same as SMTP_USER)" ].

Fixpoint print_all (l : list string) : M unit :=
  match l with
  | [] => ret tt
  | s :: rest => print s ;; print_all rest
  end.

(** Lines 59 to 77: the notification. *)
Definition notify (email_sender : EmailSender.email_sender)
  (data : snapshot) (text_summary : string) : M unit :=
  print (newline ++ "Sending email notification...") ;;
  let subject := "OIS Rates - " ++ strftime_d_B_Y (latest_date data) in
  html_body <- EmailSender.create_ois_html_email data ;;
  r <- EmailSender.send_email email_sender subject text_summary
         (Some html_body) ;;
  (if fst r
   then print ("✓ Email sent successfully to " ++
               EmailSender.to_email email_sender)
   else
     print ("✗ Email failed: " ++ str_of_optional (snd r)) ;;
     sys_exit 1) ;;
  t <- datetime_now ;;
  print (newline ++ "[" ++ strftime_iso t ++ "] OIS Daily Agent completed").

Definition main : M unit :=
  t <- datetime_now ;;
  print ("[" ++ strftime_iso t ++ "] Starting OIS Daily Agent...") ;;
  print "Fetching Bank of England OIS data..." ;;
  r <- BOEOISFetcher.fetch_ois_data ;;
  if truthy_text (snd r)
  then print ("ERROR: " ++ str_of_optional (snd r)) ;; sys_exit 1
  else
    match fst r with
    | None => print "ERROR: No data returned" ;; sys_exit 1
    | Some data =>
        print "✓ Data fetched successfully" ;;
        text_summary <- BOEOISFetcher.format_summary data ;;
        print (newline ++ text_summary) ;;
        email_sender <- EmailSender.init ;;
        if (negb (EmailSender.nonempty (EmailSender.smtp_user email_sender)) ||
            negb (EmailSender.nonempty (EmailSender.to_email email_sender)))%bool
        then print_all not_configured_notice
        else notify email_sender data text_summary
    end.

(** One run of the script: exit status and what it did. *)
Definition run (w : world) : Z * list event :=
  let '(o, st) := main w initial in (exit_status o, trace st).

End Agent.

(* ===================================================================== *)
(** * Vocabulary of the specification *)
(* ===================================================================== *)

Module Spec.

Import Sheet Fetcher World.

Inductive tenor := T2yr | T5yr | T10yr.

Definition tenor_label (t : tenor) : string :=
  match t with T2yr => "2yr" | T5yr => "5yr" | T10yr => "10yr" end.

(** The maturity a tenor is looked up by in the header row. *)
Definition target (t : tenor) : Z :=
  match t with T2yr => 2 | T5yr => 5 | T10yr => 10 end.

Definition column_of (t : tenor) (c : columns) : option nat :=
  match t with
  | T2yr => col_2yr c
  | T5yr => col_5yr c
  | T10yr => col_10yr c
  end.

Definition pick (t : tenor) (c : nat * nat * nat) : nat :=
  match t, c with
  | T2yr, (c2, _, _) => c2
  | T5yr, (_, c5, _) => c5
  | T10yr, (_, _, c10) => c10
  end.

Definition rate_of (t : tenor) (o : observation) : cell :=
  match t with
  | T2yr => rate_2yr o
  | T5yr => rate_5yr o
  | T10yr => rate_10yr o
  end.

(** [data['rates'][label]] *)
Fixpoint lookup (label : string) (items : list (string * rate_entry))
  : option rate_entry :=
  match items with
  | [] => None
  | (k, e) :: rest => if String.eqb k label then Some e else lookup label rest
  end.

Definition entry_of (t : tenor) (s : snapshot) : option rate_entry :=
  lookup (tenor_label t) (rates s).

(** Indices, from [idx] on, of the cells equal to [n]. *)
Fixpoint positions_from (idx : nat) (n : Z) (row : list cell) : list nat :=
  match row with
  | [] => []
  | v :: rest =>
      if py_eq_int v n then idx :: positions_from (S idx) n rest
      else positions_from (S idx) n rest
  end.

Definition positions (n : Z) (row : list cell) : list nat :=
  positions_from 0 n row.

Definition last_opt (l : list nat) : option nat :=
  match l with
  | [] => None
  | x :: t => Some (last t x)
  end.

(** [i] is the one column of [row] whose cell equals [n]. *)
Definition sole_match (n : Z) (row : list cell) (i : nat) : Prop :=
  (exists v, nth_error row i = Some v /\ py_eq_int v n = true) /\
  (forall j v, nth_error row j = Some v -> py_eq_int v n = true -> j = i).

(** No cell of [row] equals [n]. *)
Definition absent (n : Z) (row : list cell) : Prop :=
  forall v, In v row -> py_eq_int v n = false.

(** The tenors whose maturity no header cell equals. *)
Definition unresolved (row : list cell) : list tenor :=
  filter (fun t => match positions (target t) row with
                   | [] => true
                   | _ => false
                   end)
    [T2yr; T5yr; T10yr].

(** A message names the unresolved tenors when it mentions just those. *)
Definition names_exactly (msg : string) (missing : list tenor) : Prop :=
  forall t, In t missing <-> str_contains (tenor_label t) msg = true.

(** A row whose first cell is a date. *)
Definition dated (row : list cell) : bool :=
  match row with
  | v :: _ => isinstance_datetime v
  | [] => false
  end.

(** The observation a dated row stands for, given the three columns. *)
Definition observation_of_row (c2 c5 c10 : nat) (row : list cell)
  : option observation :=
  match row with
  | CDatetime d :: _ =>
      Some (Observation d (nth c2 row CNone) (nth c5 row CNone)
              (nth c10 row CNone))
  | _ => None
  end.

Fixpoint observations (c2 c5 c10 : nat) (rows : list (list cell))
  : list observation :=
  match rows with
  | [] => []
  | row :: rest =>
      match observation_of_row c2 c5 c10 row with
      | Some o => o :: observations c2 c5 c10 rest
      | None => observations c2 c5 c10 rest
      end
  end.

(** The two regions of the sheet the parser reads. *)
Definition maturity_row_of (ws : worksheet) : list cell := row_values ws 4.
Definition data_rows_of (ws : worksheet) : list (list cell) :=
  iter_rows ws 6 (max_row ws).

(** [a] is not earlier than [b]. *)
Definition not_earlier (a b : observation) : Prop :=
  dt_leb (date b) (date a) = true.

Definition on_date (d : datetime) (o : observation) : bool :=
  dt_eqb (date o) d.

(** Rates as the data model has them: absent, or a number (a float, or an
    integer a float can hold). *)
Definition number_cell (c : cell) : bool :=
  match c with
  | CFloat _ => true
  | CInt z => is_ok (float_of_int z)
  | _ => false
  end.

Definition rate_cell (c : cell) : bool :=
  match c with
  | CNone => true
  | _ => number_cell c
  end.






(** [change == 0] for a number. *)
Definition is_zero_number (v : value) : bool :=
  match v with
  | VInt z => (z =? 0)%Z
  | VFloat f => f_is_zero f
  | _ => false
  end.

(** The guard of [main]: a sender and a recipient are set. *)
Definition configured (w : world) : bool :=
  let user := match getenv w "SMTP_USER" with Some v => v | None => "" end in
  let to := match getenv w "TO_EMAIL" with Some v => v | None => "" end in
  (EmailSender.nonempty user && EmailSender.nonempty to)%bool.

(** The fetch fails: the download or the parser raised. *)
Definition fetch_failure (w : world) : Prop :=
  match upstream w with
  | Raise _ => True
  | Ok sheet => exists e, _parse_ois_sheet sheet = Raise e
  end.

(** ** Sample data: the end-to-end scenario of the specification *)

Definition dec (n : Z) (k : nat) : cell := CFloat (f_of_decimal n k).

Definition header_example : list cell :=
  [CNone; dec 5 1; CInt 1; dec 15 1; CInt 2; dec 25 1; CInt 3; CInt 5;
   CInt 10].

Definition day (y : Z) (m : month) (d : Z) : datetime :=
  Datetime y m d 0 0 0 0.

Definition row_june_10 : list cell :=
  [CDatetime (day 2024 Jun 10); CNone; CNone; CNone; dec 450 2; CNone; CNone;
   dec 410 2; dec 380 2].

Definition row_june_7 : list cell :=
  [CDatetime (day 2024 Jun 7); CNone; CNone; CNone; dec 425 2; CNone; CNone;
   dec 400 2; dec 370 2].

(** Title rows, the header in row 4, a caption, then the data with a gap
    between the dates, the older row first, and a footnote. *)
Definition sheet_example : worksheet :=
  Worksheet [[CStr "Spot curve"]; []; []; header_example; [CStr "years:"];
             row_june_7; row_june_10; [CStr "Source: Bank of England"]].

(** The same sheet with the 2-year rate of the older row blank. *)
Definition sheet_blank_previous : worksheet :=
  Worksheet [[CStr "Spot curve"]; []; []; header_example; [CStr "years:"];
             [CDatetime (day 2024 Jun 7); CNone; CNone; CNone; CNone; CNone;
              CNone; dec 400 2; dec 370 2];
             row_june_10].

Definition env_example (name : string) : option string :=
  if String.eqb name "SMTP_USER" then Some "feeder@example.org"
  else if String.eqb name "SMTP_PASSWORD" then Some "secret"
  else if String.eqb name "TO_EMAIL" then Some "desk@example.org"
  else None.

Definition clock_example (n : nat) : datetime :=
  Datetime 2024 Jun 11 7 0 (Z.of_nat n) 0.

(** Everything works and the e-mail is configured. *)
Definition world_example : world :=
  World.World clock_example env_example (Ok sheet_example) (Ok tt).

(** Everything works, no e-mail variable is set. *)
Definition world_unconfigured : world :=
  World.World clock_example (fun _ => None) (Ok sheet_example) (Ok tt).

(** A table entry with the change the parser computes for its rates. *)
Definition entry_example (l p : cell) : rate_entry :=
  RateEntry l p
    (match calculate_change l p with Ok v => v | Raise _ => VNone end).

(** The snapshot of the sample sheet. *)
Definition snapshot_example : snapshot :=
  Snapshot (day 2024 Jun 10) (day 2024 Jun 7)
    [("2yr", entry_example (dec 450 2) (dec 425 2));
     ("5yr", entry_example (dec 410 2) (dec 400 2));
     ("10yr", entry_example (dec 380 2) (dec 370 2))].

(** The snapshot of the sample sheet with the older 2-year rate blank. *)
Definition snapshot_blank_previous : snapshot :=
  Snapshot (day 2024 Jun 10) (day 2024 Jun 7)
    [("2yr", entry_example (dec 450 2) CNone);
     ("5yr", entry_example (dec 410 2) (dec 400 2));
     ("10yr", entry_example (dec 380 2) (dec 370 2))].


(** Two calls of [format_summary] in a row. *)
Definition format_twice (data : snapshot) : M (string * string) :=
  (s1 <- BOEOISFetcher.format_summary data ;;
   s2 <- BOEOISFetcher.format_summary data ;;
   ret (s1, s2))%world.

(** The download fails. *)
Definition world_network_down : world :=
  World.World clock_example env_example
    (Raise (Exn RequestException "connection refused")) (Ok tt).

(** ** The rendered lines, from their parts *)

(** A line of the plain-text table. *)
Definition text_line (tenor cur prv arrow change_str : string) : string :=
  rjust 4 " " tenor ++ " Rate: " ++ cur ++ "% (was " ++ prv ++ "%) " ++
  arrow ++ " " ++ change_str ++ newline.

(** A row of the HTML table. *)
Definition html_cells (tenor cur prv change_class change_str : string)
  : string :=
  newline ++
  EmailSender.unlines
    [ "                <tr>";
      "                    <td><strong>" ++ tenor ++ "</strong></td>";
      "                    <td>" ++ cur ++ "%</td>";
      "                    <td>" ++ prv ++ "%</td>";
      "                    <td class=" ++ dquote ++ change_class ++ dquote ++
        ">" ++ change_str ++ "</td>";
      "                </tr>" ].

(** The pieces of a text put one after the other. *)
Definition join (pieces : list string) : string :=
  fold_right String.append "" pieces.

(** The arrow and the class of a float change, by the comparison with
    zero. *)
Definition float_arrow (f : float) : string :=
  if f_gt0 f then arrow_up else if f_lt0 f then arrow_down else arrow_flat.

Definition float_class (f : float) : string :=
  if f_gt0 f then "positive" else if f_lt0 f then "negative" else "neutral".

(** All three changes absent, all rates present. *)
Definition snapshot_changes_absent : snapshot :=
  Snapshot (day 2024 Jun 10) (day 2024 Jun 7)
    [("2yr", RateEntry (dec 450 2) (dec 425 2) VNone);
     ("5yr", RateEntry (dec 410 2) (dec 400 2) VNone);
     ("10yr", RateEntry (dec 380 2) (dec 370 2) VNone)].

(** ** Sample data: the newest date on two rows *)

Definition row_june_10_revised : list cell :=
  [CDatetime (day 2024 Jun 10); CNone; CNone; CNone; dec 455 2; CNone; CNone;
   dec 415 2; dec 385 2].

(** The sample sheet with a second row for 10 June after the first. *)
Definition sheet_repeated_latest : worksheet :=
  Worksheet [[CStr "Spot curve"]; []; []; header_example; [CStr "years:"];
             row_june_7; row_june_10; row_june_10_revised].

(** ** Sample data: a text in a rate cell *)




End Spec.

(* ===================================================================== *)
(** * The constructor with arguments and the two module entry points *)
(* ===================================================================== *)

Module Scripts.

Import Fetcher World.

(** ** [EmailSender.__init__] with arguments *)

Record sender_args := SenderArgs {
  arg_host : option string;
  arg_port : option Z;
  arg_user : option string;
  arg_password : option string;
  arg_from : option string;
  arg_to : option string }.

Definition no_args : sender_args := SenderArgs None None None None None None.

(** [arg or os.getenv(name, default)]: [or] keeps a true left operand, so
    the environment is read when the argument is [None] or empty. *)
Definition text_arg_or_env (arg : option string) (name default : string)
  : M string :=
  match arg with
  | Some s => if EmailSender.nonempty s then ret s else os_getenv name default
  | None => os_getenv name default
  end.

(** [int(os.getenv('SMTP_PORT', '587'))] *)
Definition port_from_env : M Z :=
  port_text <- os_getenv "SMTP_PORT" "587" ;;
  lift (EmailSender.py_int port_text).

(** [smtp_port or int(...)]: the text of the environment is parsed only
    when the argument is [None] or 0. *)
Definition port_arg_or_env (arg : option Z) : M Z :=
  match arg with
  | Some p => if (p =? 0)%Z then port_from_env else ret p
  | None => port_from_env
  end.

Definition construct (a : sender_args) : M EmailSender.email_sender :=
  host <- text_arg_or_env (arg_host a) "SMTP_HOST" "smtp.gmail.com" ;;
  port <- port_arg_or_env (arg_port a) ;;
  user <- text_arg_or_env (arg_user a) "SMTP_USER" "" ;;
  password <- text_arg_or_env (arg_password a) "SMTP_PASSWORD" "" ;;
  from <- text_arg_or_env (arg_from a) "FROM_EMAIL" user ;;
  to <- text_arg_or_env (arg_to a) "TO_EMAIL" "" ;;
  ret (EmailSender.Build_sender host port user password from to).

(** ** [main] of boe_ois_fetcher.py *)

Definition fetcher_main : M unit :=
  print "Fetching Bank of England OIS data..." ;;
  r <- BOEOISFetcher.fetch_ois_data ;;
  if Agent.truthy_text (snd r)
  then print ("Error: " ++ Agent.str_of_optional (snd r))
  else
    match fst r with
    | Some data =>
        summary <- BOEOISFetcher.format_summary data ;;
        print summary
    | None => print "No data returned"
    end.

(** ** [main] of email_sender.py *)

(** [text or 'Not configured'] *)
Definition or_not_configured (text : string) : string :=
  if EmailSender.nonempty text then text else "Not configured".

Definition sender_main : M unit :=
  sender <- EmailSender.init ;;
  print "Email Sender Configuration:" ;;
  print ("SMTP Host: " ++ EmailSender.smtp_host sender) ;;
  print ("SMTP Port: " ++ str_of_Z (EmailSender.smtp_port sender)) ;;
  print ("SMTP User: " ++ or_not_configured (EmailSender.smtp_user sender)) ;;
  print ("From Email: " ++ or_not_configured (EmailSender.from_email sender)) ;;
  print ("To Email: " ++ or_not_configured (EmailSender.to_email sender)) ;;
  print (newline ++ "To configure, set environment variables:") ;;
  print "  SMTP_HOST, SMTP_PORT, SMTP_USER, SMTP_PASSWORD, FROM_EMAIL, TO_EMAIL".

(** ** What a trace shows *)

Definition run_script {A} (m : M A) (w : world) : Z * list event :=
  let '(o, st) := m w initial in (exit_status o, trace st).

Definition is_http_get (e : event) : bool :=
  match e with EvHttpGet _ => true | _ => false end.

(** Number of downloads in a trace. *)
Definition downloads (t : list event) : nat :=
  List.length (filter is_http_get t).

(** The lines printed, in order. *)
Fixpoint printed (t : list event) : list string :=
  match t with
  | [] => []
  | EvPrint text :: rest => text :: printed rest
  | _ :: rest => printed rest
  end.

(** The messages handed to SMTP, in order. *)
Fixpoint sent (t : list event) : list message :=
  match t with
  | [] => []
  | EvSmtpSend _ _ _ m :: rest => m :: sent rest
  | _ :: rest => sent rest
  end.

(** The environment [env] with [name] set to [text]. *)
Definition setenv (env : string -> option string) (name text : string)
  : string -> option string :=
  fun k => if String.eqb k name then Some text else env k.

Definition with_env (w : world) (env : string -> option string) : world :=
  World.World (clock w) env (upstream w) (smtp_session w).

(** [os.getenv(name, default)] as a value. *)
Definition env_or (w : world) (name default : string) : string :=
  match getenv w name with Some v => v | None => default end.

(** The value of [arg or fallback] for a text argument. *)
Definition arg_or (arg : option string) (fallback : string) : string :=
  match arg with
  | Some s => if EmailSender.nonempty s then s else fallback
  | None => fallback
  end.

(** A sender with everything [send_email] asks for. *)
Definition ready (self : EmailSender.email_sender) : bool :=
  (EmailSender.nonempty (EmailSender.smtp_user self) &&
   EmailSender.nonempty (EmailSender.smtp_password self) &&
   EmailSender.nonempty (EmailSender.to_email self))%bool.

(** The HTML part [send_email] attaches for [html_body]. *)
Definition html_part (html_body : option string) : option string :=
  match html_body with
  | Some h => if EmailSender.nonempty h then Some h else None
  | None => None
  end.

(** A sender with a user and a recipient and no password. *)
Definition sender_without_password : EmailSender.email_sender :=
  EmailSender.Build_sender "smtp.gmail.com" 587 "feeder@example.org" ""
    "feeder@example.org" "desk@example.org".

(** The port argument, when it is the one used: a non-zero number. *)
Definition port_given (a : sender_args) : option Z :=
  match arg_port a with
  | Some p => if (p =? 0)%Z then None else Some p
  | None => None
  end.

End Scripts.

(* ===================================================================== *)
(** * Further vocabulary *)
(* ===================================================================== *)

Module Props.

Import Sheet Fetcher World Spec.

(** The dates of the dated rows, in row order. *)
Fixpoint row_dates (rows : list (list cell)) : list datetime :=
  match rows with
  | [] => []
  | (CDatetime d :: _) :: rest => d :: row_dates rest
  | _ :: rest => row_dates rest
  end.

(** The sample sheet with the newer row first. *)
Definition sheet_example_descending : worksheet :=
  Worksheet [[CStr "Spot curve"]; []; []; header_example; [CStr "years:"];
             row_june_10; row_june_7; [CStr "Source: Bank of England"]].

(** ** The run of the agent, spelled out *)

(** The message [fetch_ois_data] returns for an exception. *)
Definition fetch_error_text (e : exn) : string :=
  match exn_class e with
  | RequestException => "Network error: " ++ exn_msg e
  | KeyError => "Sheet not found: " ++ exn_msg e
  | _ => "Error fetching OIS data: " ++ exn_msg e
  end.

(** The pair [fetch_ois_data] returns. *)
Definition fetch_result (w : world) : option snapshot * option string :=
  match upstream w with
  | Ok sheet =>
      match _parse_ois_sheet sheet with
      | Ok data => (Some data, None)
      | Raise e => (None, Some (fetch_error_text e))
      end
  | Raise e => (None, Some (fetch_error_text e))
  end.

(** The message [send_email] returns for an exception of the session. *)
Definition send_error_text (e : exn) : string :=
  match exn_class e with
  | SMTPAuthenticationError =>
      "SMTP authentication failed - check username/password"
  | SMTPException => "SMTP error: " ++ exn_msg e
  | _ => "Error sending email: " ++ exn_msg e
  end.

(** The sender [EmailSender()] builds when SMTP_PORT reads [port]. *)
Definition sender_of_env (w : world) (port : Z) : EmailSender.email_sender :=
  EmailSender.Build_sender
    (Scripts.env_or w "SMTP_HOST" "smtp.gmail.com") port
    (Scripts.env_or w "SMTP_USER" "")
    (Scripts.env_or w "SMTP_PASSWORD" "")
    (Scripts.env_or w "FROM_EMAIL" (Scripts.env_or w "SMTP_USER" ""))
    (Scripts.env_or w "TO_EMAIL" "").

(** The message the agent sends for [data], [text] being the summary it
    printed and [html] the document. *)
Definition agent_message (w : world) (data : snapshot) (text html : string)
  : message :=
  Message ("OIS Rates - " ++ strftime_d_B_Y (latest_date data))
    (Scripts.env_or w "FROM_EMAIL" (Scripts.env_or w "SMTP_USER" ""))
    (Scripts.env_or w "TO_EMAIL" "") text (Scripts.html_part (Some html)).

(** What every run starts with. *)
Definition run_start (w : world) : list event :=
  [EvPrint ("[" ++ strftime_iso (clock w 0) ++ "] Starting OIS Daily Agent...");
   EvPrint "Fetching Bank of England OIS data...";
   EvHttpGet BOEOISFetcher.BOE_URL].

(** Exit status and trace of a run, stage by stage. *)
Definition run_outline (w : world) : Z * list event :=
  let r := fetch_result w in
  if Agent.truthy_text (snd r)
  then (1%Z,
        (run_start w ++
         [EvPrint ("ERROR: " ++ Agent.str_of_optional (snd r))])%list)
  else
    match fst r with
    | None => (1%Z, (run_start w ++ [EvPrint "ERROR: No data returned"])%list)
    | Some data =>
        let t1 :=
          (run_start w ++ [EvPrint "✓ Data fetched successfully"])%list in
        match summary_body data with
        | Raise _ => (1%Z, t1)
        | Ok body =>
            let text := body ++ summary_foot (clock w 1) in
            let t2 := (t1 ++ [EvPrint (newline ++ text)])%list in
            match EmailSender.py_int (Scripts.env_or w "SMTP_PORT" "587") with
            | Raise _ => (1%Z, t2)
            | Ok port =>
                if configured w
                then
                  let t3 :=
                    (t2 ++
                     [EvPrint (newline ++ "Sending email notification...")])%list
                  in
                  match EmailSender.html_rows (EmailSender.html_head data)
                          (rates data) with
                  | Raise _ => (1%Z, t3)
                  | Ok html =>
                      if EmailSender.nonempty
                           (Scripts.env_or w "SMTP_PASSWORD" "")
                      then
                        let t4 :=
                          (t3 ++
                           [EvSmtpSend
                              (Scripts.env_or w "SMTP_HOST" "smtp.gmail.com")
                              port (Scripts.env_or w "SMTP_USER" "")
                              (agent_message w data text
                                 (html ++ EmailSender.html_foot))])%list in
                        match smtp_session w with
                        | Ok _ =>
                            (0%Z,
                             (t4 ++
                              [EvPrint ("✓ Email sent successfully to " ++
                                        Scripts.env_or w "TO_EMAIL" "");
                               EvPrint (newline ++ "[" ++
                                        strftime_iso (clock w 3) ++
                                        "] OIS Daily Agent completed")])%list)
                        | Raise e =>
                            (1%Z,
                             (t4 ++
                              [EvPrint ("✗ Email failed: " ++
                                        send_error_text e)])%list)
                        end
                      else
                        (1%Z,
                         (t3 ++
                          [EvPrint
                             "✗ Email failed: SMTP credentials not configured"])%list)
                  end
                else
                  (0%Z, (t2 ++ map EvPrint Agent.not_configured_notice)%list)
            end
        end
    end.

(** An environment whose port is not a number. *)
Definition env_bad_port : string -> option string :=
  Scripts.setenv env_example "SMTP_PORT" "smtp".

(** Sender and recipient are set, the password is not. *)
Definition env_no_password (name : string) : option string :=
  if String.eqb name "SMTP_USER" then Some "feeder@example.org"
  else if String.eqb name "TO_EMAIL" then Some "desk@example.org"
  else None.

Definition world_no_password : world :=
  World.World clock_example env_no_password (Ok sheet_example) (Ok tt).

Definition world_bad_port : world :=
  World.World clock_example env_bad_port (Ok sheet_example) (Ok tt).

(** The sheet with a blank rate, everything else in order. *)
Definition world_blank_previous : world :=
  World.World clock_example env_example (Ok sheet_blank_previous) (Ok tt).

End Props.

(* ===================================================================== *)
(** * Verification *)
(* ===================================================================== *)

Import Sheet Fetcher World Spec.
Close Scope world_scope.

(** ** The column scan *)

Section ColumnScan.

Lemma SFeqb_finite_eq f s m e :
  SFeqb f (S754_finite s m e) = true -> f = S754_finite s m e.
Proof.
  unfold SFeqb, SFcompare.
  destruct f as [s0|s0| |s0 m0 e0]; try destruct s0; try destruct s; try discriminate.
  - destruct (Z.compare_spec e0 e); try discriminate.
    subst. rewrite Pos.compare_cont_spec. simpl.
    destruct (Pos.compare_spec m0 m); simpl; try discriminate. now subst.
  - destruct (Z.compare_spec e0 e); try discriminate.
    subst. rewrite Pos.compare_cont_spec. simpl.
    destruct (Pos.compare_spec m0 m); simpl; try discriminate. now subst.
Qed.

(** A cell equals at most one of the three maturities, so the order of the
    [elif] chain does not matter. *)
Lemma py_eq_int_target_unique v t t' :
  py_eq_int v (target t) = true -> py_eq_int v (target t') = true -> t = t'.
Proof.
  destruct v as [|z|f|s|d]; simpl; try discriminate.
  - intros H H'. apply Z.eqb_eq in H, H'.
    destruct t, t'; simpl in *; try reflexivity; lia.
  - intros H H'.
    destruct t, t'; try reflexivity;
      apply SFeqb_finite_eq in H; subst f; vm_compute in H'; discriminate.
Qed.

Lemma scan_step_column t c idx v :
  column_of t (scan_step c idx v) =
  if py_eq_int v (target t) then Some idx else column_of t c.
Proof.
  unfold scan_step.
  destruct (py_eq_int v 2) eqn:E2.
  { destruct t; simpl; rewrite ?E2; try reflexivity.
    - destruct (py_eq_int v 5) eqn:E5; [|reflexivity].
      pose proof (py_eq_int_target_unique v T2yr T5yr E2 E5); discriminate.
    - destruct (py_eq_int v 10) eqn:E10; [|reflexivity].
      pose proof (py_eq_int_target_unique v T2yr T10yr E2 E10); discriminate. }
  destruct (py_eq_int v 5) eqn:E5.
  { destruct t; simpl; rewrite ?E2, ?E5; try reflexivity.
    destruct (py_eq_int v 10) eqn:E10; [|reflexivity].
    pose proof (py_eq_int_target_unique v T5yr T10yr E5 E10); discriminate. }
  destruct (py_eq_int v 10) eqn:E10;
    destruct t; simpl; rewrite ?E2, ?E5, ?E10; reflexivity.
Qed.

Lemma last_cons_default (l : list nat) a b : l <> [] -> last l a = last l b.
Proof.
  induction l as [|x l IH]; [congruence|].
  intros _. destruct l; [reflexivity|]. simpl in *. apply IH. discriminate.
Qed.

(** What the scan leaves in a column variable: the last matching index, or
    the previous content when nothing matches. *)
Lemma scan_from_column t row : forall idx c,
  column_of t (scan_from idx row c) =
  match last_opt (positions_from idx (target t) row) with
  | Some i => Some i
  | None => column_of t c
  end.
Proof.
  induction row as [|v rest IH]; intros idx c; simpl; [reflexivity|].
  rewrite IH, scan_step_column.
  destruct (py_eq_int v (target t)); [|reflexivity].
  destruct (positions_from (S idx) (target t) rest) as [|j l] eqn:E; simpl.
  - reflexivity.
  - f_equal. destruct l; [reflexivity|].
    apply last_cons_default. discriminate.
Qed.

Lemma scan_column t row :
  column_of t (scan row) = last_opt (positions (target t) row).
Proof.
  unfold scan, positions. rewrite scan_from_column.
  destruct (last_opt _); [reflexivity|destruct t; reflexivity].
Qed.

Lemma positions_from_spec n row : forall idx i,
  In i (positions_from idx n row) <->
  exists v, idx <= i /\ nth_error row (i - idx) = Some v /\ py_eq_int v n = true.
Proof.
  induction row as [|v rest IH]; intros idx i; simpl.
  - split; [tauto|]. intros (v & _ & H & _). destruct (i - idx); discriminate.
  - assert (Hrest : In i (positions_from (S idx) n rest) <->
              exists v0, idx <= i /\ nth_error (v :: rest) (i - idx) = Some v0 /\
                         py_eq_int v0 n = true /\ i <> idx).
    { rewrite IH. split.
      - intros (v0 & Hle & Hn & He). exists v0. repeat split; try lia; auto.
        replace (i - idx) with (S (i - S idx)) by lia. exact Hn.
      - intros (v0 & Hle & Hn & He & Hne). exists v0. repeat split; try lia; auto.
        replace (i - idx) with (S (i - S idx)) in Hn by lia. exact Hn. }
    destruct (py_eq_int v n) eqn:E; simpl; rewrite Hrest.
    + split.
      * intros [<- | (v0 & ? & ? & ? & ?)].
        -- exists v. rewrite Nat.sub_diag. auto.
        -- exists v0; auto.
      * intros (v0 & Hle & Hn & He).
        destruct (Nat.eq_dec i idx) as [->|Hne]; [now left|].
        right. exists v0; auto.
    + split.
      * intros (v0 & ? & ? & ? & ?). exists v0; auto.
      * intros (v0 & Hle & Hn & He). exists v0. repeat split; auto.
        intros ->. rewrite Nat.sub_diag in Hn. simpl in Hn. congruence.
Qed.

Lemma positions_from_increasing n row : forall idx,
  Sorted.StronglySorted lt (positions_from idx n row) /\
  Forall (fun i => idx <= i) (positions_from idx n row).
Proof.
  induction row as [|v rest IH]; intros idx; simpl.
  - split; constructor.
  - destruct (IH (S idx)) as [Hs Hf].
    assert (Hf' : Forall (fun i => idx <= i) (positions_from (S idx) n rest)).
    { eapply Forall_impl; [|exact Hf]. simpl; intros; lia. }
    destruct (py_eq_int v n).
    + split.
      * constructor; [exact Hs|]. eapply Forall_impl; [|exact Hf]. simpl; intros; lia.
      * constructor; [lia|exact Hf'].
    + split; assumption.
Qed.

Lemma last_opt_max (l : list nat) i :
  Sorted.StronglySorted lt l -> In i l -> (forall j, In j l -> j <= i) ->
  last_opt l = Some i.
Proof.
  intros Hs. revert i. induction Hs as [|x l Hs IH Hx]; intros i Hin Hmax.
  - contradiction.
  - simpl. destruct l as [|y l'].
    + simpl. destruct Hin as [->|[]]. reflexivity.
    + assert (Hi : In i (y :: l')).
      { destruct Hin as [<-|Hin]; [|exact Hin].
        exfalso. rewrite Forall_forall in Hx.
        specialize (Hx y (or_introl eq_refl)). specialize (Hmax y (or_intror (or_introl eq_refl))). lia. }
      specialize (IH i Hi (fun j Hj => Hmax j (or_intror Hj))).
      simpl in IH. injection IH as IH.
      f_equal. rewrite <- IH. destruct l' as [|z l'']; [reflexivity|].
      change (last (z :: l'') x = last (z :: l'') y).
      apply last_cons_default. discriminate.
Qed.

End ColumnScan.

Section Locator.

Lemma positions_spec n row i :
  In i (positions n row) <->
  exists v, nth_error row i = Some v /\ py_eq_int v n = true.
Proof.
  unfold positions. rewrite positions_from_spec. rewrite Nat.sub_0_r.
  split; intros (v & H); exists v; intuition lia.
Qed.

Lemma last_match_column t row i v :
  nth_error row i = Some v -> py_eq_int v (target t) = true ->
  (forall j v', i < j -> nth_error row j = Some v' ->
                py_eq_int v' (target t) = false) ->
  column_of t (scan row) = Some i.
Proof.
  intros Hn He Hlast. rewrite scan_column.
  apply last_opt_max.
  - apply positions_from_increasing.
  - apply positions_spec. eauto.
  - intros j Hj. apply positions_spec in Hj. destruct Hj as (v' & Hn' & He').
    destruct (Nat.le_gt_cases j i) as [|Hlt]; [assumption|].
    rewrite (Hlast j v' Hlt Hn') in He'. discriminate.
Qed.

Lemma absent_column t row :
  absent (target t) row -> column_of t (scan row) = None.
Proof.
  intros Ha. rewrite scan_column.
  destruct (positions (target t) row) as [|i l] eqn:E; [reflexivity|].
  assert (Hin : In i (positions (target t) row)) by (rewrite E; now left).
  apply positions_spec in Hin. destruct Hin as (v & Hn & He).
  apply nth_error_In in Hn. rewrite (Ha v Hn) in He. discriminate.
Qed.

Lemma locate_columns_scan row :
  locate_columns row =
  match column_of T2yr (scan row), column_of T5yr (scan row),
        column_of T10yr (scan row) with
  | Some c2, Some c5, Some c10 => Ok (c2, c5, c10)
  | _, _, _ => Raise columns_not_found
  end.
Proof.
  unfold locate_columns. destruct (scan row) as [[a|] [b|] [c|]]; reflexivity.
Qed.

End Locator.

(** C5. When several header cells equal the same target maturity, the scan
    resolves the tenor to the last of them: a matching column [i] with no
    matching column after it is the one the scan keeps, whatever matched
    before it, and it is the index the locator returns. *)
Theorem C5_last_match_wins (row : list cell) (t : tenor) (i : nat) (v : cell) :
  nth_error row i = Some v ->
  py_eq_int v (target t) = true ->
  (forall j v', i < j -> nth_error row j = Some v' ->
                py_eq_int v' (target t) = false) ->
  column_of t (scan row) = Some i /\
  (forall i0, i0 < i -> column_of t (scan row) <> Some i0) /\
  (forall c, locate_columns row = Ok c -> pick t c = i).
Proof.
  intros Hn He Hlast.
  pose proof (last_match_column t row i v Hn He Hlast) as Hc.
  split; [exact Hc|]. split.
  - intros i0 Hlt Heq. rewrite Hc in Heq. injection Heq as ->. lia.
  - intros c. rewrite locate_columns_scan.
    destruct (column_of T2yr (scan row)) as [c2|] eqn:E2; try discriminate.
    destruct (column_of T5yr (scan row)) as [c5|] eqn:E5; try discriminate.
    destruct (column_of T10yr (scan row)) as [c10|] eqn:E10; try discriminate.
    intros [= <-]. destruct t; simpl; congruence.
Qed.

(** The header [2, 5, 2.0, 10, 5]: the 2-year column is column 2, not 0. *)
Lemma C5_last_match_wins_witness :
  column_of T2yr (scan [CInt 2; CInt 5; CFloat (f_of_Z 2); CInt 10; CInt 5])
  = Some 2.
Proof.
  refine (proj1 (C5_last_match_wins
                   [CInt 2; CInt 5; CFloat (f_of_Z 2); CInt 10; CInt 5]
                   T2yr 2 (CFloat (f_of_Z 2)) eq_refl eq_refl _)).
  intros j v' Hlt.
  destruct j as [|[|[|[|[|j]]]]]; simpl; try lia;
    intros [= <-] || (destruct j; discriminate); reflexivity.
Defined.

(** C2, as the code has it.  A header row with exactly one cell equal to
    2, one equal to 5 and one equal to 10 yields their three indices.  A
    header row lacking any of the three makes the locator fail with a
    [ValueError] whose message is always the same sentence, "Could not find
    2yr, 5yr, or 10yr columns", whichever targets were unresolved. *)
Theorem C2_locator (row : list cell) :
  (forall i2 i5 i10,
      sole_match 2 row i2 -> sole_match 5 row i5 -> sole_match 10 row i10 ->
      locate_columns row = Ok (i2, i5, i10)) /\
  (absent 2 row \/ absent 5 row \/ absent 10 row ->
   locate_columns row =
   Raise (Exn ValueError "Could not find 2yr, 5yr, or 10yr columns")).
Proof.
  assert (Hsole : forall t i, sole_match (target t) row i ->
                              column_of t (scan row) = Some i).
  { intros t i [(v & Hn & He) Huniq].
    apply (last_match_column t row i v Hn He).
    intros j v' Hlt Hn'. destruct (py_eq_int v' (target t)) eqn:E; [|reflexivity].
    specialize (Huniq j v' Hn' E). lia. }
  split.
  - intros i2 i5 i10 H2 H5 H10. rewrite locate_columns_scan.
    rewrite (Hsole T2yr i2 H2), (Hsole T5yr i5 H5), (Hsole T10yr i10 H10).
    reflexivity.
  - intros H. rewrite locate_columns_scan.
    destruct H as [H | [H | H]].
    + rewrite (absent_column T2yr row H). reflexivity.
    + rewrite (absent_column T5yr row H).
      destruct (column_of T2yr (scan row)); reflexivity.
    + rewrite (absent_column T10yr row H).
      destruct (column_of T2yr (scan row)), (column_of T5yr (scan row));
        reflexivity.
Qed.

Lemma sole_match_example n i v :
  nth_error header_example i = Some v -> py_eq_int v n = true ->
  positions n header_example = [i] -> sole_match n header_example i.
Proof.
  intros Hn He Hp. split; [eauto|].
  intros j v' Hn' He'.
  assert (Hin : In j (positions n header_example))
    by (apply positions_spec; eauto).
  rewrite Hp in Hin. destruct Hin as [<-|[]]. reflexivity.
Qed.

(** The header of the end-to-end scenario resolves to columns 4, 7, 8, and
    a header without a 10 fails with the fixed message. *)
Lemma C2_locator_witness :
  locate_columns header_example = Ok (4, 7, 8) /\
  locate_columns [CInt 2; CInt 5] =
  Raise (Exn ValueError "Could not find 2yr, 5yr, or 10yr columns").
Proof.
  split.
  - apply (proj1 (C2_locator header_example) 4 7 8).
    + apply (sole_match_example 2 4 (CInt 2)); reflexivity.
    + apply (sole_match_example 5 7 (CInt 5)); reflexivity.
    + apply (sole_match_example 10 8 (CInt 10)); reflexivity.
  - apply (proj2 (C2_locator [CInt 2; CInt 5])).
    right; right. intros v [<-|[<-|[]]]; reflexivity.
Defined.

(** C2 fails as stated: the header [2, 5] lacks only the 10-year column,
    yet the message of the failure mentions "2yr" and "5yr" as well, and
    it is the very message the header [5, 10], which lacks only the 2-year
    column, fails with. *)
Lemma C2_counterexample :
  unresolved [CInt 2; CInt 5] = [T10yr] /\
  unresolved [CInt 5; CInt 10] = [T2yr] /\
  locate_columns [CInt 2; CInt 5] =
    Raise (Exn ValueError "Could not find 2yr, 5yr, or 10yr columns") /\
  locate_columns [CInt 5; CInt 10] = locate_columns [CInt 2; CInt 5] /\
  ~ names_exactly "Could not find 2yr, 5yr, or 10yr columns"
      (unresolved [CInt 2; CInt 5]).
Proof.
  repeat split; try reflexivity.
  intros H. destruct (proj2 (H T2yr) eq_refl) as [E|[]]. discriminate.
Qed.

(** ** Dates, the stable sort and the row collection *)

Section DatetimeOrder.

Lemma lex_compare_refl a : lex_compare a a = Eq.
Proof. induction a as [|x a IH]; simpl; [reflexivity|]. now rewrite Z.compare_refl. Qed.

Lemma lex_compare_eq a : forall b, lex_compare a b = Eq -> a = b.
Proof.
  induction a as [|x a IH]; intros [|y b]; simpl; try discriminate; [reflexivity|].
  destruct (Z.compare_spec x y) as [Hxy|Hxy|Hxy]; try discriminate.
  intros Hl. subst. f_equal. now apply IH.
Qed.

Lemma lex_compare_antisym a : forall b,
  lex_compare b a = CompOpp (lex_compare a b).
Proof.
  induction a as [|x a IH]; intros [|y b]; simpl; try reflexivity.
  rewrite (Z.compare_antisym x y).
  destruct (x ?= y)%Z; simpl; auto.
Qed.

Lemma lex_compare_lt_trans a : forall b c,
  lex_compare a b = Lt -> lex_compare b c = Lt -> lex_compare a c = Lt.
Proof.
  induction a as [|x a IH]; intros [|y b] [|z c]; simpl; try discriminate; auto.
  destruct (Z.compare_spec x y) as [Hxy|Hxy|Hxy]; try discriminate;
    destruct (Z.compare_spec y z) as [Hyz|Hyz|Hyz]; try discriminate;
    intros H1 H2; subst.
  - rewrite Z.compare_refl. eauto.
  - destruct (Z.compare_spec y z); try lia. reflexivity.
  - destruct (Z.compare_spec x z); try lia. reflexivity.
  - destruct (Z.compare_spec x z); try lia. reflexivity.
Qed.

Lemma month_number_inj m m' : month_number m = month_number m' -> m = m'.
Proof. destruct m, m'; simpl; intros H; try reflexivity; discriminate. Qed.

Lemma dt_fields_inj a b : dt_fields a = dt_fields b -> a = b.
Proof.
  destruct a, b; unfold dt_fields; simpl.
  intros [= -> Hm -> -> -> -> ->]. apply month_number_inj in Hm. now subst.
Qed.

Lemma dt_eqb_eq a b : dt_eqb a b = true <-> a = b.
Proof.
  unfold dt_eqb, dt_compare. split.
  - destruct (lex_compare _ _) eqn:E; try discriminate.
    intros _. apply dt_fields_inj. now apply lex_compare_eq.
  - intros ->. now rewrite lex_compare_refl.
Qed.

Lemma dt_leb_refl a : dt_leb a a = true.
Proof. unfold dt_leb, dt_compare. now rewrite lex_compare_refl. Qed.

Lemma dt_ltb_leb a b : dt_ltb a b = true -> dt_leb a b = true.
Proof. unfold dt_ltb, dt_leb. destruct (dt_compare a b); auto. Qed.

(** The order is total: a date that is not earlier is later or equal. *)
Lemma dt_ltb_false_leb a b : dt_ltb a b = false -> dt_leb b a = true.
Proof.
  unfold dt_ltb, dt_leb, dt_compare.
  rewrite (lex_compare_antisym (dt_fields a) (dt_fields b)).
  destruct (lex_compare (dt_fields a) (dt_fields b)); simpl; auto; discriminate.
Qed.

Lemma dt_leb_trans a b c :
  dt_leb a b = true -> dt_leb b c = true -> dt_leb a c = true.
Proof.
  unfold dt_leb, dt_compare.
  destruct (lex_compare (dt_fields a) (dt_fields b)) eqn:Eab; try discriminate;
    destruct (lex_compare (dt_fields b) (dt_fields c)) eqn:Ebc; try discriminate;
    intros _ _.
  - apply lex_compare_eq in Eab, Ebc. rewrite Eab, Ebc, lex_compare_refl. reflexivity.
  - apply lex_compare_eq in Eab. rewrite Eab, Ebc. reflexivity.
  - apply lex_compare_eq in Ebc. rewrite <- Ebc, Eab. reflexivity.
  - rewrite (lex_compare_lt_trans _ _ _ Eab Ebc). reflexivity.
Qed.

Lemma dt_ltb_irrefl_eq a b : dt_ltb a b = true -> a <> b.
Proof.
  unfold dt_ltb, dt_compare. intros H ->. rewrite lex_compare_refl in H. discriminate.
Qed.

Lemma dt_leb_antisym a b :
  dt_leb a b = true -> dt_leb b a = true -> a = b.
Proof.
  intros Hab Hba. apply dt_eqb_eq.
  unfold dt_leb, dt_eqb, dt_compare in *.
  rewrite (lex_compare_antisym (dt_fields a) (dt_fields b)) in Hba.
  destruct (lex_compare (dt_fields a) (dt_fields b)); simpl in *;
    congruence.
Qed.

Lemma dt_ltb_not_leb a b : dt_ltb a b = true -> dt_leb b a = false.
Proof.
  unfold dt_ltb, dt_leb, dt_compare.
  rewrite (lex_compare_antisym (dt_fields a) (dt_fields b)).
  destruct (lex_compare (dt_fields a) (dt_fields b)); simpl; congruence.
Qed.

End DatetimeOrder.

Section StableSort.

Lemma insert_desc_perm x l : Permutation (x :: l) (insert_desc x l).
Proof.
  induction l as [|y t IH]; simpl; [reflexivity|].
  destruct (dt_ltb (date x) (date y)); [|reflexivity].
  rewrite perm_swap. now apply perm_skip.
Qed.

Lemma sort_desc_perm l : Permutation l (sort_desc l).
Proof.
  induction l as [|x l IH]; simpl; [constructor|].
  rewrite <- insert_desc_perm. now apply perm_skip.
Qed.

Lemma insert_desc_sorted x l :
  StronglySorted not_earlier l -> StronglySorted not_earlier (insert_desc x l).
Proof.
  induction 1 as [|y t Hs IH Hy]; simpl.
  - repeat constructor.
  - destruct (dt_ltb (date x) (date y)) eqn:E.
    + constructor; [exact IH|].
      rewrite <- insert_desc_perm. constructor; [|exact Hy].
      unfold not_earlier. now apply dt_ltb_leb.
    + apply dt_ltb_false_leb in E.
      constructor; [now constructor|].
      constructor; [exact E|].
      eapply Forall_impl; [|exact Hy].
      unfold not_earlier. intros o Ho. eapply dt_leb_trans; eassumption.
Qed.

Lemma sort_desc_sorted l : StronglySorted not_earlier (sort_desc l).
Proof.
  induction l as [|x l IH]; simpl; [constructor|].
  now apply insert_desc_sorted.
Qed.

(** Rows of one date keep their order: the sort is stable. *)
Lemma insert_desc_stable d x l :
  filter (on_date d) (insert_desc x l) = filter (on_date d) (x :: l).
Proof.
  induction l as [|y t IH]; [reflexivity|].
  cbn [insert_desc]. destruct (dt_ltb (date x) (date y)) eqn:E; [|reflexivity].
  cbn [filter] in *. rewrite IH.
  destruct (on_date d x) eqn:Ex; [|reflexivity].
  destruct (on_date d y) eqn:Ey; [|reflexivity].
  unfold on_date in Ex, Ey. apply dt_eqb_eq in Ex, Ey.
  apply dt_ltb_irrefl_eq in E. congruence.
Qed.

Lemma sort_desc_stable d l :
  filter (on_date d) (sort_desc l) = filter (on_date d) l.
Proof.
  induction l as [|x l IH]; [reflexivity|].
  cbn [sort_desc fold_right]. fold (sort_desc l).
  rewrite insert_desc_stable. cbn [filter]. now rewrite IH.
Qed.

(** The first row of a date in the sorted list is the first row of that
    date in the original list. *)
Lemma filter_head_split {A} (p : A -> bool) (l : list A) x rest :
  filter p l = x :: rest ->
  exists l1 l2, l = (l1 ++ x :: l2)%list /\ Forall (fun y => p y = false) l1.
Proof.
  induction l as [|y l IH]; simpl; [discriminate|].
  destruct (p y) eqn:E.
  - intros [= -> _]. exists [], l. split; [reflexivity|constructor].
  - intros H. destruct (IH H) as (l1 & l2 & -> & Hf).
    exists (y :: l1), l2. split; [reflexivity|]. now constructor.
Qed.

End StableSort.

Section Collect.

Lemma index_nth row i :
  i < List.length row -> index row i = Ok (nth i row CNone).
Proof.
  intros H. unfold index.
  rewrite (nth_error_nth' row CNone H). reflexivity.
Qed.

(** With the three columns inside every row, the loop raises nothing and
    keeps exactly the dated rows, in order. *)
Lemma collect_observations c2 c5 c10 rows : forall acc,
  Forall (fun row => c2 < List.length row /\ c5 < List.length row /\
                     c10 < List.length row) rows ->
  collect c2 c5 c10 rows acc = Ok (acc ++ observations c2 c5 c10 rows)%list.
Proof.
  induction rows as [|row rest IH]; intros acc Hw; simpl.
  - now rewrite app_nil_r.
  - inversion Hw as [|? ? (H2 & H5 & H10) Hrest]; subst.
    rewrite index_nth by lia.
    destruct row as [|v row']; [simpl in H2; lia|].
    cbn [nth rbind]. destruct v; simpl; try (apply IH; assumption).
    rewrite !index_nth by assumption. cbn [rbind].
    rewrite IH by assumption. now rewrite <- app_assoc.
Qed.

Lemma observations_dated c2 c5 c10 rows :
  List.length (observations c2 c5 c10 rows) = List.length (filter dated rows).
Proof.
  induction rows as [|row rest IH]; simpl; [reflexivity|].
  destruct row as [|[] row']; simpl; auto.
Qed.

(** The observations are the dated rows, one for one and in order. *)
Lemma observations_map c2 c5 c10 rows :
  map Some (observations c2 c5 c10 rows) =
  map (observation_of_row c2 c5 c10) (filter dated rows).
Proof.
  induction rows as [|row rest IH]; simpl; [reflexivity|].
  destruct row as [|[] row']; simpl; auto. now rewrite IH.
Qed.

Lemma row_values_length ws i : List.length (row_values ws i) = max_column ws.
Proof.
  unfold row_values. rewrite List.length_app, (List.repeat_length CNone).
  assert (H : forall (rows : list (list cell)) r, In r rows ->
            List.length r <=
            fold_right (fun r acc => Nat.max (List.length r) acc) 1 rows).
  { induction rows as [|r0 rows IH]; simpl; [tauto|].
    intros r [->|Hin]; [lia|]. specialize (IH r Hin). lia. }
  destruct (Nat.lt_ge_cases (i - 1) (List.length (ws_rows ws))) as [Hlt|Hge].
  - pose proof (H (ws_rows ws) _ (nth_In (ws_rows ws) [] Hlt)).
    unfold max_column. lia.
  - rewrite (nth_overflow _ [] Hge). simpl. lia.
Qed.

Lemma iter_rows_length ws lo hi :
  Forall (fun row => List.length row = max_column ws) (iter_rows ws lo hi).
Proof.
  unfold iter_rows. apply Forall_forall. intros row Hin.
  apply in_map_iff in Hin. destruct Hin as (i & <- & _).
  apply row_values_length.
Qed.

Lemma iter_rows_single ws i : iter_rows ws i i = [row_values ws i].
Proof.
  unfold iter_rows. replace (S i - i) with 1 by lia. reflexivity.
Qed.

Lemma last_opt_In l i : last_opt l = Some i -> In i l.
Proof.
  destruct l as [|x t]; simpl; [discriminate|].
  intros [= <-]. revert x. induction t as [|y t IH]; intros x.
  - now left.
  - right. destruct t as [|z t'].
    + now left.
    + change (In (last (z :: t') x) (y :: z :: t')).
      rewrite (last_cons_default (z :: t') x y) by discriminate.
      apply IH.
Qed.

Lemma column_in_range t row i :
  column_of t (scan row) = Some i -> i < List.length row.
Proof.
  rewrite scan_column. intros H. apply last_opt_In in H.
  apply positions_spec in H. destruct H as (v & Hn & _).
  apply nth_error_Some. congruence.
Qed.

Lemma locate_columns_in_range row c2 c5 c10 :
  locate_columns row = Ok (c2, c5, c10) ->
  c2 < List.length row /\ c5 < List.length row /\ c10 < List.length row.
Proof.
  rewrite locate_columns_scan.
  destruct (column_of T2yr (scan row)) as [a|] eqn:E2; try discriminate.
  destruct (column_of T5yr (scan row)) as [b|] eqn:E5; try discriminate.
  destruct (column_of T10yr (scan row)) as [c|] eqn:E10; try discriminate.
  intros [= <- <- <-].
  repeat split; eapply column_in_range; eassumption.
Qed.

(** The parser on a worksheet: the column scan of row 4, then the
    observations of rows 6 onward; no index is ever out of range. *)
Lemma parse_sheet_unfold ws :
  _parse_ois_sheet ws =
  match locate_columns (maturity_row_of ws) with
  | Ok (c2, c5, c10) =>
      select_and_build (observations c2 c5 c10 (data_rows_of ws))
  | Raise e => Raise e
  end.
Proof.
  unfold _parse_ois_sheet, parse_rows, maturity_row_of, data_rows_of.
  rewrite iter_rows_single. cbn [index nth_error rbind].
  destruct (locate_columns (row_values ws 4)) as [[[c2 c5] c10]|e] eqn:E;
    [|reflexivity].
  cbn [rbind]. apply locate_columns_in_range in E.
  rewrite row_values_length in E.
  rewrite collect_observations.
  - reflexivity.
  - eapply Forall_impl; [|apply iter_rows_length].
    simpl. intros row ->. exact E.
Qed.

End Collect.

(** ** The two most recent observations *)

Section Changes.

Lemma float_of_int_class z e :
  float_of_int z = Raise e -> exn_class e = OverflowError.
Proof.
  unfold float_of_int. destruct (f_is_inf (f_of_Z z)); [|discriminate].
  now intros [= <-].
Qed.

(** Computing a change fails only on operands that cannot be subtracted
    ([TypeError]) or on an integer beyond the floats ([OverflowError]). *)
Lemma calculate_change_class l p e :
  calculate_change l p = Raise e ->
  exn_class e = TypeError \/ exn_class e = OverflowError.
Proof.
  unfold calculate_change.
  destruct l as [|x|f|s|d], p as [|y|g|s'|d']; simpl; try discriminate;
    try (intros [= <-]; now left).
  - destruct (float_of_int x) eqn:E; simpl; [discriminate|].
    intros [= <-]. right. eapply float_of_int_class; eassumption.
  - destruct (float_of_int y) eqn:E; simpl; [discriminate|].
    intros [= <-]. right. eapply float_of_int_class; eassumption.
  - destruct (_ && _)%bool; [discriminate|]. intros [= <-]. now right.
Qed.

Lemma build_result_class latest prev e :
  build_result latest prev = Raise e ->
  exn_class e = TypeError \/ exn_class e = OverflowError.
Proof.
  unfold build_result.
  destruct (calculate_change (rate_2yr latest) (rate_2yr prev)) eqn:E2; simpl;
    [|intros [= <-]; eapply calculate_change_class; eassumption].
  destruct (calculate_change (rate_5yr latest) (rate_5yr prev)) eqn:E5; simpl;
    [|intros [= <-]; eapply calculate_change_class; eassumption].
  destruct (calculate_change (rate_10yr latest) (rate_10yr prev)) eqn:E10; simpl;
    [discriminate|intros [= <-]; eapply calculate_change_class; eassumption].
Qed.

Lemma build_result_dates latest prev snap :
  build_result latest prev = Ok snap ->
  latest_date snap = date latest /\ previous_date snap = date prev.
Proof.
  unfold build_result.
  destruct (calculate_change (rate_2yr latest) (rate_2yr prev)); simpl; [|discriminate].
  destruct (calculate_change (rate_5yr latest) (rate_5yr prev)); simpl; [|discriminate].
  destruct (calculate_change (rate_10yr latest) (rate_10yr prev)); simpl; [|discriminate].
  intros [= <-]. split; reflexivity.
Qed.

End Changes.

(** C3. With at least two dated rows, the parser takes the first two rows
    of the observations sorted by date, latest first, with a stable sort:
    the sorted list is a rearrangement of the observations, in descending
    date order, in which rows of one date keep their row order.  So the
    latest date is the maximum of all observation dates, carried by the
    first row that has it, and the previous date is the maximum over the
    remaining rows, whether or not the two days are adjacent.  The previous
    date is earlier than the latest one exactly when the latest date heads
    one row only, and it is then the second largest date: no date of the
    sheet lies between the two.  When the latest date heads two rows or
    more, the previous date is the latest date again, and the previous
    rates are those of the second of these rows. *)
Theorem C3_latest_and_previous (ws : worksheet) (c2 c5 c10 : nat) :
  locate_columns (maturity_row_of ws) = Ok (c2, c5, c10) ->
  2 <= List.length (filter dated (data_rows_of ws)) ->
  exists latest prev rest,
    let obs := observations c2 c5 c10 (data_rows_of ws) in
    sort_desc obs = latest :: prev :: rest /\
    _parse_ois_sheet ws = build_result latest prev /\
    (forall snap, _parse_ois_sheet ws = Ok snap ->
                  latest_date snap = date latest /\
                  previous_date snap = date prev) /\
    Permutation obs (latest :: prev :: rest) /\
    StronglySorted not_earlier (latest :: prev :: rest) /\
    (forall d, filter (on_date d) (latest :: prev :: rest) =
               filter (on_date d) obs) /\
    (forall o, In o obs -> dt_leb (date o) (date latest) = true) /\
    (forall o, In o (prev :: rest) -> dt_leb (date o) (date prev) = true) /\
    (exists l1 l2, obs = (l1 ++ latest :: l2)%list /\
                   Forall (fun o => dt_ltb (date o) (date latest) = true) l1) /\
    (dt_ltb (date prev) (date latest) = true <->
     List.length (filter (on_date (date latest)) obs) = 1) /\
    (date prev = date latest <->
     2 <= List.length (filter (on_date (date latest)) obs)) /\
    (date prev = date latest ->
     exists more,
       filter (on_date (date latest)) obs = latest :: prev :: more) /\
    (forall o, In o obs -> dt_ltb (date o) (date latest) = true ->
               dt_leb (date o) (date prev) = true).
Proof.
  intros Hloc Hlen. cbv zeta.
  set (obs := observations c2 c5 c10 (data_rows_of ws)).
  assert (Hobs : 2 <= List.length (sort_desc obs)).
  { rewrite <- (Permutation_length (sort_desc_perm obs)).
    unfold obs. now rewrite observations_dated. }
  pose proof (sort_desc_perm obs) as Hperm.
  pose proof (sort_desc_sorted obs) as Hsorted.
  pose proof (fun d => sort_desc_stable d obs) as Hstable.
  destruct (sort_desc obs) as [|latest [|prev rest]] eqn:Hsort;
    try (simpl in Hobs; lia).
  assert (Hparse : _parse_ois_sheet ws = build_result latest prev).
  { rewrite parse_sheet_unfold, Hloc. fold obs.
    unfold select_and_build. now rewrite Hsort. }
  assert (Hmax : forall o, In o obs -> dt_leb (date o) (date latest) = true).
  { intros o Ho. apply (Permutation_in _ Hperm) in Ho.
    destruct Ho as [<-|Ho]; [apply dt_leb_refl|].
    apply StronglySorted_inv in Hsorted. destruct Hsorted as [_ Hall].
    rewrite Forall_forall in Hall. exact (Hall o Ho). }
  assert (Hprev : forall o, In o (prev :: rest) ->
                            dt_leb (date o) (date prev) = true).
  { intros o [<-|Ho]; [apply dt_leb_refl|].
    pose proof Hsorted as Hs0.
    apply StronglySorted_inv in Hs0. destruct Hs0 as [Hs _].
    apply StronglySorted_inv in Hs. destruct Hs as [_ Hall].
    rewrite Forall_forall in Hall. exact (Hall o Ho). }
  assert (Hcount : filter (on_date (date latest)) obs =
                   latest :: filter (on_date (date latest)) (prev :: rest)).
  { rewrite <- (Hstable (date latest)). cbn [filter].
    unfold on_date at 1. now rewrite (proj2 (dt_eqb_eq _ _) eq_refl). }
  assert (Hstrict : dt_ltb (date prev) (date latest) = true ->
                    filter (on_date (date latest)) (prev :: rest) = []).
  { intros Hlt. apply dt_ltb_not_leb in Hlt.
    assert (Hnone : forall o, In o (prev :: rest) ->
                              on_date (date latest) o = false).
    { intros o Ho. unfold on_date.
      destruct (dt_eqb (date o) (date latest)) eqn:E; [|reflexivity].
      apply dt_eqb_eq in E. specialize (Hprev o Ho).
      rewrite E in Hprev. congruence. }
    clear - Hnone. induction (prev :: rest) as [|y l IH]; [reflexivity|].
    cbn [filter]. rewrite (Hnone y (or_introl eq_refl)).
    apply IH. intros o Ho. apply Hnone. now right. }
  assert (Hcases : dt_ltb (date prev) (date latest) = true \/
                   date prev = date latest).
  { destruct (dt_ltb (date prev) (date latest)) eqn:E; [now left|right].
    apply dt_leb_antisym; [|now apply dt_ltb_false_leb].
    apply Hmax. apply (Permutation_in _ (Permutation_sym Hperm)).
    right. now left. }
  assert (Htie : date prev = date latest ->
                 2 <= List.length (filter (on_date (date latest)) obs)).
  { intros E. rewrite Hcount. cbn [filter]. unfold on_date at 1.
    rewrite (proj2 (dt_eqb_eq _ _) E). simpl. lia. }
  exists latest, prev, rest.
  split; [reflexivity|].
  split; [exact Hparse|].
  split.
  { intros snap H. rewrite Hparse in H. apply (build_result_dates _ _ _ H). }
  split; [exact Hperm|].
  split; [exact Hsorted|].
  split; [exact Hstable|].
  split; [exact Hmax|].
  split; [exact Hprev|].
  split.
  { specialize (Hstable (date latest)). cbn [filter] in Hstable.
    unfold on_date at 1 in Hstable.
    rewrite (proj2 (dt_eqb_eq _ _) eq_refl) in Hstable.
    symmetry in Hstable.
    destruct (filter_head_split _ _ _ _ Hstable) as (l1 & l2 & Hsplit & Hl1).
    exists l1, l2. split; [exact Hsplit|].
    rewrite Forall_forall in *. intros o Ho.
    assert (Hin : In o obs) by (rewrite Hsplit; apply in_or_app; now left).
    specialize (Hmax o Hin). specialize (Hl1 o Ho).
    unfold on_date, dt_eqb in Hl1. unfold dt_leb in Hmax. unfold dt_ltb.
    destruct (dt_compare (date o) (date latest)); congruence. }
  split.
  { split.
    - intros Hlt. rewrite Hcount, (Hstrict Hlt). reflexivity.
    - intros Hone. destruct Hcases as [Hlt|E]; [exact Hlt|].
      apply Htie in E. lia. }
  split.
  { split; [exact Htie|].
    intros Htwo. destruct Hcases as [Hlt|E]; [|exact E].
    rewrite Hcount, (Hstrict Hlt) in Htwo. simpl in Htwo. lia. }
  split.
  { intros E. rewrite Hcount. cbn [filter]. unfold on_date at 1.
    rewrite (proj2 (dt_eqb_eq _ _) E). eauto. }
  intros o Ho Hlt. apply Hprev.
  apply (Permutation_in _ Hperm) in Ho.
  destruct Ho as [<-|Ho]; [|exact Ho].
  apply dt_ltb_irrefl_eq in Hlt. congruence.
Qed.

(** In the sample sheet the rows are three days apart and the older one
    comes first: the latest date is 10 June, the previous one 7 June. *)
Lemma C3_latest_and_previous_witness :
  exists snap,
    _parse_ois_sheet sheet_example = Ok snap /\
    latest_date snap = day 2024 Jun 10 /\
    previous_date snap = day 2024 Jun 7.
Proof.
  destruct (C3_latest_and_previous sheet_example 4 7 8 eq_refl
              (le_n 2))
    as (latest & prev & rest & Hsort & Hparse & Hdates & _).
  vm_compute in Hsort. injection Hsort as <- <- _.
  eexists. split; [vm_compute; reflexivity|].
  split; reflexivity.
Defined.

(** With 10 June on two rows after the row of 7 June, the latest date is
    not above the dates of all other rows and the previous date is not the
    second largest date, 7 June: both are 10 June, the previous rates being
    those of the second row of that day. *)
Lemma C3_counterexample :
  exists snap e,
    _parse_ois_sheet sheet_repeated_latest = Ok snap /\
    List.length (filter dated (data_rows_of sheet_repeated_latest)) = 3 /\
    map date (observations 4 7 8 (data_rows_of sheet_repeated_latest)) =
      [day 2024 Jun 7; day 2024 Jun 10; day 2024 Jun 10] /\
    latest_date snap = day 2024 Jun 10 /\
    previous_date snap = day 2024 Jun 10 /\
    previous_date snap <> day 2024 Jun 7 /\
    dt_ltb (previous_date snap) (latest_date snap) = false /\
    entry_of T2yr snap = Some e /\
    current e = dec 450 2 /\ previous e = dec 455 2.
Proof.
  eexists. eexists.
  split; [vm_compute; reflexivity|].
  repeat split; try (vm_compute; reflexivity).
  discriminate.
Qed.

(** C4. With the columns resolved, a data row becomes an observation
    exactly when its first cell is a date; the other rows are passed over
    and the loop raises nothing.  The parser then fails with the
    [ValueError] "Insufficient data to calculate changes" exactly when fewer
    than two rows are dated. *)
Theorem C4_dated_rows_and_insufficient_data (ws : worksheet)
  (c2 c5 c10 : nat) :
  locate_columns (maturity_row_of ws) = Ok (c2, c5, c10) ->
  let rows := data_rows_of ws in
  collect c2 c5 c10 rows [] = Ok (observations c2 c5 c10 rows) /\
  map Some (observations c2 c5 c10 rows) =
    map (observation_of_row c2 c5 c10) (filter dated rows) /\
  (forall row, dated row = true <->
               exists o, observation_of_row c2 c5 c10 row = Some o) /\
  (_parse_ois_sheet ws =
     Raise (Exn ValueError "Insufficient data to calculate changes") <->
   List.length (filter dated rows) < 2).
Proof.
  intros Hloc rows.
  assert (Hw : Forall (fun row => c2 < List.length row /\ c5 < List.length row /\
                                  c10 < List.length row) rows).
  { apply locate_columns_in_range in Hloc.
    unfold maturity_row_of in Hloc. rewrite row_values_length in Hloc.
    eapply Forall_impl; [|apply iter_rows_length].
    simpl. intros row ->. exact Hloc. }
  split; [exact (collect_observations c2 c5 c10 rows [] Hw)|].
  split; [apply observations_map|].
  split.
  { intros row. destruct row as [|[] row']; simpl; split;
      try discriminate; try (intros [o Ho]; discriminate); eauto. }
  rewrite parse_sheet_unfold, Hloc. fold rows.
  rewrite <- (observations_dated c2 c5 c10 rows).
  rewrite (Permutation_length (sort_desc_perm (observations c2 c5 c10 rows))).
  unfold select_and_build.
  destruct (sort_desc (observations c2 c5 c10 rows)) as [|latest [|prev rest]];
    simpl.
  - split; [lia|reflexivity].
  - split; [lia|reflexivity].
  - split; [|lia].
    intros H. apply build_result_class in H. simpl in H.
    destruct H; discriminate.
Qed.

(** The sample sheet has two dated rows among five and parses; with a
    single dated row the parser reports insufficient data. *)
Lemma C4_dated_rows_and_insufficient_data_witness :
  List.length (observations 4 7 8 (data_rows_of sheet_example)) = 2 /\
  _parse_ois_sheet
    (Worksheet [[]; []; []; header_example; []; row_june_10;
                [CStr "note"]]) =
  Raise (Exn ValueError "Insufficient data to calculate changes").
Proof.
  split.
  - pose proof (proj1 (proj2 (C4_dated_rows_and_insufficient_data
                                sheet_example 4 7 8 eq_refl))) as H.
    apply (f_equal (@List.length _)) in H.
    rewrite !List.length_map in H. exact H.
  - apply (proj2 (proj2 (proj2 (C4_dated_rows_and_insufficient_data
             (Worksheet [[]; []; []; header_example; []; row_june_10;
                         [CStr "note"]]) 4 7 8 eq_refl)))).
    vm_compute. reflexivity.
Defined.

(** ** The change computer *)

Section ChangeComputer.

Lemma calculate_change_none_l p : calculate_change CNone p = Ok VNone.
Proof. reflexivity. Qed.

Lemma calculate_change_none_r l : calculate_change l CNone = Ok VNone.
Proof. destruct l; reflexivity. Qed.

Lemma build_result_entries latest prev :
  match build_result latest prev with
  | Ok snap =>
      forall t, exists ch,
        entry_of t snap =
          Some (RateEntry (rate_of t latest) (rate_of t prev) ch) /\
        calculate_change (rate_of t latest) (rate_of t prev) = Ok ch
  | Raise e =>
      exists t, calculate_change (rate_of t latest) (rate_of t prev) = Raise e
  end.
Proof.
  unfold build_result.
  destruct (calculate_change (rate_2yr latest) (rate_2yr prev)) as [ch2|e] eqn:E2;
    cbn [rbind]; [|now exists T2yr].
  destruct (calculate_change (rate_5yr latest) (rate_5yr prev)) as [ch5|e] eqn:E5;
    cbn [rbind]; [|now exists T5yr].
  destruct (calculate_change (rate_10yr latest) (rate_10yr prev)) as [ch10|e] eqn:E10;
    cbn [rbind]; [|now exists T10yr].
  intros [| |]; eexists; (split; [reflexivity|eassumption]).
Qed.

Lemma number_cell_float_of_int z :
  number_cell (CInt z) = true -> exists f, float_of_int z = Ok f.
Proof. simpl. destruct (float_of_int z); [eauto|discriminate]. Qed.

(** On rates as the data model has them, computing a change raises
    nothing. *)
Lemma calculate_change_total l p :
  rate_cell l = true -> rate_cell p = true ->
  exists ch, calculate_change l p = Ok ch.
Proof.
  destruct l as [|x|f|s|d], p as [|y|g|s'|d']; simpl; try discriminate;
    intros Hl Hp; try (eexists; reflexivity); unfold calculate_change; simpl.
  - destruct (float_of_int x); [eexists; reflexivity|discriminate].
  - destruct (float_of_int y); [eexists; reflexivity|discriminate].
Qed.

End ChangeComputer.

(** C1. For the two most recent observations and each of the three tenors,
    the change is absent as soon as the latest or the previous rate is
    absent: the computation returns [None], not zero, and raises nothing.
    When both rates are numbers it is [(latest - previous) * 100], in float
    arithmetic for floats, exactly for integers, and with the integer taken
    to its float when the two are mixed.  The snapshot records, per tenor,
    the two rates and that change; building it fails only when the change of
    some tenor does, which rates of the data model never cause. *)
Theorem C1_change_basis_points (latest prev : observation) (t : tenor) :
  (forall p, calculate_change CNone p = Ok VNone) /\
  (forall l, calculate_change l CNone = Ok VNone) /\
  (forall a b, calculate_change (CFloat a) (CFloat b) =
               Ok (VFloat (f_mul (f_sub a b) (f_of_Z 100)))) /\
  (forall x y, calculate_change (CInt x) (CInt y) =
               Ok (VInt ((x - y) * 100))) /\
  (forall x b, calculate_change (CInt x) (CFloat b) =
               (a <- float_of_int x ;;
                Ok (VFloat (f_mul (f_sub a b) (f_of_Z 100))))) /\
  (forall a y, calculate_change (CFloat a) (CInt y) =
               (b <- float_of_int y ;;
                Ok (VFloat (f_mul (f_sub a b) (f_of_Z 100))))) /\
  match build_result latest prev with
  | Ok snap =>
      exists ch,
        entry_of t snap =
          Some (RateEntry (rate_of t latest) (rate_of t prev) ch) /\
        calculate_change (rate_of t latest) (rate_of t prev) = Ok ch
  | Raise e =>
      exists t', calculate_change (rate_of t' latest) (rate_of t' prev)
                 = Raise e
  end /\
  ((forall t', rate_cell (rate_of t' latest) = true /\
               rate_cell (rate_of t' prev) = true) ->
   exists snap, build_result latest prev = Ok snap).
Proof.
  split; [exact calculate_change_none_l|].
  split; [exact calculate_change_none_r|].
  split; [reflexivity|].
  split; [reflexivity|].
  split.
  { intros x b. unfold calculate_change. simpl.
    destruct (float_of_int x); reflexivity. }
  split.
  { intros a y. unfold calculate_change. simpl.
    destruct (float_of_int y); reflexivity. }
  split.
  { pose proof (build_result_entries latest prev) as H.
    destruct (build_result latest prev); [apply H|exact H]. }
  intros Htyped.
  pose proof (build_result_entries latest prev) as H.
  destruct (build_result latest prev) as [snap|e]; [eauto|].
  destruct H as (t' & Ht').
  destruct (Htyped t') as [Hl Hp].
  destruct (calculate_change_total _ _ Hl Hp) as (ch & Hch). congruence.
Qed.

(** The sample sheet with the older 2-year rate blank: the 2-year change is
    absent, the 5-year change is there. *)
Lemma C1_change_basis_points_witness :
  exists snap e2 e5 bps,
    _parse_ois_sheet sheet_blank_previous = Ok snap /\
    entry_of T2yr snap = Some e2 /\ change_bps e2 = VNone /\
    entry_of T5yr snap = Some e5 /\ change_bps e5 = VFloat bps /\
    py_format spec_plus_2f (VFloat bps) = Ok "+10.00".
Proof.
  pose (latest := Observation (day 2024 Jun 10) (dec 450 2) (dec 410 2)
                    (dec 380 2)).
  pose (prev := Observation (day 2024 Jun 7) CNone (dec 400 2) (dec 370 2)).
  destruct (proj2 (proj2 (proj2 (proj2 (proj2 (proj2 (proj2
              (C1_change_basis_points latest prev T2yr)))))))) as (s & Hs).
  { intros [| |]; split; reflexivity. }
  exists s.
  vm_compute in Hs. injection Hs as <-.
  do 3 eexists. repeat split; vm_compute; reflexivity.
Defined.

(** C9. For current 4.500 and previous 4.250 the change is the float 25.0:
    the difference 0.25 and its product with 100 are both exact, so the
    distance to 25 is zero, within the tolerance of 1e-9. *)
Theorem C9_scaling_round_trip :
  exists bps,
    calculate_change (CFloat (f_of_decimal 4500 3)) (CFloat (f_of_decimal 4250 3))
    = Ok (VFloat bps) /\
    bps = f_of_Z 25 /\
    (f_to_Q bps == 25)%Q /\
    (Qabs (f_to_Q bps - 25) <= 1 # 1000000000)%Q.
Proof.
  eexists. split; [vm_compute; reflexivity|].
  split; [vm_compute; reflexivity|].
  split; vm_compute; [reflexivity|discriminate].
Qed.

(** ** Direction indicators *)

Section Indicators.

Lemma f_gt0_not_zero f : f_gt0 f = true -> f_is_zero f = false.
Proof. destruct f as [s|s| |s m e]; try reflexivity. destruct s; discriminate. Qed.

Lemma f_lt0_not_zero f : f_lt0 f = true -> f_is_zero f = false.
Proof. destruct f as [s|s| |s m e]; try reflexivity. destruct s; discriminate. Qed.

Lemma f_gt0_lt0 f : f_gt0 f = true -> f_lt0 f = false.
Proof. destruct f as [[]|[]| |[] m e]; simpl; try discriminate; reflexivity. Qed.

Lemma f_zero_gt0 f : f_is_zero f = true -> f_gt0 f = false /\ f_lt0 f = false.
Proof. destruct f as [[]|[]| |[] m e]; simpl; try discriminate; split; reflexivity. Qed.

Lemma gt0_truthy v : py_gt0 v = Ok true -> truthy v = true.
Proof.
  destruct v as [|z|f|s|d|us]; simpl; try discriminate; intros [= H].
  - apply Z.ltb_lt in H. apply negb_true_iff, Z.eqb_neq. lia.
  - now rewrite (f_gt0_not_zero f H).
Qed.

Lemma lt0_truthy v : py_lt0 v = Ok true -> truthy v = true.
Proof.
  destruct v as [|z|f|s|d|us]; simpl; try discriminate; intros [= H].
  - apply Z.ltb_lt in H. apply negb_true_iff, Z.eqb_neq. lia.
  - now rewrite (f_lt0_not_zero f H).
Qed.

Lemma lt0_not_gt0 v : py_lt0 v = Ok true -> py_gt0 v = Ok false.
Proof.
  destruct v as [|z|f|s|d|us]; simpl; try discriminate; intros [= H]; f_equal.
  - apply Z.ltb_lt in H. apply Z.ltb_ge. lia.
  - destruct f as [[]|[]| |[] m e]; simpl in *; try discriminate; reflexivity.
Qed.

Lemma gt0_not_none v : py_gt0 v = Ok true -> is_none v = false.
Proof. destruct v; simpl; try discriminate; reflexivity. Qed.

Lemma lt0_not_none v : py_lt0 v = Ok true -> is_none v = false.
Proof. destruct v; simpl; try discriminate; reflexivity. Qed.

Lemma zero_number_cases v :
  is_zero_number v = true ->
  truthy v = false /\ is_none v = false /\
  py_gt0 v = Ok false /\ py_lt0 v = Ok false.
Proof.
  destruct v as [|z|f|s|d|us]; simpl; try discriminate; intros H.
  - apply Z.eqb_eq in H. subst. repeat split.
  - rewrite H. destruct (f_zero_gt0 f H) as [-> ->]. repeat split.
Qed.

Lemma rjust_0 fill s : rjust 0 fill s = s.
Proof. reflexivity. Qed.

Lemma f_fixed_abs_abs k f : f_fixed_abs k (SFabs f) = f_fixed_abs k f.
Proof. destruct f; reflexivity. Qed.

(** The unsigned two-decimal rendering the HTML cell shows. *)
Lemma format_abs_float f :
  (a <- py_abs (VFloat f) ;; py_format spec_2f a) = Ok (f_fixed_abs 2 f).
Proof.
  simpl. unfold f_format. rewrite rjust_0, f_fixed_abs_abs.
  destruct f; reflexivity.
Qed.

End Indicators.

(** ** The rendered table *)

Section RenderedLines.

Lemma str_append_assoc (a b c : string) : ((a ++ b) ++ c = a ++ (b ++ c))%string.
Proof. induction a as [|x a IH]; simpl; [reflexivity|]. now rewrite IH. Qed.

Lemma str_append_nil_r (a : string) : (a ++ "" = a)%string.
Proof. induction a as [|x a IH]; simpl; [reflexivity|]. now rewrite IH. Qed.

(** The plain-text table is the lines of the tenors, one after the other,
    and there is a table exactly when every line can be rendered. *)
Lemma summary_lines_join items : forall acc text,
  summary_lines acc items = Ok text <->
  exists lines,
    Forall2 (fun kv line => summary_line (fst kv) (snd kv) = Ok line)
      items lines /\
    text = (acc ++ join lines)%string.
Proof.
  induction items as [|[tenor e] rest IH]; intros acc text;
    cbn [summary_lines].
  - split.
    + intros [= <-]. exists []. split; [constructor|].
      cbn. now rewrite str_append_nil_r.
    + intros (lines & Hall & ->). inversion Hall; subst.
      cbn. now rewrite str_append_nil_r.
  - split.
    + destruct (summary_line tenor e) as [line|] eqn:El; cbn [rbind];
        [|discriminate].
      intros H. apply IH in H. destruct H as (lines & Hall & ->).
      exists (line :: lines). split; [constructor; assumption|].
      cbn. now rewrite str_append_assoc.
    + intros (lines & Hall & ->). inversion Hall as [|kv line r ls Hl Hr]; subst.
      cbn [fst snd] in Hl. rewrite Hl. cbn [rbind].
      apply IH. exists ls. split; [exact Hr|].
      cbn. now rewrite str_append_assoc.
Qed.

Lemma html_rows_join items : forall acc html,
  EmailSender.html_rows acc items = Ok html <->
  exists rows,
    Forall2 (fun kv row => EmailSender.html_row (fst kv) (snd kv) = Ok row)
      items rows /\
    html = (acc ++ join rows)%string.
Proof.
  induction items as [|[tenor e] rest IH]; intros acc html;
    cbn [EmailSender.html_rows].
  - split.
    + intros [= <-]. exists []. split; [constructor|].
      cbn. now rewrite str_append_nil_r.
    + intros (rows & Hall & ->). inversion Hall; subst.
      cbn. now rewrite str_append_nil_r.
  - split.
    + destruct (EmailSender.html_row tenor e) as [row|] eqn:El; cbn [rbind];
        [|discriminate].
      intros H. apply IH in H. destruct H as (rows & Hall & ->).
      exists (row :: rows). split; [constructor; assumption|].
      cbn. now rewrite str_append_assoc.
    + intros (rows & Hall & ->). inversion Hall as [|kv row r ls Hl Hr]; subst.
      cbn [fst snd] in Hl. rewrite Hl. cbn [rbind].
      apply IH. exists ls. split; [exact Hr|].
      cbn. now rewrite str_append_assoc.
Qed.

(** The arrow of the plain text in the three cases of the comparison. *)
Lemma summary_arrow_up v : py_gt0 v = Ok true -> summary_arrow v = Ok arrow_up.
Proof. intros H. unfold summary_arrow. now rewrite (gt0_truthy _ H), H. Qed.

Lemma summary_arrow_down v :
  py_lt0 v = Ok true -> summary_arrow v = Ok arrow_down.
Proof.
  intros H. unfold summary_arrow.
  now rewrite (lt0_truthy _ H), (lt0_not_gt0 _ H), H.
Qed.

Lemma summary_arrow_flat v :
  is_zero_number v = true \/ v = VNone -> summary_arrow v = Ok arrow_flat.
Proof.
  intros [H| ->]; [|reflexivity].
  destruct (zero_number_cases _ H) as (Ht & _).
  unfold summary_arrow. now rewrite Ht.
Qed.

(** A line of the plain text for a change that is there. *)
Lemma summary_line_present tenor c p v arrow :
  is_none v = false -> summary_arrow v = Ok arrow ->
  summary_line tenor (RateEntry c p v) =
  (digits <- py_format spec_plus_2f v ;;
   cur <- py_format spec_r6_3f (value_of_cell c) ;;
   prv <- py_format spec_r6_3f (value_of_cell p) ;;
   Ok (text_line tenor cur prv arrow (digits ++ " bps"))).
Proof.
  intros Hn Ha. unfold summary_line, summary_change_str, text_line.
  cbn [change_bps current previous]. rewrite Hn, Ha. cbn [negb].
  destruct (py_format spec_plus_2f v); reflexivity.
Qed.

(** A row of the HTML table for a change that is there. *)
Lemma html_row_present tenor c p v (pos neg : bool) :
  is_none v = false -> py_gt0 v = Ok pos ->
  (pos = false -> py_lt0 v = Ok neg) ->
  EmailSender.html_row tenor (RateEntry c p v) =
  (a <- py_abs v ;;
   digits <- py_format spec_2f a ;;
   cur <- py_format spec_3f (value_of_cell c) ;;
   prv <- py_format spec_3f (value_of_cell p) ;;
   Ok (html_cells tenor cur prv
         (if pos then "positive" else if neg then "negative" else "neutral")
         ((if pos then arrow_up else if neg then arrow_down else arrow_flat)
          ++ " " ++ digits))).
Proof.
  intros Hn Hg Hl. unfold EmailSender.html_row, EmailSender.html_change, html_cells.
  cbn [change_bps current previous]. rewrite Hn, Hg. cbn [negb rbind].
  destruct pos.
  - cbn [rbind fst snd].
    destruct (py_abs v) as [a|]; [|reflexivity]. cbn [rbind].
    destruct (py_format spec_2f a); reflexivity.
  - rewrite (Hl eq_refl). cbn [rbind].
    destruct neg; cbn [rbind fst snd];
      (destruct (py_abs v) as [a|]; [|reflexivity]); cbn [rbind];
      destruct (py_format spec_2f a); reflexivity.
Qed.

End RenderedLines.

(** C7. The plain-text arrow is up for a change above zero, down for one
    below zero, and flat for a zero or an absent change; an absent change
    prints as "N/A".  The HTML cell takes its class from the same three-way
    comparison (positive, negative, neutral), shows the matching arrow
    followed by the change without its sign, to two decimals, and for an
    absent change is the neutral cell "N/A", without an arrow.  The plain
    text keeps the sign.  The arrow, the class and the change are what the
    line of the tenor in the plain text and its row in the HTML table
    show, for every change, and the table of either formatter is made of
    these lines, one per tenor, in the order of the snapshot. *)
Theorem C7_direction_indicator (change : value) :
  (py_gt0 change = Ok true -> summary_arrow change = Ok arrow_up) /\
  (py_lt0 change = Ok true -> summary_arrow change = Ok arrow_down) /\
  (is_zero_number change = true \/ change = VNone ->
   summary_arrow change = Ok arrow_flat) /\
  summary_change_str VNone = Ok "N/A" /\
  (py_gt0 change = Ok true ->
   EmailSender.html_change change =
   (a <- py_abs change ;; digits <- py_format spec_2f a ;;
    Ok ("positive", arrow_up ++ " " ++ digits))) /\
  (py_lt0 change = Ok true ->
   EmailSender.html_change change =
   (a <- py_abs change ;; digits <- py_format spec_2f a ;;
    Ok ("negative", arrow_down ++ " " ++ digits))) /\
  (is_zero_number change = true ->
   EmailSender.html_change change =
   (a <- py_abs change ;; digits <- py_format spec_2f a ;;
    Ok ("neutral", arrow_flat ++ " " ++ digits))) /\
  EmailSender.html_change VNone = Ok ("neutral", "N/A") /\
  (forall f, (a <- py_abs (VFloat f) ;; py_format spec_2f a) =
             Ok (f_fixed_abs 2 f)) /\
  (forall f, summary_change_str (VFloat f) =
             Ok ((if f_sign f then "-" else "+") ++ f_fixed_abs 2 f ++ " bps")) /\
  (forall tenor a b,
      summary_line tenor (RateEntry (CFloat a) (CFloat b) VNone) =
      Ok (rjust 4 " " tenor ++ " Rate: " ++ f_format false 6 3 a ++
          "% (was " ++ f_format false 6 3 b ++ "%) " ++ arrow_flat ++ " " ++
          "N/A" ++ newline)) /\
  (forall tenor a b,
      EmailSender.html_row tenor (RateEntry (CFloat a) (CFloat b) VNone) =
      Ok (newline ++
          EmailSender.unlines
            [ "                <tr>";
              "                    <td><strong>" ++ tenor ++ "</strong></td>";
              "                    <td>" ++ f_format false 0 3 a ++ "%</td>";
              "                    <td>" ++ f_format false 0 3 b ++ "%</td>";
              "                    <td class=" ++ dquote ++ "neutral" ++
                dquote ++ ">" ++ "N/A" ++ "</td>";
              "                </tr>" ])) /\
  (arrow_up <> arrow_down /\ arrow_up <> arrow_flat /\
   arrow_down <> arrow_flat) /\
  (py_gt0 change = Ok true -> forall tenor c p,
   summary_line tenor (RateEntry c p change) =
   (digits <- py_format spec_plus_2f change ;;
    cur <- py_format spec_r6_3f (value_of_cell c) ;;
    prv <- py_format spec_r6_3f (value_of_cell p) ;;
    Ok (text_line tenor cur prv arrow_up (digits ++ " bps")))) /\
  (py_lt0 change = Ok true -> forall tenor c p,
   summary_line tenor (RateEntry c p change) =
   (digits <- py_format spec_plus_2f change ;;
    cur <- py_format spec_r6_3f (value_of_cell c) ;;
    prv <- py_format spec_r6_3f (value_of_cell p) ;;
    Ok (text_line tenor cur prv arrow_down (digits ++ " bps")))) /\
  (is_zero_number change = true -> forall tenor c p,
   summary_line tenor (RateEntry c p change) =
   (digits <- py_format spec_plus_2f change ;;
    cur <- py_format spec_r6_3f (value_of_cell c) ;;
    prv <- py_format spec_r6_3f (value_of_cell p) ;;
    Ok (text_line tenor cur prv arrow_flat (digits ++ " bps")))) /\
  (forall tenor c p,
   summary_line tenor (RateEntry c p VNone) =
   (cur <- py_format spec_r6_3f (value_of_cell c) ;;
    prv <- py_format spec_r6_3f (value_of_cell p) ;;
    Ok (text_line tenor cur prv arrow_flat "N/A"))) /\
  (py_gt0 change = Ok true -> forall tenor c p,
   EmailSender.html_row tenor (RateEntry c p change) =
   (a <- py_abs change ;;
    digits <- py_format spec_2f a ;;
    cur <- py_format spec_3f (value_of_cell c) ;;
    prv <- py_format spec_3f (value_of_cell p) ;;
    Ok (html_cells tenor cur prv "positive" (arrow_up ++ " " ++ digits)))) /\
  (py_lt0 change = Ok true -> forall tenor c p,
   EmailSender.html_row tenor (RateEntry c p change) =
   (a <- py_abs change ;;
    digits <- py_format spec_2f a ;;
    cur <- py_format spec_3f (value_of_cell c) ;;
    prv <- py_format spec_3f (value_of_cell p) ;;
    Ok (html_cells tenor cur prv "negative" (arrow_down ++ " " ++ digits)))) /\
  (is_zero_number change = true -> forall tenor c p,
   EmailSender.html_row tenor (RateEntry c p change) =
   (a <- py_abs change ;;
    digits <- py_format spec_2f a ;;
    cur <- py_format spec_3f (value_of_cell c) ;;
    prv <- py_format spec_3f (value_of_cell p) ;;
    Ok (html_cells tenor cur prv "neutral" (arrow_flat ++ " " ++ digits)))) /\
  (forall tenor c p,
   EmailSender.html_row tenor (RateEntry c p VNone) =
   (cur <- py_format spec_3f (value_of_cell c) ;;
    prv <- py_format spec_3f (value_of_cell p) ;;
    Ok (html_cells tenor cur prv "neutral" "N/A"))) /\
  (forall tenor a b f,
   summary_line tenor (RateEntry (CFloat a) (CFloat b) (VFloat f)) =
   Ok (text_line tenor (f_format false 6 3 a) (f_format false 6 3 b)
         (float_arrow f)
         ((if f_sign f then "-" else "+") ++ f_fixed_abs 2 f ++ " bps"))) /\
  (forall tenor a b f,
   EmailSender.html_row tenor (RateEntry (CFloat a) (CFloat b) (VFloat f)) =
   Ok (html_cells tenor (f_format false 0 3 a) (f_format false 0 3 b)
         (float_class f) (float_arrow f ++ " " ++ f_fixed_abs 2 f))) /\
  (forall data w st text,
   fst (BOEOISFetcher.format_summary data w st) = Return text <->
   exists lines,
     Forall2 (fun kv line => summary_line (fst kv) (snd kv) = Ok line)
       (rates data) lines /\
     text = summary_head data ++ join lines ++
            summary_foot (clock w (ticks st))) /\
  (forall data w st html,
   fst (EmailSender.create_ois_html_email data w st) = Return html <->
   exists rows,
     Forall2 (fun kv row => EmailSender.html_row (fst kv) (snd kv) = Ok row)
       (rates data) rows /\
     html = EmailSender.html_head data ++ join rows ++ EmailSender.html_foot).
Proof.
  split; [exact (summary_arrow_up change)|].
  split; [exact (summary_arrow_down change)|].
  split; [exact (summary_arrow_flat change)|].
  split; [reflexivity|].
  split.
  { intros H. unfold EmailSender.html_change.
    rewrite (gt0_not_none _ H), H. cbn [negb rbind fst snd].
    destruct (py_abs change) as [a|]; [|reflexivity]. cbn [rbind].
    destruct (py_format spec_2f a); reflexivity. }
  split.
  { intros H. unfold EmailSender.html_change.
    rewrite (lt0_not_none _ H), (lt0_not_gt0 _ H), H. cbn [negb rbind fst snd].
    destruct (py_abs change) as [a|]; [|reflexivity]. cbn [rbind].
    destruct (py_format spec_2f a); reflexivity. }
  split.
  { intros H. destruct (zero_number_cases _ H) as (_ & Hn & Hg & Hl).
    unfold EmailSender.html_change.
    rewrite Hn, Hg, Hl. cbn [negb rbind fst snd].
    destruct (py_abs change) as [a|]; [|reflexivity]. cbn [rbind].
    destruct (py_format spec_2f a); reflexivity. }
  split; [reflexivity|].
  split; [exact format_abs_float|].
  split.
  { intros f. unfold summary_change_str. simpl. unfold f_format.
    rewrite rjust_0. destruct (f_sign f); reflexivity. }
  split; [reflexivity|].
  split; [reflexivity|].
  split; [repeat split; discriminate|].
  split.
  { intros H tenor c p.
    exact (summary_line_present tenor c p change arrow_up
             (gt0_not_none _ H) (summary_arrow_up _ H)). }
  split.
  { intros H tenor c p.
    exact (summary_line_present tenor c p change arrow_down
             (lt0_not_none _ H) (summary_arrow_down _ H)). }
  split.
  { intros H tenor c p.
    destruct (zero_number_cases _ H) as (_ & Hn & _).
    exact (summary_line_present tenor c p change arrow_flat Hn
             (summary_arrow_flat _ (or_introl H))). }
  split; [reflexivity|].
  split.
  { intros H tenor c p.
    refine (html_row_present tenor c p change true false
              (gt0_not_none _ H) H _). discriminate. }
  split.
  { intros H tenor c p.
    exact (html_row_present tenor c p change false true
             (lt0_not_none _ H) (lt0_not_gt0 _ H) (fun _ => H)). }
  split.
  { intros H tenor c p.
    destruct (zero_number_cases _ H) as (_ & Hn & Hg & Hl).
    exact (html_row_present tenor c p change false false Hn Hg (fun _ => Hl)). }
  split; [reflexivity|].
  split.
  { intros tenor a b f.
    rewrite (summary_line_present tenor (CFloat a) (CFloat b) (VFloat f)
               (float_arrow f) eq_refl).
    - cbn [py_format value_of_cell rbind fs_plus fs_width fs_prec
           spec_plus_2f spec_r6_3f].
      replace (f_format true 0 2 f)
        with ((if f_sign f then "-" else "+") ++ f_fixed_abs 2 f)%string
        by (unfold f_format; rewrite rjust_0; destruct (f_sign f);
            reflexivity).
      destruct (f_sign f); reflexivity.
    - unfold summary_arrow, float_arrow. cbn [truthy py_gt0 py_lt0].
      destruct (f_is_zero f) eqn:Ez; cbn [negb rbind].
      + destruct (f_zero_gt0 f Ez) as [-> ->]. reflexivity.
      + destruct (f_gt0 f); [reflexivity|]. cbn [rbind].
        destruct (f_lt0 f); reflexivity. }
  split.
  { intros tenor a b f.
    rewrite (html_row_present tenor (CFloat a) (CFloat b) (VFloat f)
               (f_gt0 f) (f_lt0 f) eq_refl eq_refl (fun _ => eq_refl)).
    pose proof (format_abs_float f) as Hd.
    destruct (py_abs (VFloat f)) as [x|]; [|discriminate].
    cbn [rbind] in Hd |- *. rewrite Hd. reflexivity. }
  split.
  { intros data w st text.
    unfold BOEOISFetcher.format_summary, bind, lift, datetime_now, ret,
      summary_body.
    split.
    - destruct (summary_lines (summary_head data) (rates data)) as [body|]
        eqn:Eb; [|discriminate].
      cbn [fst]. intros [= <-].
      apply summary_lines_join in Eb. destruct Eb as (lines & Hall & ->).
      exists lines. split; [exact Hall|]. apply str_append_assoc.
    - intros (lines & Hall & ->).
      assert (Eb : summary_lines (summary_head data) (rates data) =
                   Ok (summary_head data ++ join lines))
        by (apply summary_lines_join; eauto).
      rewrite Eb. cbn [fst]. now rewrite str_append_assoc. }
  intros data w st html.
  unfold EmailSender.create_ois_html_email, bind, lift, ret.
  split.
  - destruct (EmailSender.html_rows (EmailSender.html_head data) (rates data))
      as [body|] eqn:Eb; [|discriminate].
    cbn [fst]. intros [= <-].
    apply html_rows_join in Eb. destruct Eb as (rows & Hall & ->).
    exists rows. split; [exact Hall|]. apply str_append_assoc.
  - intros (rows & Hall & ->).
    assert (Eb : EmailSender.html_rows (EmailSender.html_head data)
                   (rates data) =
                 Ok (EmailSender.html_head data ++ join rows))
      by (apply html_rows_join; eauto).
    rewrite Eb. cbn [fst]. now rewrite str_append_assoc.
Qed.

(** A change of -5.00 prints as "-5.00 bps" after the down arrow in the
    plain text and as the negative cell "↓ 5.00" in the HTML, in the line
    and in the row of its tenor. *)
Lemma C7_direction_indicator_witness :
  let change := VFloat (f_of_decimal (-500) 2) in
  summary_arrow change = Ok arrow_down /\
  summary_change_str change = Ok "-5.00 bps" /\
  EmailSender.html_change change = Ok ("negative", "↓ 5.00") /\
  summary_line "2yr" (RateEntry (dec 420 2) (dec 425 2) change) =
    Ok (text_line "2yr" " 4.200" " 4.250" "↓" "-5.00 bps") /\
  EmailSender.html_row "2yr" (RateEntry (dec 420 2) (dec 425 2) change) =
    Ok (html_cells "2yr" "4.200" "4.250" "negative" "↓ 5.00").
Proof.
  cbv zeta.
  pose proof (C7_direction_indicator (VFloat (f_of_decimal (-500) 2))) as H.
  destruct H as (_ & Hdown & _ & _ & _ & Hneg & _ & _ & _ & _ & _ & _ & _ &
                 _ & Hline & _ & _ & _ & Hrow & _).
  split; [exact (Hdown eq_refl)|].
  split; [vm_compute; reflexivity|].
  split; [rewrite (Hneg eq_refl); vm_compute; reflexivity|].
  split.
  - rewrite (Hline eq_refl). vm_compute. reflexivity.
  - rewrite (Hrow eq_refl). vm_compute. reflexivity.
Defined.

(** An absent change has the flat arrow in the plain text only: its HTML
    row, and an HTML document whose changes are all absent, show "N/A"
    and no arrow at all. *)
Lemma C7_counterexample :
  exists line row html,
    summary_line "2yr" (RateEntry (dec 450 2) (dec 425 2) VNone) = Ok line /\
    EmailSender.html_row "2yr" (RateEntry (dec 450 2) (dec 425 2) VNone) =
      Ok row /\
    EmailSender.create_ois_html_email snapshot_changes_absent world_example
      initial = (Return html, initial) /\
    str_contains arrow_flat line = true /\
    str_contains "N/A" row = true /\
    str_contains arrow_flat row = false /\
    str_contains arrow_up row = false /\
    str_contains arrow_down row = false /\
    str_contains "N/A" html = true /\
    str_contains arrow_flat html = false /\
    str_contains arrow_up html = false /\
    str_contains arrow_down html = false.
Proof.
  do 3 eexists.
  split; [vm_compute; reflexivity|].
  split; [vm_compute; reflexivity|].
  split; [vm_compute; reflexivity|].
  repeat split; vm_compute; reflexivity.
Qed.

(** ** Formatting a missing rate *)

Section FormatterErrors.

Lemma f_is_inf_round_aux_sign m e l :
  f_is_inf (binary_round_aux prec emax true m e l) =
  f_is_inf (binary_round_aux prec emax false m e l).
Proof.
  unfold binary_round_aux.
  destruct (shr_fexp prec emax m e l) as [mrs' e'].
  destruct (shr_fexp prec emax _ e' loc_Exact) as [mrs'' e''].
  destruct (shr_m mrs''); try reflexivity.
  destruct (Z.leb e'' (emax - prec)); reflexivity.
Qed.

Lemma f_is_inf_opp z : f_is_inf (f_of_Z (- z)) = f_is_inf (f_of_Z z).
Proof.
  assert (H : forall p, f_is_inf (binary_round prec emax true p 0) =
                        f_is_inf (binary_round prec emax false p 0)).
  { intros p. unfold binary_round.
    destruct (shl_align p 0 _) as [mz ez]. apply f_is_inf_round_aux_sign. }
  destruct z as [|p|p]; [reflexivity| |].
  - exact (H p).
  - symmetry. exact (H p).
Qed.


Lemma is_ok_exists {A} (r : result A) : is_ok r = true -> exists a, r = Ok a.
Proof. destruct r; [eauto|discriminate]. Qed.












Lemma existsb_false_forall {A} (p : A -> bool) l x :
  existsb p l = false -> In x l -> p x = false.
Proof.
  intros H Hin. destruct (p x) eqn:E; [|reflexivity].
  rewrite <- H. symmetry. apply existsb_exists. eauto.
Qed.

End FormatterErrors.

(** ** What a returned text shows about the rates *)

Section MissingRate.

Lemma format_ok_not_none sp c s :
  py_format sp (value_of_cell c) = Ok s -> c <> CNone.
Proof. intros H ->. discriminate. Qed.

(** A printed line has both its rates. *)
Lemma summary_line_ok_rates tenor e line :
  summary_line tenor e = Ok line -> current e <> CNone /\ previous e <> CNone.
Proof.
  unfold summary_line.
  destruct (summary_change_str (change_bps e)); cbn [rbind]; [|discriminate].
  destruct (summary_arrow (change_bps e)); cbn [rbind]; [|discriminate].
  destruct (py_format spec_r6_3f (value_of_cell (current e))) eqn:Ec;
    cbn [rbind]; [|discriminate].
  destruct (py_format spec_r6_3f (value_of_cell (previous e))) eqn:Ep;
    cbn [rbind]; [|discriminate].
  intros _. split; eapply format_ok_not_none; eassumption.
Qed.

Lemma html_row_ok_rates tenor e row :
  EmailSender.html_row tenor e = Ok row ->
  current e <> CNone /\ previous e <> CNone.
Proof.
  unfold EmailSender.html_row.
  destruct (EmailSender.html_change (change_bps e)); cbn [rbind]; [|discriminate].
  destruct (py_format spec_3f (value_of_cell (current e))) eqn:Ec;
    cbn [rbind]; [|discriminate].
  destruct (py_format spec_3f (value_of_cell (previous e))) eqn:Ep;
    cbn [rbind]; [|discriminate].
  intros _. split; eapply format_ok_not_none; eassumption.
Qed.

Lemma summary_lines_ok_rates items : forall acc text,
  summary_lines acc items = Ok text ->
  forall tenor e, In (tenor, e) items ->
                  current e <> CNone /\ previous e <> CNone.
Proof.
  induction items as [|[k e0] rest IH]; intros acc text H tenor e Hin;
    [contradiction|].
  cbn [summary_lines] in H.
  destruct (summary_line k e0) as [line|] eqn:El; cbn [rbind] in H;
    [|discriminate].
  destruct Hin as [[= <- <-]|Hin].
  - eapply summary_line_ok_rates; eassumption.
  - eapply IH; eassumption.
Qed.

Lemma html_rows_ok_rates items : forall acc html,
  EmailSender.html_rows acc items = Ok html ->
  forall tenor e, In (tenor, e) items ->
                  current e <> CNone /\ previous e <> CNone.
Proof.
  induction items as [|[k e0] rest IH]; intros acc html H tenor e Hin;
    [contradiction|].
  cbn [EmailSender.html_rows] in H.
  destruct (EmailSender.html_row k e0) as [row|] eqn:El; cbn [rbind] in H;
    [|discriminate].
  destruct Hin as [[= <- <-]|Hin].
  - eapply html_row_ok_rates; eassumption.
  - eapply IH; eassumption.
Qed.





End MissingRate.




(** ** What the formatters depend on *)

Section FormatterEffects.

(** What a call of [format_summary] returns and does: the table, then one
    reading of the clock for the last line. *)
Lemma format_summary_run data w st :
  BOEOISFetcher.format_summary data w st =
  match summary_body data with
  | Ok body =>
      (Return (body ++ summary_foot (clock w (ticks st))),
       State (S (ticks st)) (trace st))
  | Raise e => (Throw e, st)
  end.
Proof.
  unfold BOEOISFetcher.format_summary, bind, lift, datetime_now, ret.
  destruct (summary_body data); reflexivity.
Qed.

(** [create_ois_html_email] reads nothing and does nothing outside. *)
Lemma create_ois_html_email_run data w st :
  EmailSender.create_ois_html_email data w st =
  (match EmailSender.html_rows (EmailSender.html_head data) (rates data) with
   | Ok html => Return (html ++ EmailSender.html_foot)
   | Raise e => Throw e
   end, st).
Proof.
  unfold EmailSender.create_ois_html_email, bind, lift, ret.
  destruct (EmailSender.html_rows _ _); reflexivity.
Qed.

End FormatterEffects.

(** C6, as the code has it.  The HTML document is a function of the
    snapshot alone: whatever the surroundings and the moment, the same
    snapshot gives the same outcome, and nothing outside is touched.  The
    plain-text summary is a function of the snapshot and of one reading of
    the clock, which dates its last line ("Fetched at"): two calls that read
    the same time give the same outcome, and the call prints or sends
    nothing. *)
Theorem C6_formatter_dependencies (data : snapshot) :
  (forall w1 w2 st1 st2,
      fst (EmailSender.create_ois_html_email data w1 st1) =
      fst (EmailSender.create_ois_html_email data w2 st2)) /\
  (forall w st, snd (EmailSender.create_ois_html_email data w st) = st) /\
  (forall w1 w2 st1 st2,
      clock w1 (ticks st1) = clock w2 (ticks st2) ->
      fst (BOEOISFetcher.format_summary data w1 st1) =
      fst (BOEOISFetcher.format_summary data w2 st2)) /\
  (forall w st,
      trace (snd (BOEOISFetcher.format_summary data w st)) = trace st) /\
  (forall w st text,
      fst (BOEOISFetcher.format_summary data w st) = Return text ->
      exists body,
        summary_body data = Ok body /\
        text = (body ++ summary_foot (clock w (ticks st)))%string).
Proof.
  split.
  { intros. now rewrite !create_ois_html_email_run. }
  split.
  { intros. now rewrite create_ois_html_email_run. }
  split.
  { intros w1 w2 st1 st2 H. rewrite !format_summary_run.
    destruct (summary_body data); simpl; [now rewrite H|reflexivity]. }
  split.
  { intros. rewrite format_summary_run.
    destruct (summary_body data); reflexivity. }
  intros w st text. rewrite format_summary_run.
  destruct (summary_body data) as [body|e]; simpl; [|discriminate].
  intros [= <-]. eauto.
Qed.

(** Two worlds that differ in everything but the clock give the same
    summary of the sample snapshot. *)
Lemma C6_formatter_dependencies_witness :
  fst (BOEOISFetcher.format_summary snapshot_example world_example initial) =
  fst (BOEOISFetcher.format_summary snapshot_example world_unconfigured
         (State 0 [EvPrint "earlier output"])).
Proof.
  apply (proj1 (proj2 (proj2 (C6_formatter_dependencies snapshot_example)))).
  reflexivity.
Defined.

(** C6 fails as stated for the plain-text summary: two calls in a row on
    the sample snapshot, a second apart, return different texts. *)
Lemma C6_counterexample :
  exists text1 text2,
    fst (format_twice snapshot_example world_example initial) =
      Return (text1, text2) /\
    text1 <> text2.
Proof.
  do 2 eexists. split; [vm_compute; reflexivity|].
  apply String.eqb_neq. vm_compute. reflexivity.
Qed.

(** ** The run *)

Section Run.

Lemma notifications_app t1 t2 :
  notifications (t1 ++ t2) = notifications t1 + notifications t2.
Proof. unfold notifications. now rewrite filter_app, List.length_app. Qed.

Lemma print_run text w st :
  print text w st = (Return tt, State (ticks st) (trace st ++ [EvPrint text])).
Proof. reflexivity. Qed.

Lemma print_all_run l : forall w st,
  exists st', Agent.print_all l w st = (Return tt, st') /\
              notifications (trace st') = notifications (trace st).
Proof.
  induction l as [|s l IH]; intros w st; simpl.
  - eexists; split; reflexivity.
  - unfold bind. rewrite print_run.
    destruct (IH w (State (ticks st) (trace st ++ [EvPrint s]))) as (st' & -> & Hn).
    eexists; split; [reflexivity|]. rewrite Hn. simpl.
    rewrite notifications_app. simpl. unfold notifications at 2. simpl. lia.
Qed.

(** The message a failed fetch reports is never empty. *)
Lemma fetch_run w st :
  exists r,
    BOEOISFetcher.fetch_ois_data w st =
      (Return r, State (ticks st) (trace st ++ [EvHttpGet BOEOISFetcher.BOE_URL])) /\
    match upstream w with
    | Raise _ => fst r = None /\ Agent.truthy_text (snd r) = true
    | Ok sheet =>
        match _parse_ois_sheet sheet with
        | Ok data => r = (Some data, None)
        | Raise _ => fst r = None /\ Agent.truthy_text (snd r) = true
        end
    end.
Proof.
  unfold BOEOISFetcher.fetch_ois_data, try_except, bind, emit, ask, lift, ret.
  destruct (upstream w) as [sheet|e].
  - destruct (_parse_ois_sheet sheet) as [data|e].
    + eexists; split; reflexivity.
    + destruct (exn_class e); eexists; (split; [reflexivity|]); split; reflexivity.
  - destruct (exn_class e); eexists; (split; [reflexivity|]); split; reflexivity.
Qed.

Lemma notifications_snoc_print t text :
  notifications (t ++ [EvPrint text]) = notifications t.
Proof. rewrite notifications_app. unfold notifications at 2. simpl. lia. Qed.

Lemma notifications_snoc_send t host port user m :
  notifications (t ++ [EvSmtpSend host port user m]) = S (notifications t).
Proof. rewrite notifications_app. unfold notifications at 2. simpl. lia. Qed.

(** [send_email]: one SMTP session at most, and none without success. *)
Lemma send_email_run self subject body html w st :
  exists r st',
    EmailSender.send_email self subject body html w st = (Return r, st') /\
    notifications (trace st') <= S (notifications (trace st)) /\
    (fst r = true -> notifications (trace st') = S (notifications (trace st))).
Proof.
  unfold EmailSender.send_email.
  destruct (_ || _)%bool.
  { do 2 eexists. split; [reflexivity|]. split; [lia|discriminate]. }
  destruct (negb _).
  { do 2 eexists. split; [reflexivity|]. split; [lia|discriminate]. }
  unfold try_except, bind, datetime_now, emit, ask, lift, ret. cbn [trace ticks].
  destruct (smtp_session w) as [[]|e].
  - do 2 eexists. split; [reflexivity|]. cbn [trace].
    rewrite notifications_snoc_send. split; [lia|reflexivity].
  - destruct (exn_class e); do 2 eexists; (split; [reflexivity|]); cbn [trace];
      rewrite notifications_snoc_send; (split; [lia|discriminate]).
Qed.

(** The notification step: status 0 or 1, one attempt at most, and exactly
    one when it ends well. *)
Lemma notify_run sender data text w st :
  exists o st',
    Agent.notify sender data text w st = (o, st') /\
    (exit_status o = 0%Z \/ exit_status o = 1%Z) /\
    notifications (trace st') <= S (notifications (trace st)) /\
    (exit_status o = 0%Z ->
     notifications (trace st') = S (notifications (trace st))).
Proof.
  unfold Agent.notify. unfold bind at 1. rewrite print_run.
  unfold bind at 1. rewrite create_ois_html_email_run.
  destruct (EmailSender.html_rows _ _) as [html|e].
  2:{ do 2 eexists. split; [reflexivity|].
      cbn [exit_status trace]. rewrite notifications_snoc_print.
      split; [now right|]. split; [lia|discriminate]. }
  unfold bind at 1.
  match goal with
  | |- context [EmailSender.send_email ?a ?b ?c ?d ?e ?f] =>
      destruct (send_email_run a b c d e f) as ([ok err] & st' & -> & Hle & Hok)
  end.
  cbn [trace] in Hle, Hok. rewrite notifications_snoc_print in Hle, Hok.
  cbn [fst] in *. destruct ok.
  - unfold bind, print, emit, datetime_now, ret.
    do 2 eexists. split; [reflexivity|].
    cbn [exit_status trace ticks].
    rewrite !notifications_snoc_print. rewrite (Hok eq_refl).
    split; [now left|]. split; [lia|reflexivity].
  - unfold bind, print, emit, sys_exit.
    do 2 eexists. split; [reflexivity|].
    cbn [exit_status trace ticks].
    rewrite !notifications_snoc_print.
    split; [now right|]. split; [lia|discriminate].
Qed.

Lemma main_run w :
  exists o st',
    Agent.main w initial = (o, st') /\
    (exit_status o = 0%Z \/ exit_status o = 1%Z) /\
    notifications (trace st') <= 1 /\
    (fetch_failure w ->
     exit_status o = 1%Z /\ notifications (trace st') = 0) /\
    (exit_status o = 0%Z ->
     notifications (trace st') = if configured w then 1 else 0).
Proof.
  unfold Agent.main.
  unfold bind at 1. unfold datetime_now at 1. cbn [ticks trace initial].
  unfold bind at 1. rewrite print_run. cbn [ticks trace].
  unfold bind at 1. rewrite print_run. cbn [ticks trace].
  unfold bind at 1.
  match goal with
  | |- context [BOEOISFetcher.fetch_ois_data w ?s] =>
      destruct (fetch_run w s) as ([data err] & -> & Hcase)
  end.
  cbn [ticks trace fst snd] in *.
  destruct (Agent.truthy_text err) eqn:Herr.
  { (* the fetch reported an error *)
    unfold bind, print, emit, sys_exit.
    do 2 eexists. split; [reflexivity|]. cbn [exit_status trace].
    split; [now right|]. split; [vm_compute; lia|].
    split; [intros _; split; reflexivity|discriminate]. }
  destruct data as [data|].
  2:{ unfold bind, print, emit, sys_exit.
      do 2 eexists. split; [reflexivity|]. cbn [exit_status trace].
      split; [now right|]. split; [vm_compute; lia|].
      split; [intros _; split; reflexivity|discriminate]. }
  (* the fetch returned a snapshot *)
  assert (Hnofail : ~ fetch_failure w).
  { unfold fetch_failure. destruct (upstream w) as [sheet|e].
    - destruct (_parse_ois_sheet sheet) as [d|e].
      + intros (e & He). discriminate.
      + destruct Hcase as [Hc _]. discriminate.
    - destruct Hcase as [Hc _]. discriminate. }
  unfold bind at 1. rewrite print_run. cbn [ticks trace].
  unfold bind at 1. rewrite format_summary_run.
  destruct (summary_body data) as [body|e].
  2:{ do 2 eexists. split; [reflexivity|]. cbn [exit_status trace].
      split; [now right|]. split; [vm_compute; lia|].
      split; [intros Hf; contradiction|discriminate]. }
  cbn [ticks trace].
  unfold bind at 1. rewrite print_run. cbn [ticks trace].
  unfold bind at 1. unfold EmailSender.init.
  unfold bind at 1. unfold os_getenv at 1.
  unfold bind at 1. unfold os_getenv at 1.
  unfold bind at 1. unfold lift at 1.
  destruct (EmailSender.py_int _) as [port|e].
  2:{ do 2 eexists. split; [reflexivity|]. cbn [exit_status trace].
      split; [now right|]. split; [vm_compute; lia|].
      split; [intros Hf; contradiction|discriminate]. }
  unfold bind at 1. unfold os_getenv at 1.
  unfold bind at 1. unfold os_getenv at 1.
  unfold bind at 1. unfold os_getenv at 1.
  unfold bind at 1. unfold os_getenv at 1.
  unfold ret at 1.
  cbn [EmailSender.smtp_user EmailSender.to_email].
  unfold configured.
  set (user := match getenv w "SMTP_USER" with Some v => v | None => "" end).
  set (to := match getenv w "TO_EMAIL" with Some v => v | None => "" end).
  destruct (EmailSender.nonempty user); cbn [negb orb andb].
  2:{ match goal with
      | |- context [Agent.print_all ?l w ?s] =>
          destruct (print_all_run l w s) as (st' & -> & Hn)
      end.
      do 2 eexists. split; [reflexivity|]. cbn [exit_status].
      rewrite Hn. cbn [trace].
      split; [now left|]. split; [vm_compute; lia|].
      split; [intros Hf; contradiction|intros _; reflexivity]. }
  destruct (EmailSender.nonempty to); cbn [negb orb andb].
  2:{ match goal with
      | |- context [Agent.print_all ?l w ?s] =>
          destruct (print_all_run l w s) as (st' & -> & Hn)
      end.
      do 2 eexists. split; [reflexivity|]. cbn [exit_status].
      rewrite Hn. cbn [trace].
      split; [now left|]. split; [vm_compute; lia|].
      split; [intros Hf; contradiction|intros _; reflexivity]. }
  match goal with
  | |- context [Agent.notify ?a ?b ?c w ?s] =>
      destruct (notify_run a b c w s) as (o & st' & -> & Hst & Hle & Hok)
  end.
  cbn [trace] in Hle, Hok.
  assert (Hz : forall t1 t2 t3 t4 u,
             notifications [EvPrint t1; EvPrint t2; EvHttpGet u; EvPrint t3;
                            EvPrint t4] = 0) by reflexivity.
  do 2 eexists. split; [reflexivity|].
  split; [exact Hst|].
  cbn [List.app] in Hle, Hok. rewrite Hz in Hle, Hok.
  split; [exact Hle|].
  split; [intros Hf; contradiction|exact Hok].
Qed.

End Run.

(** C8, as the code has it.  A run ends with status 0 or 1.  When the
    fetch fails (the download, the workbook, the column scan or the row
    extraction raised) the run ends with status 1 and no notification is
    attempted.  A run never attempts more than one notification.  A run
    that ends with status 0 has attempted exactly one notification when a
    sender and a recipient are configured, and none when they are not: then
    the run prints the summary, skips the e-mail and still ends with
    status 0. *)
Theorem C8_run_outcomes (w : world) :
  (fst (Agent.run w) = 0%Z \/ fst (Agent.run w) = 1%Z) /\
  (fetch_failure w ->
   fst (Agent.run w) = 1%Z /\ notifications (snd (Agent.run w)) = 0) /\
  notifications (snd (Agent.run w)) <= 1 /\
  (fst (Agent.run w) = 0%Z ->
   notifications (snd (Agent.run w)) = if configured w then 1 else 0).
Proof.
  unfold Agent.run.
  destruct (main_run w) as (o & st' & -> & Hst & Hle & Hfail & Hok).
  cbn [fst snd]. auto.
Qed.

(** A failed download ends with status 1 and no attempt; the configured
    sample run ends with status 0 and one attempt. *)
Lemma C8_run_outcomes_witness :
  (fst (Agent.run world_network_down) = 1%Z /\
   notifications (snd (Agent.run world_network_down)) = 0) /\
  notifications (snd (Agent.run world_example)) = 1.
Proof.
  split.
  - apply (proj1 (proj2 (C8_run_outcomes world_network_down))).
    exact I.
  - apply (proj2 (proj2 (proj2 (C8_run_outcomes world_example)))).
    vm_compute. reflexivity.
Defined.

(** C8 fails as stated: with no e-mail variable set the sample run
    succeeds, with status 0, and attempts no notification. *)
Lemma C8_counterexample :
  upstream world_unconfigured = Ok sheet_example /\
  is_ok (_parse_ois_sheet sheet_example) = true /\
  fst (Agent.run world_unconfigured) = 0%Z /\
  notifications (snd (Agent.run world_unconfigured)) = 0.
Proof. repeat split; vm_compute; reflexivity. Qed.

(* ===================================================================== *)
(** * Further properties of the code *)
(* ===================================================================== *)

Import Scripts Props.

(** ** More on the parser *)

Section ParserFacts.

Lemma last_opt_some_iff l : (exists i, last_opt l = Some i) <-> l <> [].
Proof.
  destruct l; simpl; split; try congruence; eauto.
  intros [i H]. discriminate.
Qed.

Lemma positions_nonempty_iff n row :
  positions n row <> [] <-> exists v, In v row /\ py_eq_int v n = true.
Proof.
  split.
  - destruct (positions n row) as [|i l] eqn:E; [congruence|]. intros _.
    assert (Hin : In i (positions n row)) by (rewrite E; now left).
    apply positions_spec in Hin. destruct Hin as (v & Hn & He).
    exists v. split; [eapply nth_error_In; eassumption|exact He].
  - intros (v & Hin & He) Hnil.
    apply In_nth_error in Hin. destruct Hin as (i & Hn).
    assert (Hi : In i (positions n row)) by (apply positions_spec; eauto).
    rewrite Hnil in Hi. contradiction.
Qed.

Lemma column_some_iff t row :
  (exists i, column_of t (scan row) = Some i) <->
  exists v, In v row /\ py_eq_int v (target t) = true.
Proof.
  rewrite scan_column, last_opt_some_iff. apply positions_nonempty_iff.
Qed.

Lemma column_holds_target t row i :
  column_of t (scan row) = Some i ->
  exists v, nth_error row i = Some v /\ py_eq_int v (target t) = true.
Proof.
  rewrite scan_column. intros H. apply last_opt_In in H.
  now apply positions_spec.
Qed.

Lemma columns_distinct t t' row i :
  column_of t (scan row) = Some i -> column_of t' (scan row) = Some i ->
  t = t'.
Proof.
  intros H H'. apply column_holds_target in H, H'.
  destruct H as (v & Hn & He), H' as (v' & Hn' & He').
  assert (v' = v) by congruence. subst v'.
  eapply py_eq_int_target_unique; eassumption.
Qed.

(** A successful parse comes from two observations of the sheet. *)
Lemma parse_ok_inv ws snap :
  _parse_ois_sheet ws = Ok snap ->
  exists c2 c5 c10 latest prev rest,
    locate_columns (maturity_row_of ws) = Ok (c2, c5, c10) /\
    sort_desc (observations c2 c5 c10 (data_rows_of ws)) =
      latest :: prev :: rest /\
    build_result latest prev = Ok snap.
Proof.
  rewrite parse_sheet_unfold.
  destruct (locate_columns (maturity_row_of ws)) as [[[c2 c5] c10]|e];
    [|discriminate].
  unfold select_and_build.
  destruct (sort_desc _) as [|latest [|prev rest]] eqn:E; try discriminate.
  intros H. exists c2, c5, c10, latest, prev, rest. auto.
Qed.

Lemma build_result_rates latest prev snap :
  build_result latest prev = Ok snap ->
  exists ch2 ch5 ch10,
    calculate_change (rate_2yr latest) (rate_2yr prev) = Ok ch2 /\
    calculate_change (rate_5yr latest) (rate_5yr prev) = Ok ch5 /\
    calculate_change (rate_10yr latest) (rate_10yr prev) = Ok ch10 /\
    rates snap =
      [("2yr", RateEntry (rate_2yr latest) (rate_2yr prev) ch2);
       ("5yr", RateEntry (rate_5yr latest) (rate_5yr prev) ch5);
       ("10yr", RateEntry (rate_10yr latest) (rate_10yr prev) ch10)].
Proof.
  unfold build_result.
  destruct (calculate_change (rate_2yr latest) (rate_2yr prev)) as [ch2|];
    simpl; [|discriminate].
  destruct (calculate_change (rate_5yr latest) (rate_5yr prev)) as [ch5|];
    simpl; [|discriminate].
  destruct (calculate_change (rate_10yr latest) (rate_10yr prev)) as [ch10|];
    simpl; [|discriminate].
  intros [= <-]. exists ch2, ch5, ch10. auto.
Qed.

Lemma py_mul_100_not_none v r : py_mul_100 v = Ok r -> r <> VNone.
Proof.
  destruct v as [|z|f|s|d|us]; simpl; try discriminate;
    try (intros [= <-]; discriminate).
  destruct (_ && _)%bool; [intros [= <-]|]; discriminate.
Qed.

(** A computed change is absent exactly when one of its rates is. *)
Lemma calculate_change_none_iff l p ch :
  calculate_change l p = Ok ch ->
  (ch = VNone <-> l = CNone \/ p = CNone).
Proof.
  intros H. split.
  - intros ->. destruct l as [|x|f|s|d]; [now left|..];
      (destruct p as [|y|g|s'|d']; [now right|..]); exfalso;
      unfold calculate_change in H;
      cbn [value_of_cell is_none negb andb] in H;
      (destruct (py_sub _ _) as [d0|]; cbn [rbind] in H;
       [eapply py_mul_100_not_none; [exact H|reflexivity]|discriminate]).
  - intros [-> | ->].
    + rewrite calculate_change_none_l in H. now injection H as <-.
    + rewrite calculate_change_none_r in H. now injection H as <-.
Qed.

Lemma observations_from_rows c2 c5 c10 rows o :
  In o (observations c2 c5 c10 rows) ->
  exists row, In row rows /\ observation_of_row c2 c5 c10 row = Some o.
Proof.
  induction rows as [|row rest IH]; simpl; [tauto|].
  destruct (observation_of_row c2 c5 c10 row) as [o'|] eqn:E.
  - intros [<-|Hin]; [eauto|]. destruct (IH Hin) as (r & ? & ?). eauto.
  - intros Hin. destruct (IH Hin) as (r & ? & ?). eauto.
Qed.

Lemma observation_of_row_inv c2 c5 c10 row o :
  observation_of_row c2 c5 c10 row = Some o ->
  nth_error row 0 = Some (CDatetime (date o)) /\
  rate_2yr o = nth c2 row CNone /\ rate_5yr o = nth c5 row CNone /\
  rate_10yr o = nth c10 row CNone.
Proof.
  destruct row as [|[] row']; simpl; try discriminate.
  intros [= <-]. auto.
Qed.

End ParserFacts.

(** X1. The locator succeeds exactly when each of the maturities 2, 5 and
    10 occurs somewhere in the header row, duplicates or not; the three
    indices it returns are inside the row, hold a cell equal to their
    maturity, and are pairwise different. *)
Theorem X1_locator_sound_and_complete (row : list cell) :
  ((exists c, locate_columns row = Ok c) <->
   (forall t, exists v, In v row /\ py_eq_int v (target t) = true)) /\
  (forall c2 c5 c10,
      locate_columns row = Ok (c2, c5, c10) ->
      (exists v, nth_error row c2 = Some v /\ py_eq_int v 2 = true) /\
      (exists v, nth_error row c5 = Some v /\ py_eq_int v 5 = true) /\
      (exists v, nth_error row c10 = Some v /\ py_eq_int v 10 = true) /\
      c2 <> c5 /\ c2 <> c10 /\ c5 <> c10).
Proof.
  split.
  - rewrite locate_columns_scan. split.
    + intros [c Hc] t. apply column_some_iff.
      destruct (column_of T2yr (scan row)) as [a|] eqn:E2; try discriminate.
      destruct (column_of T5yr (scan row)) as [b|] eqn:E5; try discriminate.
      destruct (column_of T10yr (scan row)) as [d|] eqn:E10; try discriminate.
      destruct t; eauto.
    + intros H.
      destruct (proj2 (column_some_iff T2yr row) (H T2yr)) as [a ->].
      destruct (proj2 (column_some_iff T5yr row) (H T5yr)) as [b ->].
      destruct (proj2 (column_some_iff T10yr row) (H T10yr)) as [d ->].
      eauto.
  - intros c2 c5 c10. rewrite locate_columns_scan.
    destruct (column_of T2yr (scan row)) as [a|] eqn:E2; try discriminate.
    destruct (column_of T5yr (scan row)) as [b|] eqn:E5; try discriminate.
    destruct (column_of T10yr (scan row)) as [d|] eqn:E10; try discriminate.
    intros [= <- <- <-].
    split; [exact (column_holds_target T2yr row a E2)|].
    split; [exact (column_holds_target T5yr row b E5)|].
    split; [exact (column_holds_target T10yr row d E10)|].
    repeat split; intros ->.
    + pose proof (columns_distinct _ _ _ _ E2 E5). discriminate.
    + pose proof (columns_distinct _ _ _ _ E2 E10). discriminate.
    + pose proof (columns_distinct _ _ _ _ E5 E10). discriminate.
Qed.

(** A header with two 5-year columns: the locator succeeds and the columns
    it returns hold 2, 5 and 10. *)
Lemma X1_locator_sound_and_complete_witness :
  exists v, nth_error [CInt 5; CInt 10; CFloat (f_of_Z 2); CInt 5] 3 = Some v /\
            py_eq_int v 5 = true.
Proof.
  exact (proj1 (proj2 (proj2 (X1_locator_sound_and_complete
            [CInt 5; CInt 10; CFloat (f_of_Z 2); CInt 5]) 2 3 1 eq_refl))).
Defined.

(** X2. Whatever the worksheet holds, the parser fails in one of four
    ways only: the [ValueError] for missing columns, the [ValueError] for
    fewer than two dated rows, a [TypeError] from subtracting rates that are
    not numbers, or an [OverflowError] from an integer rate beyond the
    floats.  It never fails with an [IndexError] or a [KeyError]: every
    column it reads exists in every row.  Missing columns are reported
    before the data rows are looked at. *)
Theorem X2_parser_failures (ws : worksheet) (e : exn) :
  _parse_ois_sheet ws = Raise e ->
  (e = Exn ValueError "Could not find 2yr, 5yr, or 10yr columns" \/
   e = Exn ValueError "Insufficient data to calculate changes" \/
   exn_class e = TypeError \/ exn_class e = OverflowError) /\
  exn_class e <> IndexError /\ exn_class e <> KeyError /\
  ((forall c, locate_columns (maturity_row_of ws) <> Ok c) ->
   e = Exn ValueError "Could not find 2yr, 5yr, or 10yr columns").
Proof.
  rewrite parse_sheet_unfold. intros H.
  assert (Hcases :
    e = Exn ValueError "Could not find 2yr, 5yr, or 10yr columns" \/
    e = Exn ValueError "Insufficient data to calculate changes" \/
    exn_class e = TypeError \/ exn_class e = OverflowError).
  { destruct (locate_columns (maturity_row_of ws)) as [[[c2 c5] c10]|e0] eqn:E.
    - unfold select_and_build in H.
      destruct (sort_desc _) as [|latest [|prev rest]].
      + injection H as <-. right; now left.
      + injection H as <-. right; now left.
      + right; right. eapply build_result_class; eassumption.
    - injection H as <-. left.
      unfold locate_columns in E.
      destruct (scan (maturity_row_of ws)) as [[?|] [?|] [?|]];
        try discriminate; now injection E as <-. }
  split; [exact Hcases|].
  split; [|split].
  - destruct Hcases as [-> | [-> | [-> | ->]]]; discriminate.
  - destruct Hcases as [-> | [-> | [-> | ->]]]; discriminate.
  - intros Hno.
    destruct (locate_columns (maturity_row_of ws)) as [c|e0] eqn:E.
    + exfalso. exact (Hno c eq_refl).
    + injection H as <-. unfold locate_columns in E.
      destruct (scan (maturity_row_of ws)) as [[?|] [?|] [?|]];
        try discriminate; now injection E as <-.
Qed.

(** A sheet with neither header nor data fails for its columns, not for
    its lack of rows. *)
Lemma X2_parser_failures_witness :
  _parse_ois_sheet (Worksheet []) =
  Raise (Exn ValueError "Could not find 2yr, 5yr, or 10yr columns").
Proof.
  destruct (_parse_ois_sheet (Worksheet [])) as [snap|e] eqn:E.
  - vm_compute in E. discriminate.
  - f_equal.
    apply (proj2 (proj2 (proj2 (X2_parser_failures (Worksheet []) e E)))).
    intros c Hc. vm_compute in Hc. discriminate.
Defined.

(** X3. In every snapshot the parser returns, a tenor's change is absent
    exactly when its current or its previous rate is absent. *)
Theorem X3_parsed_change_absent_iff (ws : worksheet) (snap : snapshot)
  (tenor : string) (e : rate_entry) :
  _parse_ois_sheet ws = Ok snap ->
  In (tenor, e) (rates snap) ->
  (change_bps e = VNone <-> current e = CNone \/ previous e = CNone).
Proof.
  intros Hp Hin.
  destruct (parse_ok_inv ws snap Hp)
    as (c2 & c5 & c10 & latest & prev & rest & _ & _ & Hb).
  destruct (build_result_rates latest prev snap Hb)
    as (ch2 & ch5 & ch10 & H2 & H5 & H10 & Hr).
  rewrite Hr in Hin.
  destruct Hin as [[= <- <-] | [[= <- <-] | [[= <- <-] | []]]]; cbn [change_bps current previous];
    eapply calculate_change_none_iff; eassumption.
Qed.

(** The sample with the older 2-year rate blank: its 2-year change is
    absent. *)
Lemma X3_parsed_change_absent_iff_witness :
  change_bps (entry_example (dec 450 2) CNone) = VNone <->
  current (entry_example (dec 450 2) CNone) = CNone \/
  previous (entry_example (dec 450 2) CNone) = CNone.
Proof.
  apply (X3_parsed_change_absent_iff sheet_blank_previous
           snapshot_blank_previous "2yr").
  - vm_compute. reflexivity.
  - left. reflexivity.
Defined.

Section RowOrder.

(** Two descending arrangements of the same rows are the same list when
    no date occurs twice. *)
Lemma sorted_perm_unique (s1 : list observation) : forall s2,
  StronglySorted not_earlier s1 -> StronglySorted not_earlier s2 ->
  Permutation s1 s2 -> NoDup (map date s1) -> s1 = s2.
Proof.
  induction s1 as [|a s1 IH]; intros s2 H1 H2 Hp Hnd.
  - apply Permutation_nil in Hp. now subst.
  - destruct s2 as [|b s2].
    { apply Permutation_sym, Permutation_nil in Hp. discriminate. }
    apply StronglySorted_inv in H1. destruct H1 as [H1 Ha].
    apply StronglySorted_inv in H2. destruct H2 as [H2 Hb].
    rewrite Forall_forall in Ha, Hb.
    assert (Hab : a = b).
    { assert (Hain : In a (b :: s2))
        by (eapply Permutation_in; [exact Hp|now left]).
      assert (Hbin : In b (a :: s1))
        by (eapply Permutation_in; [apply Permutation_sym; exact Hp|now left]).
      destruct Hbin as [Heq|Hbin]; [exact Heq|].
      destruct Hain as [Heq|Hain]; [now symmetry|].
      exfalso.
      assert (Hd : date a = date b).
      { apply dt_leb_antisym; [exact (Hb a Hain)|exact (Ha b Hbin)]. }
      simpl in Hnd. apply NoDup_cons_iff in Hnd. destruct Hnd as [Hnin _].
      apply Hnin. rewrite Hd. now apply in_map. }
    subst b. f_equal.
    apply IH; auto.
    + eapply Permutation_cons_inv; eassumption.
    + simpl in Hnd. now apply NoDup_cons_iff in Hnd.
Qed.

Lemma observations_perm c2 c5 c10 rows1 rows2 :
  Permutation rows1 rows2 ->
  Permutation (observations c2 c5 c10 rows1) (observations c2 c5 c10 rows2).
Proof.
  induction 1 as [|row l1 l2 _ IH|r1 r2 l|l1 l2 l3 _ IH1 _ IH2]; simpl.
  - constructor.
  - destruct (observation_of_row c2 c5 c10 row); [now apply perm_skip|exact IH].
  - destruct (observation_of_row c2 c5 c10 r1),
             (observation_of_row c2 c5 c10 r2);
      try reflexivity. apply perm_swap.
  - etransitivity; eassumption.
Qed.

Lemma observations_dates c2 c5 c10 rows :
  map date (observations c2 c5 c10 rows) = row_dates rows.
Proof.
  induction rows as [|row rest IH]; simpl; [reflexivity|].
  destruct row as [|[] row']; simpl; auto. now rewrite IH.
Qed.

Lemma sort_desc_perm_unique l1 l2 :
  Permutation l1 l2 -> NoDup (map date l1) -> sort_desc l1 = sort_desc l2.
Proof.
  intros Hp Hnd. apply sorted_perm_unique.
  - apply sort_desc_sorted.
  - apply sort_desc_sorted.
  - rewrite <- (sort_desc_perm l1), <- (sort_desc_perm l2). exact Hp.
  - eapply Permutation_NoDup; [|exact Hnd].
    apply Permutation_map. apply sort_desc_perm.
Qed.

End RowOrder.

(** X4. The snapshot has the three tenors 2yr, 5yr, 10yr in this order,
    and its rates are cells of the sheet, unchanged: there are a data row
    headed by the latest date and a data row headed by the previous date
    such that each tenor's current rate is the cell of the first one in the
    tenor's column and its previous rate the cell of the second one. *)
Theorem X4_rates_pass_through (ws : worksheet) (snap : snapshot)
  (c2 c5 c10 : nat) :
  locate_columns (maturity_row_of ws) = Ok (c2, c5, c10) ->
  _parse_ois_sheet ws = Ok snap ->
  map fst (rates snap) = ["2yr"; "5yr"; "10yr"] /\
  exists row_l row_p,
    In row_l (data_rows_of ws) /\ In row_p (data_rows_of ws) /\
    nth_error row_l 0 = Some (CDatetime (latest_date snap)) /\
    nth_error row_p 0 = Some (CDatetime (previous_date snap)) /\
    forall t, exists e,
      entry_of t snap = Some e /\
      nth_error row_l (pick t (c2, c5, c10)) = Some (current e) /\
      nth_error row_p (pick t (c2, c5, c10)) = Some (previous e).
Proof.
  intros Hloc Hp.
  destruct (parse_ok_inv ws snap Hp)
    as (d2 & d5 & d10 & latest & prev & rest & Hloc' & Hsort & Hb).
  rewrite Hloc in Hloc'. injection Hloc' as <- <- <-.
  destruct (build_result_rates latest prev snap Hb)
    as (ch2 & ch5 & ch10 & H2 & H5 & H10 & Hr).
  destruct (build_result_dates latest prev snap Hb) as [Hdl Hdp].
  split; [now rewrite Hr|].
  pose proof (sort_desc_perm (observations c2 c5 c10 (data_rows_of ws))) as Hperm.
  rewrite Hsort in Hperm.
  assert (Hl : In latest (observations c2 c5 c10 (data_rows_of ws))).
  { eapply Permutation_in; [apply Permutation_sym; exact Hperm|now left]. }
  assert (Hpv : In prev (observations c2 c5 c10 (data_rows_of ws))).
  { eapply Permutation_in; [apply Permutation_sym; exact Hperm|right; now left]. }
  destruct (observations_from_rows _ _ _ _ _ Hl) as (row_l & Hinl & Hol).
  destruct (observations_from_rows _ _ _ _ _ Hpv) as (row_p & Hinp & Hop).
  apply observation_of_row_inv in Hol, Hop.
  destruct Hol as (Hl0 & Hl2 & Hl5 & Hl10), Hop as (Hp0 & Hp2 & Hp5 & Hp10).
  assert (Hlen : forall row, In row (data_rows_of ws) ->
            c2 < List.length row /\ c5 < List.length row /\
            c10 < List.length row).
  { intros row Hin. apply locate_columns_in_range in Hloc.
    unfold maturity_row_of in Hloc. rewrite row_values_length in Hloc.
    pose proof (iter_rows_length ws 6 (max_row ws)) as Hall.
    rewrite Forall_forall in Hall. unfold data_rows_of in Hin.
    now rewrite (Hall row Hin). }
  destruct (Hlen row_l Hinl) as (Ll2 & Ll5 & Ll10).
  destruct (Hlen row_p Hinp) as (Lp2 & Lp5 & Lp10).
  exists row_l, row_p.
  split; [exact Hinl|]. split; [exact Hinp|].
  split; [now rewrite Hdl|]. split; [now rewrite Hdp|].
  intros t. unfold entry_of. rewrite Hr.
  destruct t; cbn [tenor_label lookup String.eqb Ascii.eqb Bool.eqb pick];
    eexists; (split; [reflexivity|]); cbn [current previous]; split.
  - rewrite Hl2. now apply nth_error_nth'.
  - rewrite Hp2. now apply nth_error_nth'.
  - rewrite Hl5. now apply nth_error_nth'.
  - rewrite Hp5. now apply nth_error_nth'.
  - rewrite Hl10. now apply nth_error_nth'.
  - rewrite Hp10. now apply nth_error_nth'.
Qed.

(** In the sample sheet the snapshot lists the three tenors in order. *)
Lemma X4_rates_pass_through_witness :
  map fst (rates snapshot_example) = ["2yr"; "5yr"; "10yr"].
Proof.
  refine (proj1 (X4_rates_pass_through sheet_example snapshot_example 4 7 8
                   eq_refl _)).
  vm_compute. reflexivity.
Defined.

(** X5. The order of the data rows does not matter when no date occurs
    twice: two sheets with the same header row whose data rows are the same
    rows in a different order parse to the same result, be it a snapshot or
    a failure. *)
Theorem X5_row_order_irrelevant (ws1 ws2 : worksheet) :
  maturity_row_of ws1 = maturity_row_of ws2 ->
  Permutation (data_rows_of ws1) (data_rows_of ws2) ->
  NoDup (row_dates (data_rows_of ws1)) ->
  _parse_ois_sheet ws1 = _parse_ois_sheet ws2.
Proof.
  intros Hh Hp Hnd. rewrite !parse_sheet_unfold, <- Hh.
  destruct (locate_columns (maturity_row_of ws1)) as [[[c2 c5] c10]|e];
    [|reflexivity].
  unfold select_and_build.
  rewrite (sort_desc_perm_unique
             (observations c2 c5 c10 (data_rows_of ws1))
             (observations c2 c5 c10 (data_rows_of ws2))).
  - reflexivity.
  - now apply observations_perm.
  - now rewrite observations_dates.
Qed.

(** The sample sheet gives the same snapshot with its two data rows
    swapped. *)
Lemma X5_row_order_irrelevant_witness :
  _parse_ois_sheet sheet_example = _parse_ois_sheet sheet_example_descending.
Proof.
  apply X5_row_order_irrelevant.
  - reflexivity.
  - vm_compute. apply perm_swap.
  - vm_compute. constructor.
    + intros [H|[]]. discriminate.
    + constructor; [intros []|constructor].
Defined.

(** ** The fetch *)

Section FetchFacts.

Lemma parse_failure_class sheet e :
  _parse_ois_sheet sheet = Raise e ->
  exn_class e = ValueError \/ exn_class e = TypeError \/
  exn_class e = OverflowError.
Proof.
  rewrite parse_sheet_unfold.
  destruct (locate_columns (maturity_row_of sheet)) as [[[c2 c5] c10]|e0] eqn:E.
  - unfold select_and_build.
    destruct (sort_desc _) as [|latest [|prev rest]].
    + intros [= <-]. now left.
    + intros [= <-]. now left.
    + intros H. right. eapply build_result_class; eassumption.
  - intros [= <-]. left. unfold locate_columns in E.
    destruct (scan (maturity_row_of sheet)) as [[?|] [?|] [?|]];
      try discriminate; now injection E as <-.
Qed.

End FetchFacts.

(** X6. [fetch_ois_data] never raises and never exits: it returns a pair
    in which exactly one component is set, the snapshot when the download
    and the parse both succeed, and otherwise a message that is never empty.
    It downloads once and does nothing else: nothing is printed, no mail is
    sent, the clock is not read. *)
Theorem X6_fetch_returns_data_or_error (w : world) (st : state) :
  exists r,
    BOEOISFetcher.fetch_ois_data w st =
      (Return r,
       State (ticks st) (trace st ++ [EvHttpGet BOEOISFetcher.BOE_URL])) /\
    ((exists sheet data,
         upstream w = Ok sheet /\ _parse_ois_sheet sheet = Ok data /\
         r = (Some data, None)) \/
     (exists msg,
         fetch_failure w /\ r = (None, Some msg) /\ msg <> "")).
Proof.
  unfold BOEOISFetcher.fetch_ois_data, try_except, bind, emit, ask, lift, ret,
    fetch_failure.
  destruct (upstream w) as [sheet|e].
  - destruct (_parse_ois_sheet sheet) as [data|e] eqn:E.
    + eexists. split; [reflexivity|]. left. eauto.
    + destruct (exn_class e); eexists; (split; [reflexivity|]); right;
        eexists; (split; [eauto|]); (split; [reflexivity|discriminate]).
  - destruct (exn_class e); eexists; (split; [reflexivity|]); right;
      eexists; (split; [exact I|]); (split; [reflexivity|discriminate]).
Qed.

(** With the network down the fetch returns a message and no snapshot. *)
Lemma X6_fetch_returns_data_or_error_witness :
  exists r st',
    BOEOISFetcher.fetch_ois_data world_network_down initial = (Return r, st') /\
    trace st' = [EvHttpGet BOEOISFetcher.BOE_URL].
Proof.
  destruct (X6_fetch_returns_data_or_error world_network_down initial)
    as (r & Hrun & _).
  exists r. eexists. split; [exact Hrun|reflexivity].
Defined.

(** X7. The message of a failed fetch tells the stage: a
    [RequestException] of the download reads "Network error: ...", a
    [KeyError] of the archive or the workbook "Sheet not found: ...", and
    every failure of the parser "Error fetching OIS data: ..." followed by
    the parser's own message, since the parser raises neither of the two. *)
Theorem X7_fetch_error_message (w : world) (st : state) (e : exn) :
  (upstream w = Raise e -> exn_class e = RequestException ->
   fst (BOEOISFetcher.fetch_ois_data w st) =
   Return (None, Some ("Network error: " ++ exn_msg e))) /\
  (upstream w = Raise e -> exn_class e = KeyError ->
   fst (BOEOISFetcher.fetch_ois_data w st) =
   Return (None, Some ("Sheet not found: " ++ exn_msg e))) /\
  (forall sheet,
      upstream w = Ok sheet -> _parse_ois_sheet sheet = Raise e ->
      fst (BOEOISFetcher.fetch_ois_data w st) =
      Return (None, Some ("Error fetching OIS data: " ++ exn_msg e))).
Proof.
  unfold BOEOISFetcher.fetch_ois_data, try_except, bind, emit, ask, lift, ret.
  split; [|split].
  - intros -> ->. reflexivity.
  - intros -> ->. reflexivity.
  - intros sheet -> Hp. rewrite Hp.
    destruct (parse_failure_class sheet e Hp) as [-> | [-> | ->]]; reflexivity.
Qed.

(** A workbook whose sheet is empty: the fetch reports the missing
    columns behind the generic prefix. *)
Lemma X7_fetch_error_message_witness :
  fst (BOEOISFetcher.fetch_ois_data
         (World.World clock_example env_example (Ok (Worksheet [])) (Ok tt))
         initial) =
  Return (None,
          Some "Error fetching OIS data: Could not find 2yr, 5yr, or 10yr columns").
Proof.
  apply (proj2 (proj2 (X7_fetch_error_message
           (World.World clock_example env_example (Ok (Worksheet [])) (Ok tt))
           initial
           (Exn ValueError "Could not find 2yr, 5yr, or 10yr columns")))
           (Worksheet [])); reflexivity.
Defined.

(** ** The formatters *)

Section FormatterFacts.

Lemma f_is_inf_abs z : f_is_inf (f_of_Z (Z.abs z)) = f_is_inf (f_of_Z z).
Proof.
  destruct z as [|p|p]; try reflexivity.
  exact (f_is_inf_opp (Z.neg p)).
Qed.

Lemma float_of_int_abs_ok z :
  is_ok (float_of_int (Z.abs z)) = is_ok (float_of_int z).
Proof.
  unfold float_of_int. cbv zeta. rewrite f_is_inf_abs.
  destruct (f_is_inf (f_of_Z z)); reflexivity.
Qed.

Lemma is_ok_bind {A B} (r : result A) (k : A -> result B) :
  is_ok (rbind r k) =
  match r with Ok a => is_ok (k a) | Raise _ => false end.
Proof. destruct r; reflexivity. Qed.

(** Whether a rate prints does not depend on the width asked for. *)
Lemma format_ok_spec sp sp' v :
  is_ok (py_format sp v) = is_ok (py_format sp' v).
Proof.
  destruct v as [|z|f|s|d|us]; simpl; try reflexivity.
  destruct (float_of_int z); reflexivity.
Qed.

(** The change cell of the HTML prints exactly when the change string and
    the arrow of the plain text do. *)
Lemma change_ok_agree v :
  is_ok (EmailSender.html_change v) =
  (is_ok (summary_change_str v) && is_ok (summary_arrow v))%bool.
Proof.
  unfold EmailSender.html_change, summary_change_str, summary_arrow.
  destruct v as [|z|f|s|d|us]; try reflexivity.
  - cbn [is_none negb py_gt0 py_lt0 py_abs py_format truthy rbind].
    pose proof (float_of_int_abs_ok z) as Habs.
    destruct (float_of_int (Z.abs z)), (float_of_int z); try discriminate;
      cbn [rbind is_ok];
      destruct (0 <? z)%Z, (z <? 0)%Z, (negb (z =? 0)%Z); reflexivity.
  - cbn [is_none negb py_gt0 py_lt0 py_abs py_format truthy rbind].
    destruct (f_gt0 f), (f_lt0 f), (negb (f_is_zero f)); reflexivity.
Qed.

Lemma line_ok_agree tenor e :
  is_ok (EmailSender.html_row tenor e) = is_ok (summary_line tenor e).
Proof.
  unfold EmailSender.html_row, summary_line.
  rewrite !is_ok_bind.
  pose proof (change_ok_agree (change_bps e)) as Hc.
  destruct (EmailSender.html_change (change_bps e)) as [cc|],
           (summary_change_str (change_bps e)) as [cs|];
    cbn [is_ok andb] in Hc; try discriminate.
  - rewrite !is_ok_bind.
    destruct (summary_arrow (change_bps e)) as [a|]; [|discriminate].
    rewrite !is_ok_bind.
    pose proof (format_ok_spec spec_3f spec_r6_3f (value_of_cell (current e))) as H1.
    destruct (py_format spec_3f (value_of_cell (current e))),
             (py_format spec_r6_3f (value_of_cell (current e)));
      try discriminate; [|reflexivity].
    rewrite !is_ok_bind.
    pose proof (format_ok_spec spec_3f spec_r6_3f (value_of_cell (previous e))) as H2.
    destruct (py_format spec_3f (value_of_cell (previous e))),
             (py_format spec_r6_3f (value_of_cell (previous e)));
      try discriminate; reflexivity.
  - rewrite is_ok_bind.
    destruct (summary_arrow (change_bps e)) as [a|]; [discriminate|reflexivity].
  - reflexivity.
Qed.

Lemma lines_ok_agree items : forall acc acc',
  is_ok (EmailSender.html_rows acc items) = is_ok (summary_lines acc' items).
Proof.
  induction items as [|[k e] rest IH]; intros acc acc'; [reflexivity|].
  cbn [EmailSender.html_rows summary_lines]. rewrite !is_ok_bind.
  pose proof (line_ok_agree k e) as H.
  destruct (EmailSender.html_row k e), (summary_line k e); try discriminate;
    [apply IH|reflexivity].
Qed.

End FormatterFacts.

(** X8. The "N/A" branch of the formatters never runs on what the parser
    produces: whenever [format_summary] or [create_ois_html_email] returns
    for a parsed snapshot, every tenor has both rates and its change. *)
Theorem X8_parsed_snapshot_never_prints_na (ws : worksheet) (snap : snapshot) :
  _parse_ois_sheet ws = Ok snap ->
  (exists w st text,
      fst (BOEOISFetcher.format_summary snap w st) = Return text) \/
  (exists w st html,
      fst (EmailSender.create_ois_html_email snap w st) = Return html) ->
  forall tenor e,
    In (tenor, e) (rates snap) ->
    current e <> CNone /\ previous e <> CNone /\ change_bps e <> VNone.
Proof.
  intros Hp Hret tenor e Hin.
  assert (Hr : current e <> CNone /\ previous e <> CNone).
  { destruct Hret as [(w & st & text & H) | (w & st & html & H)].
    - rewrite format_summary_run in H.
      destruct (summary_body snap) as [body|] eqn:Eb; [|discriminate].
      eapply summary_lines_ok_rates; eassumption.
    - rewrite create_ois_html_email_run in H. cbn [fst] in H.
      destruct (EmailSender.html_rows _ _) as [h|] eqn:Eh; [|discriminate].
      eapply html_rows_ok_rates; eassumption. }
  destruct Hr as [Hc Hpv]. repeat split; auto.
  intros Hch.
  destruct (parse_ok_inv ws snap Hp)
    as (c2 & c5 & c10 & latest & prev & rest & _ & _ & Hb).
  destruct (build_result_rates latest prev snap Hb)
    as (ch2 & ch5 & ch10 & H2 & H5 & H10 & Hrates).
  rewrite Hrates in Hin.
  destruct Hin as [[= <- <-] | [[= <- <-] | [[= <- <-] | []]]];
    cbn [change_bps current previous] in *; subst;
    match goal with
    | H : calculate_change ?l ?p = Ok VNone |- _ =>
        destruct (proj1 (calculate_change_none_iff l p VNone H) eq_refl);
          contradiction
    end.
Qed.

(** The sample sheet prints, so each of its changes is there. *)
Lemma X8_parsed_snapshot_never_prints_na_witness :
  change_bps (entry_example (dec 410 2) (dec 400 2)) <> VNone.
Proof.
  refine (proj2 (proj2 (X8_parsed_snapshot_never_prints_na sheet_example
                          snapshot_example _ _ "5yr" _ _))).
  - vm_compute. reflexivity.
  - left. exists world_example, initial. eexists. vm_compute. reflexivity.
  - right. left. reflexivity.
Defined.

(** X9. The two formatters accept the same snapshots: the plain-text
    summary returns for a snapshot exactly when the HTML document does,
    whatever the cells and changes are. *)
Theorem X9_formatters_accept_the_same (data : snapshot) (w w' : world)
  (st st' : state) :
  (exists text, fst (BOEOISFetcher.format_summary data w st) = Return text) <->
  (exists html,
      fst (EmailSender.create_ois_html_email data w' st') = Return html).
Proof.
  rewrite format_summary_run, create_ois_html_email_run. cbn [fst].
  pose proof (lines_ok_agree (rates data) (EmailSender.html_head data)
                (summary_head data)) as H.
  unfold summary_body.
  destruct (EmailSender.html_rows _ _), (summary_lines _ _);
    try discriminate; cbn [fst]; split; intros [x Hx];
    try discriminate; eauto.
Qed.

(** The sample snapshot prints as text, so it renders as HTML. *)
Lemma X9_formatters_accept_the_same_witness :
  exists html,
    fst (EmailSender.create_ois_html_email snapshot_example world_unconfigured
           initial) = Return html.
Proof.
  apply (proj1 (X9_formatters_accept_the_same snapshot_example world_example
                  world_unconfigured initial initial)).
  eexists. vm_compute. reflexivity.
Defined.

(** ** Sending *)

Section SendFacts.

Lemma sent_app t1 t2 : sent (t1 ++ t2) = (sent t1 ++ sent t2)%list.
Proof.
  induction t1 as [|e t1 IH]; [reflexivity|].
  destruct e; simpl; now rewrite IH.
Qed.

Lemma printed_app t1 t2 : printed (t1 ++ t2) = (printed t1 ++ printed t2)%list.
Proof.
  induction t1 as [|e t1 IH]; [reflexivity|].
  destruct e; simpl; now rewrite IH.
Qed.

Lemma downloads_app t1 t2 : downloads (t1 ++ t2) = downloads t1 + downloads t2.
Proof. unfold downloads. now rewrite filter_app, List.length_app. Qed.

Lemma nonempty_false s : EmailSender.nonempty s = false <-> s = "".
Proof.
  unfold EmailSender.nonempty. rewrite negb_false_iff. apply String.eqb_eq.
Qed.

(** Everything [send_email] does, by cases on the sender. *)
Lemma send_email_cases self subject body html w st :
  EmailSender.send_email self subject body html w st =
  if ready self
  then
    (Return
       match smtp_session w with
       | Ok _ => (true, None)
       | Raise e =>
           (false,
            Some match exn_class e with
                 | SMTPAuthenticationError =>
                     "SMTP authentication failed - check username/password"
                 | SMTPException => "SMTP error: " ++ exn_msg e
                 | _ => "Error sending email: " ++ exn_msg e
                 end)
       end,
     State (S (ticks st))
       (trace st ++
        [EvSmtpSend (EmailSender.smtp_host self) (EmailSender.smtp_port self)
           (EmailSender.smtp_user self)
           (Message subject (EmailSender.from_email self)
              (EmailSender.to_email self) body (html_part html))]))
  else
    (Return
       (false,
        Some (if (EmailSender.nonempty (EmailSender.smtp_user self) &&
                  EmailSender.nonempty (EmailSender.smtp_password self))%bool
              then "Recipient email not configured"
              else "SMTP credentials not configured")),
     st).
Proof.
  unfold EmailSender.send_email, ready.
  destruct (EmailSender.nonempty (EmailSender.smtp_user self));
    destruct (EmailSender.nonempty (EmailSender.smtp_password self));
    cbn [negb orb andb]; try reflexivity.
  destruct (EmailSender.nonempty (EmailSender.to_email self));
    cbn [negb]; [|reflexivity].
  unfold try_except, bind, datetime_now, emit, ask, lift, ret, html_part.
  cbn [ticks trace].
  destruct (smtp_session w) as [[]|e]; [reflexivity|].
  destruct (exn_class e); reflexivity.
Qed.

End SendFacts.

(** X10. [send_email] never raises.  It opens an SMTP session exactly
    when user, password and recipient are all set, and then one only;
    without them it returns at once, touching nothing, with the credentials
    complaint taking precedence over the recipient one.  It reports success
    exactly when a session was opened and ended without an exception, and
    it returns an error message exactly when it reports failure. *)
Theorem X10_send_email_sessions (self : EmailSender.email_sender)
  (subject body : string) (html : option string) (w : world) (st : state) :
  exists ok err st',
    EmailSender.send_email self subject body html w st =
      (Return (ok, err), st') /\
    notifications (trace st') =
      notifications (trace st) + (if ready self then 1 else 0) /\
    (ready self = false -> st' = st) /\
    (EmailSender.smtp_user self = "" \/ EmailSender.smtp_password self = "" ->
     err = Some "SMTP credentials not configured") /\
    (ok = true <-> ready self = true /\ exists u, smtp_session w = Ok u) /\
    (ok = true <-> err = None).
Proof.
  rewrite send_email_cases.
  destruct (ready self) eqn:Hr.
  - destruct (smtp_session w) as [u|e] eqn:Es; do 3 eexists;
      (split; [reflexivity|]); cbn [trace];
      rewrite notifications_snoc_send;
      (split; [lia|]); (split; [discriminate|]).
    + split.
      * intros Hempty. exfalso. unfold ready in Hr.
        apply andb_true_iff in Hr. destruct Hr as [Hr _].
        apply andb_true_iff in Hr. destruct Hr as [Hu Hp].
        destruct Hempty as [E|E]; rewrite E in *; discriminate.
      * split; split; auto; intros; eauto.
    + split.
      * intros Hempty. exfalso. unfold ready in Hr.
        apply andb_true_iff in Hr. destruct Hr as [Hr _].
        apply andb_true_iff in Hr. destruct Hr as [Hu Hp].
        destruct Hempty as [E|E]; rewrite E in *; discriminate.
      * split; split; try discriminate.
        intros [_ [u Hu]]. discriminate.
  - do 3 eexists. split; [reflexivity|].
    split; [lia|]. split; [reflexivity|].
    split.
    + intros Hempty.
      destruct Hempty as [E|E]; rewrite E; cbn [EmailSender.nonempty];
        [reflexivity|].
      rewrite andb_false_r. reflexivity.
    + split; split; try discriminate. intros [H _]. discriminate.
Qed.

(** A sender without a password is refused before any session. *)
Lemma X10_send_email_sessions_witness :
  exists ok err st',
    EmailSender.send_email sender_without_password "subject" "body" None
      world_example initial = (Return (ok, err), st') /\
    err = Some "SMTP credentials not configured" /\ st' = initial.
Proof.
  destruct (X10_send_email_sessions sender_without_password "subject" "body"
              None world_example initial)
    as (ok & err & st' & Hrun & _ & Hst & Hcred & _).
  exists ok, err, st'. split; [exact Hrun|]. split.
  - apply Hcred. right. reflexivity.
  - apply Hst. reflexivity.
Defined.

(** X11. The message [send_email] hands to SMTP carries the subject and
    the plain body it was given, the sender's own from and to addresses,
    and an HTML part exactly when the HTML body is a non-empty text; it is
    the only message of the call, and none is sent by a sender that is not
    ready. *)
Theorem X11_send_email_message (self : EmailSender.email_sender)
  (subject body : string) (html : option string) (w : world) (st : state) :
  sent (trace (snd (EmailSender.send_email self subject body html w st))) =
  (sent (trace st) ++
   if ready self
   then [Message subject (EmailSender.from_email self)
           (EmailSender.to_email self) body
           (match html with
            | Some h => if String.eqb h "" then None else Some h
            | None => None
            end)]
   else [])%list /\
  printed (trace (snd (EmailSender.send_email self subject body html w st))) =
  printed (trace st).
Proof.
  rewrite send_email_cases.
  destruct (ready self); cbn [snd trace].
  - rewrite sent_app, printed_app. cbn [sent printed].
    rewrite app_nil_r. split; [|reflexivity].
    repeat f_equal. unfold html_part, EmailSender.nonempty.
    destruct html as [h|]; [|reflexivity].
    destruct (String.eqb h ""); reflexivity.
  - now rewrite app_nil_r.
Qed.

(** A ready sender given an empty HTML body sends the plain part only. *)
Lemma X11_send_email_message_witness :
  sent (trace (snd (EmailSender.send_email
                      (EmailSender.Build_sender "smtp.gmail.com" 587
                         "feeder@example.org" "secret" "feeder@example.org"
                         "desk@example.org")
                      "subject" "body" (Some "") world_example initial))) =
  [Message "subject" "feeder@example.org" "desk@example.org" "body" None].
Proof.
  exact (proj1 (X11_send_email_message
                  (EmailSender.Build_sender "smtp.gmail.com" 587
                     "feeder@example.org" "secret" "feeder@example.org"
                     "desk@example.org")
                  "subject" "body" (Some "") world_example initial)).
Defined.

(** ** The constructor *)

Section ConstructorFacts.

Lemma text_arg_or_env_run arg name default w st :
  text_arg_or_env arg name default w st =
  (Return (arg_or arg (env_or w name default)), st).
Proof.
  unfold text_arg_or_env, arg_or, env_or, os_getenv, ret.
  destruct arg as [s|]; [destruct (EmailSender.nonempty s)|]; reflexivity.
Qed.

Lemma port_from_env_run w st :
  port_from_env w st =
  match EmailSender.py_int (env_or w "SMTP_PORT" "587") with
  | Ok p => (Return p, st)
  | Raise e => (Throw e, st)
  end.
Proof.
  unfold port_from_env, bind, os_getenv, lift, env_or.
  destruct (EmailSender.py_int _); reflexivity.
Qed.

Lemma construct_run a w st :
  construct a w st =
  match (match port_given a with
         | Some p => Ok p
         | None => EmailSender.py_int (env_or w "SMTP_PORT" "587")
         end) with
  | Ok port =>
      let user := arg_or (arg_user a) (env_or w "SMTP_USER" "") in
      (Return
         (EmailSender.Build_sender
            (arg_or (arg_host a) (env_or w "SMTP_HOST" "smtp.gmail.com"))
            port user
            (arg_or (arg_password a) (env_or w "SMTP_PASSWORD" ""))
            (arg_or (arg_from a) (env_or w "FROM_EMAIL" user))
            (arg_or (arg_to a) (env_or w "TO_EMAIL" ""))),
       st)
  | Raise e => (Throw e, st)
  end.
Proof.
  unfold construct, port_given.
  unfold bind at 1. rewrite text_arg_or_env_run.
  unfold bind at 1. unfold port_arg_or_env.
  assert (Hport :
    (match arg_port a with
     | Some p => if (p =? 0)%Z then port_from_env else ret p
     | None => port_from_env
     end) w st =
    match (match match arg_port a with
                 | Some p => if (p =? 0)%Z then None else Some p
                 | None => None
                 end with
           | Some p => Ok p
           | None => EmailSender.py_int (env_or w "SMTP_PORT" "587")
           end) with
    | Ok p => (Return p, st)
    | Raise e => (Throw e, st)
    end).
  { destruct (arg_port a) as [p|]; [destruct (p =? 0)%Z|];
      try apply port_from_env_run; reflexivity. }
  rewrite Hport. clear Hport.
  destruct (match match arg_port a with
                  | Some p => if (p =? 0)%Z then None else Some p
                  | None => None
                  end with
            | Some p => Ok p
            | None => EmailSender.py_int (env_or w "SMTP_PORT" "587")
            end) as [port|e]; [|reflexivity].
  unfold bind at 1. rewrite text_arg_or_env_run.
  unfold bind at 1. rewrite text_arg_or_env_run.
  unfold bind at 1. rewrite text_arg_or_env_run.
  unfold bind at 1. rewrite text_arg_or_env_run.
  reflexivity.
Qed.

End ConstructorFacts.

(** X12. The constructor reads the environment only for what its arguments
    leave open: a text argument is used when it is a non-empty text and the
    variable (or the default) otherwise, so an empty argument counts as
    none; the from address falls back on FROM_EMAIL and then on the user
    already chosen.  The constructor fails exactly when it has to take the
    port from SMTP_PORT (no port argument, or 0) and the text there is not
    an integer; a port argument that is used is never checked against the
    environment.  Without arguments it is the [EmailSender()] of the agent,
    and it never changes anything outside. *)
Theorem X12_constructor_arguments (a : sender_args) (w : world) (st : state) :
  construct no_args w st = EmailSender.init w st /\
  snd (construct a w st) = st /\
  ((exists e, fst (construct a w st) = Throw e) <->
   port_given a = None /\
   EmailSender.parse_int (env_or w "SMTP_PORT" "587") = None) /\
  (forall s,
      fst (construct a w st) = Return s ->
      EmailSender.smtp_host s =
        arg_or (arg_host a) (env_or w "SMTP_HOST" "smtp.gmail.com") /\
      EmailSender.smtp_user s = arg_or (arg_user a) (env_or w "SMTP_USER" "") /\
      EmailSender.smtp_password s =
        arg_or (arg_password a) (env_or w "SMTP_PASSWORD" "") /\
      EmailSender.from_email s =
        arg_or (arg_from a) (env_or w "FROM_EMAIL" (EmailSender.smtp_user s)) /\
      EmailSender.to_email s = arg_or (arg_to a) (env_or w "TO_EMAIL" "") /\
      (forall p, port_given a = Some p -> EmailSender.smtp_port s = p) /\
      (port_given a = None ->
       EmailSender.parse_int (env_or w "SMTP_PORT" "587") =
       Some (EmailSender.smtp_port s))).
Proof.
  split.
  { cbv [construct EmailSender.init no_args text_arg_or_env port_arg_or_env
         port_from_env bind os_getenv lift ret arg_host arg_port arg_user
         arg_password arg_from arg_to].
    destruct (EmailSender.py_int _); reflexivity. }
  rewrite construct_run. unfold EmailSender.py_int.
  destruct (port_given a) as [p|] eqn:Hg.
  - cbn [fst snd]. split; [reflexivity|]. split.
    + split; [intros [e H]; discriminate|intros [H _]; discriminate].
    + intros s [= <-]. cbn. repeat split; try discriminate.
      now intros p' [= <-].
  - destruct (EmailSender.parse_int (env_or w "SMTP_PORT" "587")) as [p|] eqn:Hi;
      cbn [fst snd].
    + split; [reflexivity|]. split.
      * split; [intros [e H]; discriminate|intros [_ H]; discriminate].
      * intros s [= <-]. cbn. repeat split; try discriminate.
    + split; [reflexivity|]. split.
      * split; [auto|intros _; eauto].
      * intros s H. discriminate.
Qed.

(** With the port given as an argument a broken SMTP_PORT does no harm;
    the very same environment makes the constructor without arguments
    fail. *)
Lemma X12_constructor_arguments_witness :
  (exists e,
      fst (construct no_args
             (World.World clock_example env_bad_port (Ok sheet_example) (Ok tt))
             initial) = Throw e) /\
  EmailSender.smtp_port
    (EmailSender.Build_sender "smtp.gmail.com" 2525 "feeder@example.org"
       "secret" "feeder@example.org" "desk@example.org") = 2525%Z.
Proof.
  split.
  - apply (proj1 (proj2 (proj2 (X12_constructor_arguments no_args
             (World.World clock_example env_bad_port (Ok sheet_example) (Ok tt))
             initial)))).
    split; reflexivity.
  - apply (proj2 (proj2 (proj2 (X12_constructor_arguments
             (SenderArgs None (Some 2525%Z) None None None None)
             (World.World clock_example env_bad_port (Ok sheet_example) (Ok tt))
             initial)))).
    + vm_compute. reflexivity.
    + reflexivity.
Defined.

(** ** The run of the agent *)

Section RunOutline.

Lemma fetch_run_eq w st :
  BOEOISFetcher.fetch_ois_data w st =
  (Return (fetch_result w),
   State (ticks st) (trace st ++ [EvHttpGet BOEOISFetcher.BOE_URL])).
Proof.
  unfold BOEOISFetcher.fetch_ois_data, fetch_result, fetch_error_text,
    try_except, bind, emit, ask, lift, ret.
  destruct (upstream w) as [sheet|e].
  - destruct (_parse_ois_sheet sheet) as [data|e]; [reflexivity|].
    destruct (exn_class e); reflexivity.
  - destruct (exn_class e); reflexivity.
Qed.

Lemma print_all_trace l : forall w st,
  Agent.print_all l w st =
  (Return tt, State (ticks st) (trace st ++ map EvPrint l)).
Proof.
  induction l as [|s l IH]; intros w st; cbn [Agent.print_all map].
  - unfold ret. rewrite app_nil_r. now destruct st.
  - unfold bind. rewrite print_run, IH. cbn [ticks trace].
    now rewrite <- app_assoc.
Qed.

Lemma init_run w st :
  EmailSender.init w st =
  match EmailSender.py_int (env_or w "SMTP_PORT" "587") with
  | Ok port => (Return (sender_of_env w port), st)
  | Raise e => (Throw e, st)
  end.
Proof.
  cbv [EmailSender.init bind os_getenv lift ret env_or sender_of_env].
  destruct (EmailSender.py_int _); reflexivity.
Qed.

Lemma configured_env w :
  configured w =
  (EmailSender.nonempty (env_or w "SMTP_USER" "") &&
   EmailSender.nonempty (env_or w "TO_EMAIL" ""))%bool.
Proof. reflexivity. Qed.

Lemma notify_outline w port data text st :
  configured w = true ->
  Agent.notify (sender_of_env w port) data text w st =
  let t3 := (trace st ++
             [EvPrint (newline ++ "Sending email notification...")])%list in
  match EmailSender.html_rows (EmailSender.html_head data) (rates data) with
  | Raise e => (Throw e, State (ticks st) t3)
  | Ok html =>
      if EmailSender.nonempty (env_or w "SMTP_PASSWORD" "")
      then
        let t4 :=
          (t3 ++
           [EvSmtpSend (env_or w "SMTP_HOST" "smtp.gmail.com") port
              (env_or w "SMTP_USER" "")
              (agent_message w data text (html ++ EmailSender.html_foot))])%list
        in
        match smtp_session w with
        | Ok _ =>
            (Return tt,
             State (S (S (ticks st)))
               (t4 ++
                [EvPrint ("✓ Email sent successfully to " ++
                          env_or w "TO_EMAIL" "");
                 EvPrint (newline ++ "[" ++
                          strftime_iso (clock w (S (ticks st))) ++
                          "] OIS Daily Agent completed")]))
        | Raise e =>
            (SystemExit 1,
             State (S (ticks st))
               (t4 ++ [EvPrint ("✗ Email failed: " ++ send_error_text e)]))
        end
      else
        (SystemExit 1,
         State (ticks st)
           (t3 ++
            [EvPrint "✗ Email failed: SMTP credentials not configured"]))
  end.
Proof.
  intros Hc. rewrite configured_env in Hc.
  apply andb_true_iff in Hc. destruct Hc as [Hu Ht].
  cbv zeta. unfold Agent.notify.
  unfold bind at 1. rewrite print_run.
  unfold bind at 1. rewrite create_ois_html_email_run.
  destruct (EmailSender.html_rows _ _) as [html|e]; [|reflexivity].
  unfold bind at 1. rewrite send_email_cases.
  unfold ready. cbn [sender_of_env EmailSender.smtp_user
                     EmailSender.smtp_password EmailSender.to_email
                     EmailSender.smtp_host EmailSender.smtp_port
                     EmailSender.from_email].
  rewrite Hu, Ht. cbn [andb].
  destruct (EmailSender.nonempty (env_or w "SMTP_PASSWORD" "")).
  - cbn [andb ticks trace].
    destruct (smtp_session w) as [[]|e].
    + cbn [fst snd]. unfold bind, print, emit, datetime_now, ret.
      cbn [ticks trace]. unfold agent_message.
      rewrite <- !app_assoc. reflexivity.
    + cbn [fst snd]. unfold bind, print, emit, sys_exit.
      cbn [ticks trace Agent.str_of_optional]. unfold agent_message, send_error_text.
      rewrite <- !app_assoc. reflexivity.
  - cbn [andb fst snd]. unfold bind, print, emit, sys_exit.
    cbn [ticks trace Agent.str_of_optional]. reflexivity.
Qed.

(** The run, stage by stage. *)
Lemma run_outline_correct w : Agent.run w = run_outline w.
Proof.
  unfold Agent.run, run_outline, Agent.main.
  unfold bind at 1. unfold datetime_now at 1. cbn [ticks trace initial].
  unfold bind at 1. rewrite print_run. cbn [ticks trace].
  unfold bind at 1. rewrite print_run. cbn [ticks trace].
  unfold bind at 1. rewrite fetch_run_eq. cbn [ticks trace List.app].
  fold (run_start w).
  destruct (Agent.truthy_text (snd (fetch_result w))).
  { reflexivity. }
  destruct (fst (fetch_result w)) as [data|]; [|reflexivity].
  unfold bind at 1. rewrite print_run. cbn [ticks trace].
  unfold bind at 1. rewrite format_summary_run.
  destruct (summary_body data) as [body|e]; [|reflexivity].
  cbn [ticks trace].
  unfold bind at 1. rewrite print_run. cbn [ticks trace].
  unfold bind at 1. rewrite init_run.
  destruct (EmailSender.py_int _) as [port|e]; [|reflexivity].
  cbn [sender_of_env EmailSender.smtp_user EmailSender.to_email].
  fold (sender_of_env w port).
  rewrite <- negb_andb, <- configured_env.
  destruct (configured w) eqn:Hc; cbn [negb].
  - rewrite (notify_outline w port data _ _ Hc). cbv zeta.
    cbn [ticks trace].
    destruct (EmailSender.html_rows _ _) as [html|e]; [|reflexivity].
    destruct (EmailSender.nonempty (env_or w "SMTP_PASSWORD" ""));
      [|reflexivity].
    destruct (smtp_session w); reflexivity.
  - rewrite print_all_trace. reflexivity.
Qed.

End RunOutline.

Section RunFacts.

Lemma fetch_error_text_nonempty e :
  EmailSender.nonempty (fetch_error_text e) = true.
Proof. unfold fetch_error_text. destruct (exn_class e); reflexivity. Qed.

Lemma fetch_result_cases w :
  (exists sheet data,
      upstream w = Ok sheet /\ _parse_ois_sheet sheet = Ok data /\
      fetch_result w = (Some data, None)) \/
  (exists msg,
      fetch_failure w /\ fetch_result w = (None, Some msg) /\
      EmailSender.nonempty msg = true).
Proof.
  unfold fetch_result, fetch_failure.
  destruct (upstream w) as [sheet|e].
  - destruct (_parse_ois_sheet sheet) as [data|e] eqn:E.
    + left. eauto.
    + right. eexists. split; [eauto|]. split; [reflexivity|].
      apply fetch_error_text_nonempty.
  - right. eexists. split; [exact I|]. split; [reflexivity|].
    apply fetch_error_text_nonempty.
Qed.

Lemma run_start_counts w :
  downloads (run_start w) = 1 /\ notifications (run_start w) = 0 /\
  sent (run_start w) = [].
Proof. repeat split. Qed.

Lemma downloads_prints l : downloads (map EvPrint l) = 0.
Proof. induction l; [reflexivity|exact IHl]. Qed.

Lemma notifications_prints l : notifications (map EvPrint l) = 0.
Proof. induction l; [reflexivity|exact IHl]. Qed.

Lemma sent_prints l : sent (map EvPrint l) = [].
Proof. induction l; [reflexivity|exact IHl]. Qed.

Lemma printed_prints l : printed (map EvPrint l) = l.
Proof. induction l as [|s l IH]; [reflexivity|]. simpl. now rewrite IH. Qed.

Lemma nonempty_append_foot s :
  EmailSender.nonempty (s ++ EmailSender.html_foot) = true.
Proof. destruct s; reflexivity. Qed.

Lemma html_part_document html :
  html_part (Some (html ++ EmailSender.html_foot)) =
  Some (html ++ EmailSender.html_foot).
Proof. unfold html_part. now rewrite nonempty_append_foot. Qed.

(** The run of a failed fetch. *)
Lemma run_outline_failed w msg :
  fetch_result w = (None, Some msg) -> EmailSender.nonempty msg = true ->
  run_outline w = (1%Z, (run_start w ++ [EvPrint ("ERROR: " ++ msg)])%list).
Proof.
  intros Hr Hn. unfold run_outline. rewrite Hr. cbn [fst snd Agent.truthy_text].
  rewrite Hn. reflexivity.
Qed.

End RunFacts.

Ltac outline_cases w :=
  rewrite (run_outline_correct w);
  destruct (fetch_result_cases w)
    as [(sheet & data & Hup & Hparse & Hres) | (msg & Hfail & Hres & Hmsg)];
  [ unfold run_outline; rewrite Hres;
    cbn [fst snd Agent.truthy_text]; cbv zeta
  | rewrite (run_outline_failed w msg Hres Hmsg) ].

Ltac count_events :=
  cbn [fst snd];
  repeat rewrite ?downloads_app, ?notifications_app, ?sent_app, ?printed_app,
    ?downloads_prints, ?notifications_prints, ?sent_prints, ?printed_prints;
  cbn [run_start downloads notifications sent printed filter is_http_get
       is_smtp_send List.length List.app Nat.add].

(** X13. Every run downloads exactly once, right after its two
    announcement lines and before anything else: there is no retry, and no
    run that prints a summary or sends a mail without having downloaded. *)
Theorem X13_run_downloads_once (w : world) :
  downloads (snd (Agent.run w)) = 1 /\
  firstn 3 (snd (Agent.run w)) = run_start w.
Proof.
  outline_cases w.
  - destruct (summary_body data) as [body|e]; [|count_events; split; reflexivity].
    destruct (EmailSender.py_int _) as [port|e];
      [|count_events; split; reflexivity].
    destruct (configured w); [|count_events; split; reflexivity].
    destruct (EmailSender.html_rows _ _) as [html|e];
      [|count_events; split; reflexivity].
    destruct (EmailSender.nonempty _); [|count_events; split; reflexivity].
    destruct (smtp_session w); count_events; split; reflexivity.
  - count_events. split; reflexivity.
Qed.

(** Also a run whose download fails has downloaded once. *)
Lemma X13_run_downloads_once_witness :
  downloads (snd (Agent.run world_network_down)) = 1.
Proof. exact (proj1 (X13_run_downloads_once world_network_down)). Defined.

(** X14. A run ends with status 0 exactly when the download and the parse
    succeed, the summary can be formatted, SMTP_PORT (or its default) is an
    integer, and either no sender or recipient is configured, or a password
    is set and the SMTP session ends without an exception.  In every other
    case the status is 1. *)
Theorem X14_run_success_iff (w : world) :
  (fst (Agent.run w) = 0%Z <->
   exists sheet data body port,
     upstream w = Ok sheet /\ _parse_ois_sheet sheet = Ok data /\
     summary_body data = Ok body /\
     EmailSender.parse_int (env_or w "SMTP_PORT" "587") = Some port /\
     (configured w = false \/
      (env_or w "SMTP_PASSWORD" "" <> "" /\ exists u, smtp_session w = Ok u))) /\
  (fst (Agent.run w) <> 0%Z -> fst (Agent.run w) = 1%Z).
Proof.
  outline_cases w.
  - unfold EmailSender.py_int.
    destruct (summary_body data) as [body|e] eqn:Eb.
    2:{ cbn [fst]. split; [|intros _; reflexivity]. split; [discriminate|].
        intros (s & d & b & p & Hu & Hp & Hb & _).
        rewrite Hup in Hu. injection Hu as <-.
        rewrite Hparse in Hp. injection Hp as <-. congruence. }
    destruct (EmailSender.parse_int _) as [port|] eqn:Ep.
    2:{ cbn [fst]. split; [|intros _; reflexivity]. split; [discriminate|].
        intros (s & d & b & p & _ & _ & _ & Hport & _). discriminate. }
    destruct (configured w) eqn:Hc.
    2:{ cbn [fst]. split; [|intros H0; congruence]. split; [|reflexivity].
        intros _. exists sheet, data, body, port. repeat split; auto. }
    pose proof (lines_ok_agree (rates data) (EmailSender.html_head data)
                  (summary_head data)) as Hagree.
    unfold summary_body in Eb. rewrite Eb in Hagree.
    destruct (EmailSender.html_rows _ _) as [html|e]; [|discriminate].
    destruct (EmailSender.nonempty (env_or w "SMTP_PASSWORD" "")) eqn:Hpw.
    2:{ cbn [fst]. split; [|intros _; reflexivity]. split; [discriminate|].
        intros (s & d & b & p & _ & _ & _ & _ & [Hno | [Hne _]]);
          [discriminate|].
        apply nonempty_false in Hpw. contradiction. }
    destruct (smtp_session w) as [u|e] eqn:Es; cbn [fst].
    + split; [|intros H0; congruence]. split; [|reflexivity].
      intros _. exists sheet, data, body, port.
      repeat split; auto. right. split; [|eauto].
      intros E. rewrite E in Hpw. discriminate.
    + split; [|intros _; reflexivity]. split; [discriminate|].
      intros (s & d & b & p & _ & _ & _ & _ & [Hno | [_ [u Hu]]]);
        discriminate.
  - cbn [fst]. split; [|intros _; reflexivity]. split; [discriminate|].
    intros (s & d & b & p & Hu & Hp & _).
    unfold fetch_failure in Hfail. rewrite Hu in Hfail.
    destruct Hfail as [e He]. congruence.
Qed.

(** The unconfigured sample run ends with status 0. *)
Lemma X14_run_success_iff_witness : fst (Agent.run world_unconfigured) = 0%Z.
Proof.
  apply (proj1 (X14_run_success_iff world_unconfigured)).
  do 4 eexists.
  split; [reflexivity|]. split; [vm_compute; reflexivity|].
  split; [vm_compute; reflexivity|]. split; [vm_compute; reflexivity|].
  left. reflexivity.
Defined.

(** X15. A run sends at most one message, and the message it sends is
    made of what it showed: the plain body is the summary it printed on the
    console, character for character, the subject is "OIS Rates - " and the
    latest date, the addresses are those of the environment (the from
    address falling back on the user), and the HTML document is always
    attached. *)
Theorem X15_run_message (w : world) (m : message) :
  In m (sent (snd (Agent.run w))) ->
  sent (snd (Agent.run w)) = [m] /\
  In (newline ++ msg_body m)%string (printed (snd (Agent.run w))) /\
  msg_from m = env_or w "FROM_EMAIL" (env_or w "SMTP_USER" "") /\
  msg_to m = env_or w "TO_EMAIL" "" /\
  exists sheet data html,
    upstream w = Ok sheet /\ _parse_ois_sheet sheet = Ok data /\
    msg_subject m =
      ("OIS Rates - " ++ strftime_d_B_Y (latest_date data))%string /\
    EmailSender.html_rows (EmailSender.html_head data) (rates data) = Ok html /\
    msg_html m = Some (html ++ EmailSender.html_foot)%string.
Proof.
  outline_cases w.
  - destruct (summary_body data) as [body|e]; [|count_events; contradiction].
    destruct (EmailSender.py_int _) as [port|e]; [|count_events; contradiction].
    destruct (configured w); [|count_events; contradiction].
    destruct (EmailSender.html_rows _ _) as [html|e] eqn:Eh;
      [|count_events; contradiction].
    destruct (EmailSender.nonempty _); [|count_events; contradiction].
    destruct (smtp_session w); count_events;
      (intros [<-|[]]; split; [reflexivity|];
       cbn [agent_message msg_body msg_from msg_to msg_subject msg_html];
       split; [auto 10 with datatypes|];
       split; [reflexivity|]; split; [reflexivity|];
       exists sheet, data, html;
       rewrite html_part_document; auto).
  - count_events. contradiction.
Qed.

(** The sample run sends one message, whose body is the printed
    summary. *)
Lemma X15_run_message_witness :
  exists m, sent (snd (Agent.run world_example)) = [m] /\
            In (newline ++ msg_body m)%string
               (printed (snd (Agent.run world_example))).
Proof.
  destruct (sent (snd (Agent.run world_example))) as [|m rest] eqn:E.
  - vm_compute in E. discriminate.
  - exists m.
    assert (Hin : In m (sent (snd (Agent.run world_example))))
      by (rewrite E; now left).
    destruct (X15_run_message world_example m Hin) as (Hone & Hbody & _).
    rewrite E in Hone. split; [exact Hone|exact Hbody].
Defined.

(** X16. Without a password a run never opens an SMTP session.  The
    guard of the agent does not look at the password, so a run with sender
    and recipient configured goes on to [send_email], is refused there, and
    ends with status 1: with an empty password a run can only succeed when
    the e-mail is not configured at all. *)
Theorem X16_run_without_password (w : world) :
  env_or w "SMTP_PASSWORD" "" = "" ->
  notifications (snd (Agent.run w)) = 0 /\
  (configured w = true -> fst (Agent.run w) = 1%Z) /\
  (configured w = true ->
   (exists sheet data body port,
       upstream w = Ok sheet /\ _parse_ois_sheet sheet = Ok data /\
       summary_body data = Ok body /\
       EmailSender.parse_int (env_or w "SMTP_PORT" "587") = Some port) ->
   last (printed (snd (Agent.run w))) "" =
   "✗ Email failed: SMTP credentials not configured").
Proof.
  intros Hpw. outline_cases w.
  - unfold EmailSender.py_int. rewrite Hpw.
    cbn [EmailSender.nonempty String.eqb negb].
    destruct (summary_body data) as [body|e] eqn:Eb.
    2:{ count_events. repeat split; auto.
        intros _ (s & d & b & p & Hu & Hp & Hb & _).
        rewrite Hup in Hu. injection Hu as <-.
        rewrite Hparse in Hp. injection Hp as <-. congruence. }
    destruct (EmailSender.parse_int _) as [port|] eqn:Ep.
    2:{ count_events. repeat split; auto.
        intros _ (s & d & b & p & _ & _ & _ & Hport). discriminate. }
    destruct (configured w).
    2:{ count_events. repeat split; discriminate. }
    pose proof (lines_ok_agree (rates data) (EmailSender.html_head data)
                  (summary_head data)) as Hagree.
    unfold summary_body in Eb. rewrite Eb in Hagree.
    destruct (EmailSender.html_rows _ _) as [html|e]; [|discriminate].
    count_events. repeat split; auto.
  - count_events. repeat split; auto.
    intros _ (s & d & b & p & Hu & Hp & _).
    unfold fetch_failure in Hfail. rewrite Hu in Hfail.
    destruct Hfail as [e He]. congruence.
Qed.

(** With sender and recipient set and no password, the sample run fails
    without a session. *)
Lemma X16_run_without_password_witness :
  notifications (snd (Agent.run world_no_password)) = 0 /\
  fst (Agent.run world_no_password) = 1%Z.
Proof.
  destruct (X16_run_without_password world_no_password eq_refl)
    as (Hn & Hs & _).
  split; [exact Hn|exact (Hs eq_refl)].
Defined.

(** X17. A port that is not an integer stops every run with status 1 and
    without a notification, also a run that would skip the e-mail for want
    of configuration; when the fetch and the formatting went through, the
    summary is the last thing it printed. *)
Theorem X17_run_bad_port (w : world) :
  EmailSender.parse_int (env_or w "SMTP_PORT" "587") = None ->
  fst (Agent.run w) = 1%Z /\
  notifications (snd (Agent.run w)) = 0 /\
  (forall sheet data body,
      upstream w = Ok sheet -> _parse_ois_sheet sheet = Ok data ->
      summary_body data = Ok body ->
      last (printed (snd (Agent.run w))) "" =
      (newline ++ body ++ summary_foot (clock w 1))%string).
Proof.
  intros Hport. outline_cases w.
  - unfold EmailSender.py_int. rewrite Hport.
    destruct (summary_body data) as [body|e] eqn:Eb.
    + count_events. repeat split.
      intros s d b Hu Hp Hb.
      rewrite Hup in Hu. injection Hu as <-.
      rewrite Hparse in Hp. injection Hp as <-.
      rewrite Eb in Hb. injection Hb as <-. reflexivity.
    + count_events. repeat split.
      intros s d b Hu Hp Hb.
      rewrite Hup in Hu. injection Hu as <-.
      rewrite Hparse in Hp. injection Hp as <-. congruence.
  - count_events. repeat split.
    intros s d b Hu Hp _.
    unfold fetch_failure in Hfail. rewrite Hu in Hfail.
    destruct Hfail as [e He]. congruence.
Qed.

(** The configured sample run with SMTP_PORT set to "smtp". *)
Lemma X17_run_bad_port_witness :
  fst (Agent.run world_bad_port) = 1%Z /\
  notifications (snd (Agent.run world_bad_port)) = 0.
Proof.
  destruct (X17_run_bad_port world_bad_port eq_refl) as (Hs & Hn & _).
  split; [exact Hs|exact Hn].
Defined.

(** X18. A blank rate in one of the two most recent rows stops the run:
    the sheet parses, the run announces the fetch as successful, and then
    ends with status 1 on the exception of the formatter, before the
    summary is printed and without a notification. *)
Theorem X18_run_blank_rate (w : world) (sheet : worksheet) (data : snapshot)
  (tenor : string) (e : rate_entry) :
  upstream w = Ok sheet ->
  _parse_ois_sheet sheet = Ok data ->
  In (tenor, e) (rates data) ->
  current e = CNone \/ previous e = CNone ->
  Agent.run w =
  (1%Z, (run_start w ++ [EvPrint "✓ Data fetched successfully"])%list).
Proof.
  intros Hu Hp Hin Hblank.
  rewrite run_outline_correct. unfold run_outline, fetch_result.
  rewrite Hu, Hp. cbn [fst snd Agent.truthy_text]. cbv zeta.
  destruct (summary_body data) as [body|] eqn:Eb; [|reflexivity].
  exfalso. unfold summary_body in Eb.
  destruct (summary_lines_ok_rates _ _ _ Eb tenor e Hin) as [Hc Hpv].
  destruct Hblank; contradiction.
Qed.

(** The sample sheet with the older 2-year rate blank. *)
Lemma X18_run_blank_rate_witness :
  fst (Agent.run world_blank_previous) = 1%Z /\
  notifications (snd (Agent.run world_blank_previous)) = 0.
Proof.
  rewrite (X18_run_blank_rate world_blank_previous sheet_blank_previous
             snapshot_blank_previous "2yr" (entry_example (dec 450 2) CNone)).
  - split; reflexivity.
  - reflexivity.
  - vm_compute. reflexivity.
  - left. reflexivity.
  - right. reflexivity.
Defined.

(** ** The two module entry points *)

Section ScriptFacts.

Lemma fetcher_main_outline w :
  run_script fetcher_main w =
  let t0 := [EvPrint "Fetching Bank of England OIS data...";
             EvHttpGet BOEOISFetcher.BOE_URL] in
  let r := fetch_result w in
  if Agent.truthy_text (snd r)
  then (0%Z, (t0 ++ [EvPrint ("Error: " ++ Agent.str_of_optional (snd r))])%list)
  else
    match fst r with
    | Some data =>
        match summary_body data with
        | Ok body =>
            (0%Z, (t0 ++ [EvPrint (body ++ summary_foot (clock w 0))])%list)
        | Raise _ => (1%Z, t0)
        end
    | None => (0%Z, (t0 ++ [EvPrint "No data returned"])%list)
    end.
Proof.
  unfold run_script, fetcher_main.
  unfold bind at 1. rewrite print_run. cbn [ticks trace initial].
  unfold bind at 1. rewrite fetch_run_eq. cbn [ticks trace List.app]. cbv zeta.
  destruct (Agent.truthy_text (snd (fetch_result w))); [reflexivity|].
  destruct (fst (fetch_result w)) as [data|]; [|reflexivity].
  unfold bind at 1. rewrite format_summary_run.
  destruct (summary_body data); reflexivity.
Qed.

Lemma sender_main_outline w :
  run_script sender_main w =
  match EmailSender.parse_int (env_or w "SMTP_PORT" "587") with
  | Some port =>
      (0%Z,
       map EvPrint
         ["Email Sender Configuration:";
          "SMTP Host: " ++ env_or w "SMTP_HOST" "smtp.gmail.com";
          "SMTP Port: " ++ str_of_Z port;
          "SMTP User: " ++ or_not_configured (env_or w "SMTP_USER" "");
          "From Email: " ++
            or_not_configured
              (env_or w "FROM_EMAIL" (env_or w "SMTP_USER" ""));
          "To Email: " ++ or_not_configured (env_or w "TO_EMAIL" "");
          newline ++ "To configure, set environment variables:";
          "  SMTP_HOST, SMTP_PORT, SMTP_USER, SMTP_PASSWORD, FROM_EMAIL, TO_EMAIL"])
  | None => (1%Z, [])
  end.
Proof.
  unfold run_script, sender_main.
  unfold bind at 1. rewrite init_run. unfold EmailSender.py_int.
  destruct (EmailSender.parse_int _) as [port|]; reflexivity.
Qed.

End ScriptFacts.

(** X19. The entry point of the fetcher module downloads once and never
    sends anything.  Unlike the agent it does not turn a failed fetch into
    a failed process: it prints "Error: " and the message and returns, so
    the status is 0.  The status is 1 only when the sheet parsed and the
    formatter raised, and then nothing but the announcement was printed. *)
Theorem X19_fetcher_main (w : world) :
  downloads (snd (run_script fetcher_main w)) = 1 /\
  notifications (snd (run_script fetcher_main w)) = 0 /\
  (fetch_failure w ->
   fst (run_script fetcher_main w) = 0%Z /\
   exists msg,
     printed (snd (run_script fetcher_main w)) =
     ["Fetching Bank of England OIS data..."; ("Error: " ++ msg)%string]) /\
  (fst (run_script fetcher_main w) <> 0%Z ->
   fst (run_script fetcher_main w) = 1%Z /\
   printed (snd (run_script fetcher_main w)) =
     ["Fetching Bank of England OIS data..."] /\
   exists sheet data e,
     upstream w = Ok sheet /\ _parse_ois_sheet sheet = Ok data /\
     summary_body data = Raise e).
Proof.
  rewrite fetcher_main_outline. cbv zeta.
  destruct (fetch_result_cases w)
    as [(sheet & data & Hup & Hparse & Hres) | (msg & Hfail & Hres & Hmsg)];
    rewrite Hres; cbn [fst snd Agent.truthy_text].
  - assert (Hnf : ~ fetch_failure w).
    { intros Hf. unfold fetch_failure in Hf. rewrite Hup in Hf.
      destruct Hf as [e0 He0]. congruence. }
    destruct (summary_body data) as [body|e] eqn:Eb; cbn [fst snd].
    + split; [reflexivity|]. split; [reflexivity|].
      split; [intros Hf; contradiction|].
      intros Hn. exfalso. apply Hn. reflexivity.
    + split; [reflexivity|]. split; [reflexivity|].
      split; [intros Hf; contradiction|].
      intros _. split; [reflexivity|]. split; [reflexivity|]. eauto 6.
  - rewrite Hmsg. cbn [fst snd Agent.str_of_optional].
    split; [reflexivity|]. split; [reflexivity|].
    split.
    + intros _. split; [reflexivity|]. eexists. reflexivity.
    + intros Hn. exfalso. apply Hn. reflexivity.
Qed.

(** With the network down the module's entry point still ends with
    status 0. *)
Lemma X19_fetcher_main_witness :
  fst (run_script fetcher_main world_network_down) = 0%Z.
Proof.
  exact (proj1 (proj1 (proj2 (proj2 (X19_fetcher_main world_network_down))) I)).
Defined.

(** X20. The entry point of the sender module shows the configuration
    without the password: its output is the same whatever SMTP_PASSWORD
    holds.  It shows "Not configured" for an empty user, downloads nothing
    and sends nothing, and fails, before printing anything, exactly when
    SMTP_PORT is not an integer. *)
Theorem X20_sender_main (w : world) :
  (forall password,
      run_script sender_main
        (with_env w (setenv (getenv w) "SMTP_PASSWORD" password)) =
      run_script sender_main w) /\
  downloads (snd (run_script sender_main w)) = 0 /\
  notifications (snd (run_script sender_main w)) = 0 /\
  (fst (run_script sender_main w) <> 0%Z <->
   EmailSender.parse_int (env_or w "SMTP_PORT" "587") = None) /\
  (fst (run_script sender_main w) <> 0%Z ->
   run_script sender_main w = (1%Z, [])) /\
  (fst (run_script sender_main w) = 0%Z ->
   env_or w "SMTP_USER" "" = "" ->
   In "SMTP User: Not configured" (printed (snd (run_script sender_main w)))).
Proof.
  split.
  { intros password. rewrite !sender_main_outline. reflexivity. }
  rewrite sender_main_outline.
  destruct (EmailSender.parse_int _) as [port|]; cbn [fst snd].
  - rewrite downloads_prints, notifications_prints, printed_prints.
    repeat split; try congruence.
    intros _ ->. cbn. auto.
  - repeat split; try congruence.
Qed.

(** The sample environment with another password prints the same. *)
Lemma X20_sender_main_witness :
  run_script sender_main
    (with_env world_example (setenv (getenv world_example) "SMTP_PASSWORD"
                               "another secret")) =
  run_script sender_main world_example /\
  In "SMTP User: Not configured"
     (printed (snd (run_script sender_main world_unconfigured))).
Proof.
  split.
  - apply (proj1 (X20_sender_main world_example)).
  - apply (proj2 (proj2 (proj2 (proj2 (proj2
             (X20_sender_main world_unconfigured)))))); reflexivity.
Defined.

(** X21. The agent keeps the password to itself: two runs that differ
    only in the value of a non-empty SMTP_PASSWORD, the SMTP session ending
    the same way, print the same lines, send the same message and end with
    the same status. *)
Theorem X21_run_hides_password (w : world) (password password' : string) :
  password <> "" -> password' <> "" ->
  Agent.run (with_env w (setenv (getenv w) "SMTP_PASSWORD" password)) =
  Agent.run (with_env w (setenv (getenv w) "SMTP_PASSWORD" password')).
Proof.
  intros Hp Hp'. rewrite !run_outline_correct.
  unfold run_outline. cbn [fetch_result with_env upstream].
  change (fetch_result (with_env w (setenv (getenv w) "SMTP_PASSWORD" password)))
    with (fetch_result w).
  change (fetch_result (with_env w (setenv (getenv w) "SMTP_PASSWORD" password')))
    with (fetch_result w).
  destruct (Agent.truthy_text (snd (fetch_result w))); [reflexivity|].
  destruct (fst (fetch_result w)) as [data|]; [|reflexivity].
  cbv zeta.
  destruct (summary_body data) as [body|]; [|reflexivity].
  change (env_or (with_env w (setenv (getenv w) "SMTP_PASSWORD" password))
            "SMTP_PORT" "587") with (env_or w "SMTP_PORT" "587").
  change (env_or (with_env w (setenv (getenv w) "SMTP_PASSWORD" password'))
            "SMTP_PORT" "587") with (env_or w "SMTP_PORT" "587").
  destruct (EmailSender.py_int _) as [port|]; [|reflexivity].
  change (configured (with_env w (setenv (getenv w) "SMTP_PASSWORD" password)))
    with (configured w).
  change (configured (with_env w (setenv (getenv w) "SMTP_PASSWORD" password')))
    with (configured w).
  destruct (configured w); [|reflexivity].
  destruct (EmailSender.html_rows _ _) as [html|]; [|reflexivity].
  change (env_or (with_env w (setenv (getenv w) "SMTP_PASSWORD" password))
            "SMTP_PASSWORD" "") with password.
  change (env_or (with_env w (setenv (getenv w) "SMTP_PASSWORD" password'))
            "SMTP_PASSWORD" "") with password'.
  assert (Hn : EmailSender.nonempty password = true).
  { destruct (EmailSender.nonempty password) eqn:E; [reflexivity|].
    apply nonempty_false in E. contradiction. }
  assert (Hn' : EmailSender.nonempty password' = true).
  { destruct (EmailSender.nonempty password') eqn:E; [reflexivity|].
    apply nonempty_false in E. contradiction. }
  rewrite Hn, Hn'. reflexivity.
Qed.

(** Two passwords, one trace. *)
Lemma X21_run_hides_password_witness :
  Agent.run (with_env world_example
               (setenv (getenv world_example) "SMTP_PASSWORD" "secret")) =
  Agent.run (with_env world_example
               (setenv (getenv world_example) "SMTP_PASSWORD" "another secret")).
Proof. apply X21_run_hides_password; discriminate. Defined.

(** ** What the parser reads of a sheet *)

Section SheetFrame.

Lemma scan_from_app r1 : forall idx r2 c,
  scan_from idx (r1 ++ r2) c = scan_from (idx + List.length r1) r2 (scan_from idx r1 c).
Proof.
  induction r1 as [|v r1 IH]; intros idx r2 c; simpl.
  - now rewrite Nat.add_0_r.
  - rewrite IH. f_equal. lia.
Qed.

Lemma scan_from_blank k : forall idx c,
  scan_from idx (repeat CNone k) c = c.
Proof.
  induction k as [|k IH]; intros idx c; simpl; [reflexivity|].
  rewrite IH. unfold scan_step. simpl. now destruct c.
Qed.

(** Blank cells at the end of the header row change nothing. *)
Lemma locate_columns_padded row k :
  locate_columns (row ++ repeat CNone k) = locate_columns row.
Proof.
  unfold locate_columns, scan. now rewrite scan_from_app, scan_from_blank.
Qed.

Lemma nth_padded (row : list cell) k i :
  nth i (row ++ repeat CNone k) CNone = nth i row CNone.
Proof.
  destruct (Nat.lt_ge_cases i (List.length row)) as [Hlt|Hge].
  - now apply app_nth1.
  - rewrite app_nth2 by exact Hge. rewrite (nth_overflow row CNone Hge).
    apply nth_repeat.
Qed.

Lemma observation_of_row_padded c2 c5 c10 row k :
  observation_of_row c2 c5 c10 (row ++ repeat CNone k) =
  observation_of_row c2 c5 c10 row.
Proof.
  destruct row as [|v row'].
  - destruct k; reflexivity.
  - destruct v; try reflexivity.
    change ((CDatetime d :: row') ++ repeat CNone k)%list
      with (CDatetime d :: (row' ++ repeat CNone k))%list.
    unfold observation_of_row.
    change (CDatetime d :: (row' ++ repeat CNone k))%list
      with ((CDatetime d :: row') ++ repeat CNone k)%list.
    now rewrite !nth_padded.
Qed.

Lemma observations_padded c2 c5 c10 (pad : list cell -> nat) rows :
  observations c2 c5 c10 (map (fun r => r ++ repeat CNone (pad r))%list rows) =
  observations c2 c5 c10 rows.
Proof.
  induction rows as [|row rest IH]; [reflexivity|].
  cbn [map observations]. rewrite observation_of_row_padded, IH. reflexivity.
Qed.

Lemma rows_from {A} (g : list cell -> A) (rows : list (list cell)) : forall k,
  map (fun i => g (nth (i - 1) rows [])) (seq (S k) (List.length rows - k)) =
  map g (skipn k rows).
Proof.
  induction rows as [|a t IH]; intros k.
  - destruct k; reflexivity.
  - destruct k as [|k].
    + cbn [List.length Nat.sub seq map skipn]. f_equal.
      specialize (IH 0). rewrite Nat.sub_0_r in IH. cbn [skipn] in IH.
      rewrite <- IH, <- seq_shift, map_map.
      apply map_ext_in. intros i Hi. apply in_seq in Hi.
      destruct i as [|i]; [lia|]. cbn [Nat.sub]. rewrite Nat.sub_0_r.
      destruct i; reflexivity.
    + cbn [List.length Nat.sub skipn]. rewrite <- IH, <- seq_shift, map_map.
      apply map_ext_in. intros i Hi. apply in_seq in Hi.
      destruct i as [|i]; [lia|]. cbn [Nat.sub]. rewrite Nat.sub_0_r.
      destruct i; reflexivity.
Qed.

Lemma data_rows_skipn ws :
  data_rows_of ws =
  map (fun r => r ++ repeat CNone (max_column ws - List.length r))%list
    (skipn 5 (ws_rows ws)).
Proof.
  unfold data_rows_of, iter_rows, row_values, max_row.
  rewrite <- (rows_from
                (fun r => r ++ repeat CNone (max_column ws - List.length r))%list
                (ws_rows ws) 5).
  f_equal. f_equal. lia.
Qed.

(** The parser on the stored rows, without the padding: only row 4 and the
    rows from 6 on are read. *)
Lemma parse_sheet_stored ws :
  _parse_ois_sheet ws =
  match locate_columns (nth 3 (ws_rows ws) []) with
  | Ok (c2, c5, c10) =>
      select_and_build (observations c2 c5 c10 (skipn 5 (ws_rows ws)))
  | Raise e => Raise e
  end.
Proof.
  rewrite parse_sheet_unfold. unfold maturity_row_of, row_values.
  cbn [Nat.sub]. rewrite locate_columns_padded.
  destruct (locate_columns _) as [[[c2 c5] c10]|e]; [|reflexivity].
  rewrite data_rows_skipn.
  now rewrite (observations_padded c2 c5 c10
                 (fun r => max_column ws - List.length r)).
Qed.

End SheetFrame.

Section OlderRows.

Lemma insert_desc_split x s :
  exists s1 s2, insert_desc x s = (s1 ++ x :: s2)%list /\ s = (s1 ++ s2)%list.
Proof.
  induction s as [|y t IH]; simpl.
  - exists [], []. split; reflexivity.
  - destruct (dt_ltb (date x) (date y)).
    + destruct IH as (s1 & s2 & H1 & H2).
      exists (y :: s1), s2. rewrite H1, H2. split; reflexivity.
    + exists [], (y :: t). split; reflexivity.
Qed.

(** Inserting a row into a sorted list leaves another row of the list in
    place relative to the rest. *)
Lemma insert_desc_around x o s1 : forall s2,
  StronglySorted not_earlier (s1 ++ o :: s2) ->
  exists s1' s2',
    insert_desc x (s1 ++ o :: s2) = (s1' ++ o :: s2')%list /\
    insert_desc x (s1 ++ s2) = (s1' ++ s2')%list.
Proof.
  induction s1 as [|y s1 IH]; intros s2 Hs.
  - cbn [List.app insert_desc]. destruct (dt_ltb (date x) (date o)) eqn:E.
    + exists [], (insert_desc x s2). split; reflexivity.
    + exists [x], s2. split; [reflexivity|].
      destruct s2 as [|z s2]; [reflexivity|].
      cbn [insert_desc List.app].
      apply StronglySorted_inv in Hs. destruct Hs as [_ Hall].
      apply Forall_inv in Hall. unfold not_earlier in Hall.
      apply dt_ltb_false_leb in E.
      pose proof (dt_leb_trans _ _ _ Hall E) as Hzx.
      destruct (dt_ltb (date x) (date z)) eqn:Exz; [|reflexivity].
      apply dt_ltb_not_leb in Exz. congruence.
  - cbn [List.app insert_desc]. destruct (dt_ltb (date x) (date y)).
    + apply StronglySorted_inv in Hs. destruct Hs as [Hs _].
      destruct (IH s2 Hs) as (s1' & s2' & H1 & H2).
      exists (y :: s1'), s2'. cbn [List.app]. rewrite H1, H2. split; reflexivity.
    + exists (x :: y :: s1), s2. split; reflexivity.
Qed.

Lemma sort_desc_around l1 : forall l2 o,
  exists s1 s2,
    sort_desc (l1 ++ o :: l2) = (s1 ++ o :: s2)%list /\
    sort_desc (l1 ++ l2) = (s1 ++ s2)%list.
Proof.
  induction l1 as [|x l1 IH]; intros l2 o.
  - cbn [List.app]. change (sort_desc (o :: l2)) with (insert_desc o (sort_desc l2)).
    apply insert_desc_split.
  - destruct (IH l2 o) as (s1 & s2 & H1 & H2).
    change (sort_desc ((x :: l1) ++ o :: l2))
      with (insert_desc x (sort_desc (l1 ++ o :: l2))).
    change (sort_desc ((x :: l1) ++ l2))
      with (insert_desc x (sort_desc (l1 ++ l2))).
    rewrite H1, H2. apply insert_desc_around.
    rewrite <- H1. apply sort_desc_sorted.
Qed.

(** A row older than the second of the sorted list does not reach the
    first two places. *)
Lemma sort_desc_older l1 l2 o latest prev rest :
  sort_desc (l1 ++ l2) = latest :: prev :: rest ->
  dt_ltb (date o) (date prev) = true ->
  exists rest', sort_desc (l1 ++ o :: l2) = latest :: prev :: rest'.
Proof.
  intros Hs Hold.
  destruct (sort_desc_around l1 l2 o) as (s1 & s2 & H1 & H2).
  pose proof (sort_desc_sorted (l1 ++ o :: l2)) as Hsorted.
  rewrite H1 in Hsorted. rewrite H2 in Hs.
  apply dt_ltb_not_leb in Hold.
  destruct s1 as [|a [|b s1]]; cbn [List.app] in *.
  - exfalso. subst s2.
    apply StronglySorted_inv in Hsorted. destruct Hsorted as [_ Hall].
    rewrite Forall_forall in Hall.
    specialize (Hall prev (or_intror (or_introl eq_refl))).
    unfold not_earlier in Hall. congruence.
  - exfalso. injection Hs as -> ->.
    apply StronglySorted_inv in Hsorted. destruct Hsorted as [Hs' _].
    apply StronglySorted_inv in Hs'. destruct Hs' as [_ Hall].
    apply Forall_inv in Hall. unfold not_earlier in Hall. congruence.
  - injection Hs as -> -> _. rewrite H1. eauto.
Qed.

Lemma observations_app c2 c5 c10 r1 r2 :
  observations c2 c5 c10 (r1 ++ r2) =
  (observations c2 c5 c10 r1 ++ observations c2 c5 c10 r2)%list.
Proof.
  induction r1 as [|row r1 IH]; [reflexivity|].
  cbn [List.app observations]. destruct (observation_of_row c2 c5 c10 row);
    rewrite IH; reflexivity.
Qed.

Lemma skipn_head {A} (head rest : list A) :
  skipn (List.length head) (head ++ rest) = rest.
Proof. induction head; [reflexivity|assumption]. Qed.

Lemma nth_head {A} (head rest rest' : list A) i d :
  i < List.length head -> nth i (head ++ rest) d = nth i (head ++ rest') d.
Proof. intros H. now rewrite !app_nth1. Qed.

End OlderRows.

(** X22. The parser reads row 4 and the rows from row 6 on, nothing else:
    two sheets that store the same cells there parse to the same result,
    whatever their first three rows and their row 5 hold and however wide
    those rows make the sheet. *)
Theorem X22_parser_reads_header_and_data_only (ws ws' : worksheet) :
  nth 3 (ws_rows ws) [] = nth 3 (ws_rows ws') [] ->
  skipn 5 (ws_rows ws) = skipn 5 (ws_rows ws') ->
  _parse_ois_sheet ws = _parse_ois_sheet ws'.
Proof.
  intros H4 H6. rewrite !parse_sheet_stored, H4, H6. reflexivity.
Qed.

(** The sample sheet with other titles, one of them wider than the
    table. *)
Lemma X22_parser_reads_header_and_data_only_witness :
  _parse_ois_sheet sheet_example =
  _parse_ois_sheet
    (Worksheet [[CStr "a"; CStr "b"; CStr "c"; CStr "d"; CStr "e"; CStr "f";
                 CStr "g"; CStr "h"; CStr "i"; CStr "j"; CStr "k"];
                [CInt 2; CInt 5; CInt 10]; [CDatetime (day 2030 Jan 1)];
                header_example; [CDatetime (day 2031 Jan 1); CInt 7];
                row_june_7; row_june_10; [CStr "Source: Bank of England"]]).
Proof.
  apply X22_parser_reads_header_and_data_only; reflexivity.
Defined.

(** X23. History does not matter: a further dated row, anywhere among the
    data rows, leaves the snapshot as it is when its date is earlier than
    the previous date of the snapshot, whatever its other cells hold. *)
Theorem X23_older_rows_irrelevant (head rows_a rows_b : list (list cell))
  (d : datetime) (cells : list cell) (snap : snapshot) :
  List.length head = 5 ->
  _parse_ois_sheet (Worksheet (head ++ rows_a ++ rows_b)) = Ok snap ->
  dt_ltb d (previous_date snap) = true ->
  _parse_ois_sheet
    (Worksheet (head ++ rows_a ++ (CDatetime d :: cells) :: rows_b)) = Ok snap.
Proof.
  intros Hlen Hp Hold.
  rewrite parse_sheet_stored in *. cbn [ws_rows] in *.
  rewrite <- Hlen in *. rewrite skipn_head in *.
  rewrite (nth_head head _ (rows_a ++ rows_b)) by (rewrite Hlen; lia).
  destruct (locate_columns _) as [[[c2 c5] c10]|e]; [|discriminate].
  rewrite observations_app in *. cbn [observations observation_of_row].
  unfold select_and_build in *.
  destruct (sort_desc (observations c2 c5 c10 rows_a ++
                       observations c2 c5 c10 rows_b))
    as [|latest [|prev rest]] eqn:Hs; try discriminate.
  destruct (build_result_dates latest prev snap Hp) as [_ Hd].
  rewrite Hd in Hold.
  destruct (sort_desc_older _ _
              (Observation d (nth c2 (CDatetime d :: cells) CNone)
                 (nth c5 (CDatetime d :: cells) CNone)
                 (nth c10 (CDatetime d :: cells) CNone))
              latest prev rest Hs Hold) as (rest' & ->).
  exact Hp.
Qed.

(** The sample sheet with a row of May between its two rows. *)
Lemma X23_older_rows_irrelevant_witness :
  _parse_ois_sheet
    (Worksheet ([[CStr "Spot curve"]; []; []; header_example; [CStr "years:"]] ++
                [row_june_7] ++
                (CDatetime (day 2024 May 31) :: [CStr "n/a"]) ::
                [row_june_10])) = Ok snapshot_example.
Proof.
  apply (X23_older_rows_irrelevant
           [[CStr "Spot curve"]; []; []; header_example; [CStr "years:"]]
           [row_june_7] [row_june_10]).
  - reflexivity.
  - vm_compute. reflexivity.
  - reflexivity.
Defined.
